(** * Smart Expense Tracker: a shallow embedding of [tracker.py]

    The development follows the layout of the source file: database helpers
    (password digests, the two SQLite tables), the categorization logic, the
    data operations, the authentication helpers and the page handlers of the
    Streamlit application.

    Conventions.
    - Python [str] values are [string]s, read as the UTF-8 bytes of the text.
      [str.strip] removes the white space of Unicode, [str.lower] maps an
      ASCII text byte by byte and asks the Unicode database for any other
      text; [kw in desc] on UTF-8 bytes is the test on characters, since no
      encoding of a character starts inside another.
    - Python [float] values are binary64 numbers ([PrimFloat.float]); the
      order tests of the program ([<= 0], [> 0]) are the IEEE ones, false on
      NaN.
    - A statement run against SQLite is a function on the tables; the session
      state of Streamlit and the widgets' return values are arguments of the
      handlers; what a handler shows ([st.error], [st.success], [st.info]) is
      part of its result.
    - Third-party routines whose behaviour on arbitrary text is not the
      program's (the case mapping of Unicode, the C library's [%Y] for a
      short year, Python's [float(str)], dateutil's [parser.parse], SQLite's
      [date()], pandas' [to_datetime]) are the fields of the class
      [Runtime], and the statements hold for every runtime;
      [Canonical.runtime] is an instance on decimal numerals and ISO
      dates, with glibc as the C library, on which the examples run. *)

From Stdlib Require Import List String Ascii Bool ZArith Lia.
From Stdlib Require Import Floats Uint63.
From Stdlib Require Import Sorting.Sorted Sorting.Permutation.
Import ListNotations.

Local Open Scope string_scope.
Local Open Scope Z_scope.
Local Open Scope list_scope.

(* ===================================================================== *)
(** * Third-party routines                                                *)
(* ===================================================================== *)

(** [datetime.date]: year, month and day. *)
Record Date : Type := mkDate { year : Z; month : Z; day : Z }.

(** [pandas.Timestamp] without a time zone: a date and the nanoseconds
    since midnight. *)
Record Timestamp : Type := mkTimestamp { ts_date : Date; ts_nanos : Z }.

(** What the program asks of Python, the C library, dateutil, SQLite and
    pandas on inputs that the program itself does not constrain. [None]
    stands for a raised exception, or for SQL's NULL in [sqlite_date]. *)
Class Runtime : Type := {
  (** [s.lower()] for a text [s] that is not all ASCII: the case mapping
      of the Unicode database the interpreter was built with. *)
  unicode_lower : string -> string;
  (** What [%Y] of [strftime] writes for a year below 1000: the C library
      decides (glibc writes 999, others write 0999). *)
  strftime_Y : Z -> string;
  (** [float(s)] for a string [s]. *)
  float_of_str : string -> option float;
  (** [dateutil.parser.parse(s).date()]. *)
  parse_date : string -> option Date;
  (** SQLite's [date(X)] on a text value. *)
  sqlite_date : string -> option string;
  (** [pandas.to_datetime] on an object column of strings: the format is
      inferred over the column, so the routine takes the whole column. *)
  to_datetime : list string -> option (list Timestamp)
}.

(* ===================================================================== *)
(** * Text                                                                *)
(* ===================================================================== *)

Module Text.

(** A text all of whose characters are ASCII: every byte is below 128. *)
Definition is_ascii_char (c : ascii) : bool := (N_of_ascii c <? 128)%N.

Fixpoint is_ascii (s : string) : bool :=
  match s with
  | EmptyString => true
  | String c r => is_ascii_char c && is_ascii r
  end.

(** The lowercase of an ASCII character: the letters [A]..[Z] move to
    [a]..[z], every other one stays. *)
Definition lower_ascii (c : ascii) : ascii :=
  let n := N_of_ascii c in
  if ((65 <=? n) && (n <=? 90))%N then ascii_of_N (n + 32) else c.

Fixpoint ascii_lower (s : string) : string :=
  match s with
  | EmptyString => EmptyString
  | String c r => String (lower_ascii c) (ascii_lower r)
  end.

(** [s.lower()]. The interpreter maps an ASCII text character by
    character and takes every other text through the case mapping of
    Unicode, which also rewrites characters outside ASCII (the Kelvin sign
    becomes [k]). *)
Definition lower {R : Runtime} (s : string) : string :=
  if is_ascii s then ascii_lower s else unicode_lower s.

(** [prefix_of p s]: [s] starts with [p]. *)
Fixpoint prefix_of (p s : string) : bool :=
  match p, s with
  | EmptyString, _ => true
  | String _ _, EmptyString => false
  | String a p', String b s' => Ascii.eqb a b && prefix_of p' s'
  end.

(** Python's [kw in desc] on strings: [kw] occurs in [desc] at some
    offset. *)
Fixpoint contains (kw desc : string) : bool :=
  prefix_of kw desc ||
  match desc with
  | EmptyString => false
  | String _ rest => contains kw rest
  end.

(** The relational reading of "is a substring of". *)
Definition substring_of (kw desc : string) : Prop :=
  exists pre post : string, desc = (pre ++ kw ++ post)%string.

(** The byte of value [n]. *)
Definition byte (n : Z) : ascii := ascii_of_N (Z.to_N n).

(** The UTF-8 bytes of a character, given by its code point: one to four
    bytes. *)
Definition utf8 (cp : Z) : string :=
  if cp <? 0x80 then String (byte cp) ""
  else if cp <? 0x800 then
    String (byte (0xC0 + cp / 0x40)) (String (byte (0x80 + cp mod 0x40)) "")
  else if cp <? 0x10000 then
    String (byte (0xE0 + cp / 0x1000))
      (String (byte (0x80 + (cp / 0x40) mod 0x40)) (String (byte (0x80 + cp mod 0x40)) ""))
  else
    String (byte (0xF0 + cp / 0x40000))
      (String (byte (0x80 + (cp / 0x1000) mod 0x40))
         (String (byte (0x80 + (cp / 0x40) mod 0x40)) (String (byte (0x80 + cp mod 0x40)) ""))).

(** The characters for which [str.isspace] holds, the ones [strip]
    removes: TAB, LF, VT, FF, CR, the separators FS, GS, RS, US and the
    space in ASCII; NEL, the no-break space, the Ogham space mark, the
    spaces U+2000..U+200A, the line and paragraph separators, the narrow
    no-break space, the mathematical space and the ideographic space
    outside it. *)
Definition whitespace : list Z :=
  [ 0x09; 0x0A; 0x0B; 0x0C; 0x0D; 0x1C; 0x1D; 0x1E; 0x1F; 0x20; 0x85; 0xA0; 0x1680;
    0x2000; 0x2001; 0x2002; 0x2003; 0x2004; 0x2005; 0x2006; 0x2007; 0x2008; 0x2009;
    0x200A; 0x2028; 0x2029; 0x202F; 0x205F; 0x3000 ].

(** [drop_prefix p s]: what follows [p] in [s], when [s] starts with [p]. *)
Fixpoint drop_prefix (p s : string) : option string :=
  match p, s with
  | EmptyString, _ => Some s
  | String _ _, EmptyString => None
  | String a p', String b s' => if Ascii.eqb a b then drop_prefix p' s' else None
  end.

(** [drop_suffix p s]: what stands before [p] in [s], when [s] ends with
    [p]. *)
Fixpoint drop_suffix (p s : string) : option string :=
  match s with
  | EmptyString => if String.eqb p "" then Some "" else None
  | String c r =>
      if String.eqb p s then Some ""
      else match drop_suffix p r with
           | Some t => Some (String c t)
           | None => None
           end
  end.

(** The first of the results that is there. *)
Fixpoint first_some {A : Type} (l : list (option A)) : option A :=
  match l with
  | [] => None
  | Some a :: _ => Some a
  | None :: r => first_some r
  end.

(** The text without its first character, when that is white space, and
    the same at the end. *)
Definition drop_space (s : string) : option string :=
  first_some (map (fun cp => drop_prefix (utf8 cp) s) whitespace).

Definition drop_space_end (s : string) : option string :=
  first_some (map (fun cp => drop_suffix (utf8 cp) s) whitespace).

(** Dropping for as long as something is dropped; a text of [n] bytes
    has lost all it can lose after [n] rounds. *)
Fixpoint drop_while (drop : string -> option string) (rounds : nat) (s : string) : string :=
  match rounds with
  | O => s
  | S rounds' =>
      match drop s with
      | Some r => drop_while drop rounds' r
      | None => s
      end
  end.

Definition lstrip (s : string) : string := drop_while drop_space (String.length s) s.

Definition rstrip (s : string) : string := drop_while drop_space_end (String.length s) s.

(** [s.strip()]. *)
Definition strip (s : string) : string := rstrip (lstrip s).

(** Decimal text of an integer, as [str(int)] writes it. *)
Definition digit_char (d : Z) : ascii := ascii_of_N (48 + Z.to_N d).

Fixpoint digits_of (fuel : nat) (n : Z) (acc : string) : string :=
  match fuel with
  | O => acc
  | S fuel' =>
      let acc' := String (digit_char (n mod 10)) acc in
      if n <? 10 then acc' else digits_of fuel' (n / 10) acc'
  end.

Definition str_of_Z (z : Z) : string :=
  let body := digits_of (S (Z.to_nat (Z.log2 (Z.abs z)))) (Z.abs z) "" in
  if z <? 0 then String "-" body else body.

End Text.

(* ===================================================================== *)
(** * SHA-256 (FIPS 180-4), the digest behind [hash_password]             *)
(* ===================================================================== *)

Module Sha256.

(** Words are 32-bit, kept in [Z] with the wrap-around written out. *)
Definition mask32 : Z := 0xFFFFFFFF.
Definition wrap (x : Z) : Z := Z.land x mask32.
Definition add32 (x y : Z) : Z := wrap (x + y).
Definition rotr (n x : Z) : Z := Z.lor (Z.shiftr x n) (wrap (Z.shiftl x (32 - n))).
Definition shr (n x : Z) : Z := Z.shiftr x n.
Definition xor3 (x y z : Z) : Z := Z.lxor (Z.lxor x y) z.

Definition Ch (x y z : Z) : Z :=
  Z.lxor (Z.land x y) (Z.land (Z.lxor x mask32) z).
Definition Maj (x y z : Z) : Z :=
  xor3 (Z.land x y) (Z.land x z) (Z.land y z).
Definition bsig0 (x : Z) : Z := xor3 (rotr 2 x) (rotr 13 x) (rotr 22 x).
Definition bsig1 (x : Z) : Z := xor3 (rotr 6 x) (rotr 11 x) (rotr 25 x).
Definition ssig0 (x : Z) : Z := xor3 (rotr 7 x) (rotr 18 x) (shr 3 x).
Definition ssig1 (x : Z) : Z := xor3 (rotr 17 x) (rotr 19 x) (shr 10 x).

(** The constants are defined as the standard defines them: the first 32
    bits of the fractional parts of the cube roots ([K]) and of the square
    roots ([H0]) of the first primes. *)
Definition is_prime (n : nat) : bool :=
  forallb (fun d => negb (Nat.eqb (Nat.modulo n d) 0)) (seq 2 (n - 2)).

Definition primes (count : nat) : list Z :=
  map Z.of_nat (firstn count (List.filter is_prime (seq 2 310))).

(** The largest [r] below [2 ^ bits] with [r ^ 3 <= n], bit by bit. *)
Fixpoint cube_root (bits : nat) (n r : Z) : Z :=
  match bits with
  | O => r
  | S b =>
      let r' := r + 2 ^ Z.of_nat b in
      cube_root b n (if r' * r' * r' <=? n then r' else r)
  end.

Definition K : list Z :=
  Eval vm_compute in map (fun p => wrap (cube_root 35 (p * 2 ^ 96) 0)) (primes 64).

Definition H0 : list Z :=
  Eval vm_compute in map (fun p => wrap (Z.sqrt (p * 2 ^ 64))) (primes 8).

(** Padding: the byte 0x80, zero bytes up to 56 modulo 64, and the bit
    length of the message as eight big-endian bytes. *)
Fixpoint be_bytes (n : nat) (x : Z) : list Z :=
  match n with
  | O => []
  | S n' => Z.land (Z.shiftr x (8 * Z.of_nat n')) 0xFF :: be_bytes n' x
  end.

Definition pad (msg : list Z) : list Z :=
  let len := Z.of_nat (List.length msg) in
  let zeros := Z.to_nat ((55 - len) mod 64) in
  msg ++ [0x80] ++ repeat 0 zeros ++ be_bytes 8 (8 * len).

Fixpoint words (fuel : nat) (bs : list Z) : list Z :=
  match fuel, bs with
  | S fuel', b0 :: b1 :: b2 :: b3 :: rest =>
      (Z.shiftl b0 24 + Z.shiftl b1 16 + Z.shiftl b2 8 + b3) :: words fuel' rest
  | _, _ => []
  end.

Fixpoint blocks (fuel : nat) (ws : list Z) : list (list Z) :=
  match fuel, ws with
  | O, _ | _, [] => []
  | S fuel', _ => firstn 16 ws :: blocks fuel' (skipn 16 ws)
  end.

(** The message schedule, most recent word first while it is built. *)
Fixpoint schedule (n : nat) (rev_ws : list Z) : list Z :=
  match n with
  | O => rev rev_ws
  | S n' =>
      let w := add32 (add32 (ssig1 (nth 1 rev_ws 0)) (nth 6 rev_ws 0))
                     (add32 (ssig0 (nth 14 rev_ws 0)) (nth 15 rev_ws 0)) in
      schedule n' (w :: rev_ws)
  end.

Definition round (st : list Z) (kw : Z * Z) : list Z :=
  match st with
  | [a; b; c; d; e; f; g; h] =>
      let t1 := add32 (add32 (add32 h (bsig1 e)) (add32 (Ch e f g) (fst kw))) (snd kw) in
      let t2 := add32 (bsig0 a) (Maj a b c) in
      [add32 t1 t2; a; b; c; add32 d t1; e; f; g]
  | _ => st
  end.

Definition compress (h : list Z) (block : list Z) : list Z :=
  let ws := schedule 48 (rev block) in
  map (fun p => add32 (fst p) (snd p)) (combine h (fold_left round (combine K ws) h)).

Definition digest_words (msg : list Z) : list Z :=
  let padded := pad msg in
  let ws := words (List.length padded) padded in
  fold_left compress (blocks (List.length ws) ws) H0.

Definition hex_char (d : Z) : ascii :=
  if d <? 10 then ascii_of_N (48 + Z.to_N d) else ascii_of_N (87 + Z.to_N d).

Fixpoint hex_word (n : nat) (x : Z) : string :=
  match n with
  | O => EmptyString
  | S n' => String (hex_char (Z.land (Z.shiftr x (4 * Z.of_nat n')) 0xF)) (hex_word n' x)
  end.

Definition bytes_of (s : string) : list Z :=
  map (fun c => Z.of_N (N_of_ascii c)) (list_ascii_of_string s).

(** [hashlib.sha256(data).hexdigest()]. *)
Definition hexdigest (s : string) : string :=
  String.concat "" (map (hex_word 8) (digest_words (bytes_of s))).

End Sha256.

(* ===================================================================== *)
(** * Python values, exceptions and floats                                *)
(* ===================================================================== *)

(** The exceptions the program can meet. *)
Inductive exn : Type :=
| ValueError
| TypeError
| OverflowError
| ParserError
| IntegrityError.

(** A computation that returns or raises. *)
Inductive result (A : Type) : Type :=
| Ok (a : A)
| Raise (e : exn).

Arguments Ok {A} a.
Arguments Raise {A} e.

Definition bind {A B : Type} (m : result A) (k : A -> result B) : result B :=
  match m with
  | Ok a => k a
  | Raise e => Raise e
  end.

Notation "x <- m ;; k" := (bind m (fun x => k))
  (at level 61, m at next level, right associativity).

Fixpoint map_result {A B : Type} (f : A -> result B) (l : list A) : result (list B) :=
  match l with
  | [] => Ok []
  | a :: r => b <- f a ;; bs <- map_result f r ;; Ok (b :: bs)
  end.

(** Values a cell of a data frame or a function argument can hold. *)
Inductive pyval : Type :=
| PNone
| PBool (b : bool)
| PInt (z : Z)
| PFloat (x : float)
| PStr (s : string).

Module PyFloat.

Definition zero : float := 0%float.

(** [x <= 0] and [x > 0] on floats. *)
Definition le0 (x : float) : bool := (x <=? zero)%float.
Definition gt0 (x : float) : bool := (zero <? x)%float.

(** [float(n)] for an integer: the nearest binary64 number, ties to even;
    [OverflowError] when the integer is beyond the largest float. *)
Definition of_Z (z : Z) : result float :=
  let x := SF2Prim (binary_normalize prec emax z 0 false) in
  if is_infinity x then Raise OverflowError else Ok x.

End PyFloat.

(* ===================================================================== *)
(** * Calendar dates                                                      *)
(* ===================================================================== *)

Module Dates.

Definition lex (c1 c2 : comparison) : comparison :=
  match c1 with
  | Eq => c2
  | _ => c1
  end.

(** The order of [date] objects: by year, then month, then day. *)
Definition compare (a b : Date) : comparison :=
  lex (year a ?= year b) (lex (month a ?= month b) (day a ?= day b)).

Definition leb (a b : Date) : bool :=
  match compare a b with Gt => false | _ => true end.

(** Python's [a > b]. *)
Definition gtb (a b : Date) : bool :=
  match compare a b with Gt => true | _ => false end.

Definition ts_compare (a b : Timestamp) : comparison :=
  lex (compare (ts_date a) (ts_date b)) (ts_nanos a ?= ts_nanos b).

Definition ts_leb (a b : Timestamp) : bool :=
  match ts_compare a b with Gt => false | _ => true end.

Definition midnight (d : Date) : Timestamp := mkTimestamp d 0.

Definition is_leap (y : Z) : bool :=
  ((y mod 4 =? 0) && negb (y mod 100 =? 0)) || (y mod 400 =? 0).

Definition days_in_month (y m : Z) : Z :=
  if m =? 2 then (if is_leap y then 29 else 28)
  else if (m =? 4) || (m =? 6) || (m =? 9) || (m =? 11) then 30
  else 31.

(** The dates [datetime.date] can hold. *)
Definition valid (d : Date) : bool :=
  (1 <=? year d) && (year d <=? 9999) &&
  (1 <=? month d) && (month d <=? 12) &&
  (1 <=? day d) && (day d <=? days_in_month (year d) (month d)).

(** [w] decimal digits of [n], most significant first, zero padded. *)
Fixpoint pad (w : nat) (n : Z) : string :=
  match w with
  | O => EmptyString
  | S w' =>
      let p := 10 ^ Z.of_nat w' in
      String (Text.digit_char (n / p)) (pad w' (n mod p))
  end.

(** [str(d)], that is [d.isoformat()]: ["%04d-%02d-%02d"]. *)
Definition isoformat (d : Date) : string :=
  (pad 4 (year d) ++ "-" ++ pad 2 (month d) ++ "-" ++ pad 2 (day d))%string.

(** [d.strftime("%Y-%m-%d")]: month and day take two digits; a year of
    four digits is written as it is, a shorter one as the C library writes
    it. *)
Definition year_text {R : Runtime} (y : Z) : string :=
  if 1000 <=? y then pad 4 y else strftime_Y y.

Definition strftime_ymd {R : Runtime} (d : Date) : string :=
  (year_text (year d) ++ "-" ++ pad 2 (month d) ++ "-" ++ pad 2 (day d))%string.

(** The first and the last midnight a nanosecond [pandas.Timestamp] can
    hold: its span is 1677-09-21 00:12:43.145224193 to 2262-04-11
    23:47:16.854775807. *)
Definition in_timestamp_span (d : Date) : bool :=
  leb (mkDate 1677 9 22) d && leb d (mkDate 2262 4 11).

(** Dates of the calendar whose year has four digits: [strftime] writes
    them as the ISO text on every platform. *)
Definition four_digit (d : Date) : bool := valid d && (1000 <=? year d).

(** Dates whose text every routine below reads back unchanged: valid,
    and inside the full years of the span of a nanosecond
    [pandas.Timestamp] (1677-09-21 .. 2262-04-11). *)
Definition canonical (d : Date) : bool :=
  valid d && (1678 <=? year d) && (year d <=? 2261).

End Dates.

(* ===================================================================== *)
(** * Laws of the third-party routines                                    *)
(* ===================================================================== *)

(** What the proofs about date ranges ask of a runtime: canonical ISO text
    is a fixed point of SQLite's [date()], and pandas reads a column of it
    as the same days at midnight. *)
Record RuntimeLaws (R : Runtime) : Prop := {
  sqlite_date_iso :
    forall d, Dates.canonical d = true ->
      sqlite_date (Dates.isoformat d) = Some (Dates.isoformat d);
  to_datetime_iso :
    forall ds, Forall (fun d => Dates.canonical d = true) ds ->
      to_datetime (map Dates.isoformat ds) = Some (map Dates.midnight ds)
}.

(* ===================================================================== *)
(** * Database helpers                                                    *)
(* ===================================================================== *)

(** A row of [users(id, username UNIQUE NOT NULL, password_hash NOT NULL)]. *)
Record user_row : Type := mkUser {
  u_id : Z;
  u_username : string;
  u_password_hash : string
}.

(** A row of [expenses(id, dt TEXT NOT NULL, amount REAL NOT NULL,
    description TEXT, category TEXT, user_id INTEGER)]; the last three
    columns may hold NULL. *)
Record expense_row : Type := mkExpense {
  e_id : Z;
  e_dt : string;
  e_amount : float;
  e_description : option string;
  e_category : option string;
  e_user_id : option Z
}.

(** The file [expenses.db]: both tables in row-id order, and for each the
    largest id ever given out (SQLite's [sqlite_sequence]). *)
Record Db : Type := mkDb {
  users : list user_row;
  users_seq : Z;
  expenses : list expense_row;
  expenses_seq : Z
}.

(** The database [init_db] leaves when no file existed. *)
Definition init_db : Db := mkDb [] 0 [] 0.

(** AUTOINCREMENT: one more than every id in the table and every id ever
    given out. *)
Definition next_id (seq : Z) (ids : list Z) : Z :=
  fold_right Z.max seq ids + 1.

Definition hash_password (password : string) : string :=
  Sha256.hexdigest password.

Definition verify_password (password hashed : string) : bool :=
  String.eqb (hash_password password) hashed.

(** [SELECT ... FROM users WHERE username=:u] followed by [fetchone()]. *)
Definition select_user (username : string) (db : Db) : option user_row :=
  find (fun u => String.eqb (u_username u) username) (users db).

Definition get_user_id (username : string) (db : Db) : option Z :=
  match select_user username db with
  | Some u => Some (u_id u)
  | None => None
  end.

(** [column = :param] in a WHERE clause: true only when both sides are
    not NULL and equal. *)
Definition sql_eq (col param : option Z) : bool :=
  match col, param with
  | Some a, Some b => a =? b
  | _, _ => false
  end.

(** [x BETWEEN :lo AND :hi] on text values, compared byte by byte; NULL
    on the left selects nothing. *)
Definition sql_between (x : option string) (lo hi : string) : bool :=
  match x with
  | Some t => String.leb lo t && String.leb t hi
  | None => false
  end.

(* ===================================================================== *)
(** * Categorization logic                                                *)
(* ===================================================================== *)

Definition DEFAULT_CATEGORIES : list string :=
  [ "Food"; "Transport"; "Groceries"; "Entertainment"; "Bills";
    "Shopping"; "Health"; "Education"; "Rent"; "Misc" ].

(** The dict literal, in insertion order, which is the order [items()]
    yields; its keys are distinct. *)
Definition KEYWORD_CATEGORY_MAP : list (string * string) :=
  [ ("uber", "Transport"); ("taxi", "Transport"); ("bus", "Transport"); ("fuel", "Transport");
    ("coffee", "Food"); ("restaurant", "Food"); ("dinner", "Food"); ("lunch", "Food");
    ("breakfast", "Food");
    ("grocery", "Groceries"); ("supermarket", "Groceries"); ("walmart", "Groceries");
    ("netflix", "Entertainment"); ("movie", "Entertainment"); ("spotify", "Entertainment");
    ("electricity", "Bills"); ("water", "Bills"); ("internet", "Bills"); ("bill", "Bills");
    ("shirt", "Shopping"); ("amazon", "Shopping"); ("flipkart", "Shopping"); ("buy", "Shopping");
    ("doctor", "Health"); ("hospital", "Health"); ("medicine", "Health");
    ("tuition", "Education"); ("course", "Education"); ("books", "Education");
    ("rent", "Rent") ].

(** The [for kw, cat in ...items()] loop with its early [return]. *)
Fixpoint scan_keywords (table : list (string * string)) (desc : string) : string :=
  match table with
  | [] => "Misc"
  | (kw, cat) :: rest =>
      if Text.contains kw desc then cat else scan_keywords rest desc
  end.

(** [description or ""]: [None] and the empty string both give [""]. *)
Definition or_empty (description : option string) : string :=
  match description with
  | Some s => s
  | None => ""
  end.

Definition auto_categorize {R : Runtime} (description : option string) : string :=
  let desc := Text.lower (or_empty description) in
  scan_keywords KEYWORD_CATEGORY_MAP desc.

(* ===================================================================== *)
(** * Data operations                                                     *)
(* ===================================================================== *)

(** [INSERT INTO expenses (dt, amount, description, category, user_id)].
    The function checks nothing itself; the one failure is the table's:
    SQLite stores a NaN as NULL, which [amount REAL NOT NULL] refuses. *)
Definition add_expense (dt : string) (amount : float) (description category : string)
    (user_id : option Z) (db : Db) : result Db :=
  if is_nan amount then Raise IntegrityError
  else
    let id := next_id (expenses_seq db) (map e_id (expenses db)) in
    Ok (mkDb (users db) (users_seq db)
             (expenses db ++ [mkExpense id dt amount (Some description) (Some category) user_id])
             id).

(** A row of the data frame [fetch_expenses] returns: the selected columns
    [id, dt, amount, description, category], [dt] converted. *)
Record expense_view : Type := mkView {
  f_id : Z;
  f_dt : Timestamp;
  f_amount : float;
  f_description : option string;
  f_category : option string
}.

(** Truth value of an optional string argument: [None] and [""] are
    false. *)
Definition truthy_str (s : option string) : bool :=
  match s with
  | Some (String _ _) => true
  | _ => false
  end.

Definition view_of (p : expense_row * Timestamp) : expense_view :=
  mkView (e_id (fst p)) (snd p) (e_amount (fst p)) (e_description (fst p)) (e_category (fst p)).

(** [df.sort_values('dt', ascending=False)]: most recent first. Which of
    two rows with the same time stamp comes first is the sort's choice; the
    statements below speak of the rows of the frame and of their order by
    date only. *)
Fixpoint insert_desc (x : expense_view) (l : list expense_view) : list expense_view :=
  match l with
  | [] => [x]
  | y :: r => if Dates.ts_leb (f_dt y) (f_dt x) then x :: l else y :: insert_desc x r
  end.

Definition sort_values_desc (df : list expense_view) : list expense_view :=
  fold_right insert_desc [] df.

Section DataOperations.

Context {R : Runtime}.

(** The WHERE clause [fetch_expenses] builds: [user_id=:uid], and
    [AND date(dt) BETWEEN :start AND :end] when both bounds are truthy. *)
Definition where_clause (start_date end_date : option string) (user_id : option Z)
    (r : expense_row) : bool :=
  sql_eq (e_user_id r) user_id &&
  (if truthy_str start_date && truthy_str end_date
   then sql_between (sqlite_date (e_dt r)) (or_empty start_date) (or_empty end_date)
   else true).

Definition fetch_expenses (start_date end_date : option string) (user_id : option Z)
    (db : Db) : result (list expense_view) :=
  let df := List.filter (where_clause start_date end_date user_id) (expenses db) in
  match df with
  | [] => Ok []
  | _ :: _ =>
      match to_datetime (map e_dt df) with
      | Some dts => Ok (sort_values_desc (map view_of (combine df dts)))
      | None => Raise ValueError
      end
  end.

(** [DELETE FROM expenses WHERE user_id=:uid]. *)
Definition delete_all (user_id : option Z) (db : Db) : Db :=
  mkDb (users db) (users_seq db)
       (List.filter (fun r => negb (sql_eq (e_user_id r) user_id)) (expenses db))
       (expenses_seq db).

(** [DELETE FROM expenses WHERE user_id=:uid AND date(dt) BETWEEN :start
    AND :end]. *)
Definition delete_between (start_ end_ : string) (user_id : option Z) (db : Db) : Db :=
  mkDb (users db) (users_seq db)
       (List.filter
          (fun r => negb (sql_eq (e_user_id r) user_id &&
                          sql_between (sqlite_date (e_dt r)) start_ end_))
          (expenses db))
       (expenses_seq db).

End DataOperations.

(* ===================================================================== *)
(** * Authentication helpers                                              *)
(* ===================================================================== *)

(** [INSERT INTO users (username, password_hash)]: the UNIQUE constraint
    on [username] raises [IntegrityError]. *)
Definition insert_user (username password_hash : string) (db : Db) : result Db :=
  match select_user username db with
  | Some _ => Raise IntegrityError
  | None =>
      let id := next_id (users_seq db) (map u_id (users db)) in
      Ok (mkDb (users db ++ [mkUser id username password_hash]) id
               (expenses db) (expenses_seq db))
  end.

(** [try: ... return True / except IntegrityError: return False]. *)
Definition register_user (username password : string) (db : Db) : result (Db * bool) :=
  match insert_user username (hash_password password) db with
  | Ok db' => Ok (db', true)
  | Raise IntegrityError => Ok (db, false)
  | Raise e => Raise e
  end.

Definition authenticate_user (username password : string) (db : Db) : bool :=
  match select_user username db with
  | Some u => verify_password password (u_password_hash u)
  | None => false
  end.

(* ===================================================================== *)
(** * Session state and forms                                             *)
(* ===================================================================== *)

(** What a handler shows on the page. *)
Inductive notice : Type :=
| st_error (msg : string)
| st_success (msg : string)
| st_info (msg : string).

(** [st.session_state]. *)
Record session : Type := mkSession {
  logged_in : bool;
  username : option string;
  user_id : option Z
}.

Definition initial_session : session := mkSession false None None.

Definition logout (ss : session) : session := mkSession false None None.

(** The body of [login_form] once the form is submitted. *)
Definition login_form (username_in password_in : string) (submit : bool)
    (ss : session) (db : Db) : session * list notice :=
  if submit then
    if authenticate_user username_in password_in db
    then (mkSession true (Some username_in) (get_user_id username_in db),
          [st_success "Logged in successfully!"])
    else (ss, [st_error "Invalid username or password."])
  else (ss, []).

Definition is_empty (s : string) : bool :=
  match s with
  | EmptyString => true
  | String _ _ => false
  end.

Definition register_form (username_in password_in confirm_in : string) (submit : bool)
    (db : Db) : result (Db * list notice) :=
  if submit then
    if is_empty username_in || is_empty password_in
    then Ok (db, [st_error "Username and password required."])
    else if negb (String.eqb password_in confirm_in)
    then Ok (db, [st_error "Passwords do not match."])
    else
      r <- register_user username_in password_in db ;;
      if snd r
      then Ok (fst r, [st_success "Registration successful! Please login."])
      else Ok (fst r, [st_error "Username already exists."])
  else Ok (db, []).

(* ===================================================================== *)
(** * Pages                                                               *)
(* ===================================================================== *)

(** "Add Expense": the body of [if submitted:]. The arguments are the
    values the widgets return in the run that handles the submit
    ([category_input] is what the select box returns then); the success
    message is the text of the source file, byte for byte. *)
Definition add_expense_page {R : Runtime} (dt_input : Date) (amount_input : float)
    (description_input category_input : string) (submitted : bool)
    (ss : session) (db : Db) : result (Db * list notice) :=
  if submitted then
    let dt_str := Dates.strftime_ymd dt_input in
    if PyFloat.le0 amount_input
    then Ok (db, [st_error "Amount should be greater than 0."])
    else
      db' <- add_expense dt_str amount_input (Text.strip description_input)
                         category_input (user_id ss) db ;;
      Ok (db', [st_success "Expense added âœ…"])
  else Ok (db, []).

(** A cell of a text column of the uploaded frame: a string, or the NaN
    pandas puts where the field is empty or reads as a missing value. *)
Inductive text_cell : Type :=
| Missing
| Text (s : string).

(** A row of [csv_df] as the loop reads it: [dt] and [amount] hold whatever
    pandas inferred for their columns; [description] and [category] are
    columns of text (a column in which every field is a number or a boolean
    is not of this type). [c_category] is read only when the frame has the
    column. *)
Record csv_row : Type := mkCsvRow {
  c_dt : pyval;
  c_amount : pyval;
  c_description : text_cell;
  c_category : text_cell
}.

(** The frame [pd.read_csv] returned: its header and its rows. *)
Record csv_frame : Type := mkFrame {
  columns : list string;
  rows : list csv_row
}.

(** [str(x)] for a cell of a text column: [str(nan)] is ["nan"]. *)
Definition str_of_cell (c : text_cell) : string :=
  match c with
  | Missing => "nan"
  | Text s => s
  end.

(** [pd.isna(cat) or not cat], where [cat] is [None] without the column. *)
Definition category_absent (cat : option text_cell) : bool :=
  match cat with
  | None => true
  | Some Missing => true
  | Some (Text s) => is_empty s
  end.

(** [to_csv] on a cell of a text column that holds no comma, quote or
    line break: the text as it is, and the empty field for NULL. *)
Definition to_csv_field (c : option string) : string := or_empty c.

(** The fields [read_csv] takes for missing values by default. *)
Definition NA_VALUES : list string :=
  [ ""; "#N/A"; "#N/A N/A"; "#NA"; "-1.#IND"; "-1.#QNAN"; "-NaN"; "-nan"; "1.#IND";
    "1.#QNAN"; "<NA>"; "N/A"; "NA"; "NULL"; "NaN"; "None"; "n/a"; "nan"; "null" ].

(** [read_csv] on a field of a column it reads as text. *)
Definition read_csv_field (field : string) : text_cell :=
  if existsb (String.eqb field) NA_VALUES then Missing else Text field.

(** [name in csv_df.columns]. *)
Definition has_column (name : string) (cols : list string) : bool :=
  existsb (String.eqb name) cols.

(** [required_cols.issubset(set(csv_df.columns.str.lower()))]. *)
Definition has_required {R : Runtime} (cols : list string) : bool :=
  forallb (fun c => has_column c (map Text.lower cols)) ["dt"; "amount"; "description"].

Section Pages.

Context {R : Runtime}.

(** [float(x)]. *)
Definition py_float (v : pyval) : result float :=
  match v with
  | PNone => Raise TypeError
  | PBool b => Ok (if b then 1%float else 0%float)
  | PInt z => PyFloat.of_Z z
  | PFloat x => Ok x
  | PStr s =>
      match float_of_str s with
      | Some x => Ok x
      | None => Raise ValueError
      end
  end.

(** [parser.parse(dt_val).date()]: only text is parsed. *)
Definition py_parse_date (v : pyval) : result Date :=
  match v with
  | PStr s =>
      match parse_date s with
      | Some d => Ok d
      | None => Raise ParserError
      end
  | _ => Raise TypeError
  end.

(** The body of the [try] for one row; [st] is the database with the
    counter [inserted]. *)
Definition import_row (has_category : bool) (uid : option Z) (st : Db * Z)
    (row : csv_row) : result (Db * Z) :=
  let dt_val := c_dt row in
  amt <- py_float (c_amount row) ;;
  let desc := str_of_cell (c_description row) in
  let cat := if has_category then Some (c_category row) else None in
  let cat := if category_absent cat
             then auto_categorize (Some desc)
             else match cat with Some c => str_of_cell c | None => "" end in
  d <- py_parse_date dt_val ;;
  let dt_parsed := Dates.strftime_ymd d in
  if PyFloat.gt0 amt then
    db' <- add_expense dt_parsed amt desc cat uid (fst st) ;;
    Ok (db', snd st + 1)
  else Ok st.

(** [try: ... except Exception: continue]. *)
Definition import_step (has_category : bool) (uid : option Z) (st : Db * Z)
    (row : csv_row) : Db * Z :=
  match import_row has_category uid st row with
  | Ok st' => st'
  | Raise _ => st
  end.

Definition import_rows (has_category : bool) (uid : option Z) (rs : list csv_row)
    (db : Db) : Db * Z :=
  fold_left (import_step has_category uid) rs (db, 0).

(** "Bulk Import", from the frame on. *)
Definition bulk_import_page (csv_df : csv_frame) (ss : session) (db : Db)
    : Db * list notice :=
  if has_required (columns csv_df) then
    let lowered := map Text.lower (columns csv_df) in
    let st := import_rows (has_column "category" lowered) (user_id ss) (rows csv_df) db in
    (fst st,
     [st_success ("Imported " ++ Text.str_of_Z (snd st) ++ " records successfully.")%string])
  else (db, [st_error "CSV must contain dt, amount, description columns"]).

(** "Admin": [Clear ALL Expenses]. *)
Definition clear_all_page (clicked confirm : bool) (ss : session) (db : Db)
    : Db * list notice :=
  if clicked then
    if confirm
    then (delete_all (user_id ss) db, [st_success "All your expense records cleared."])
    else (db, [st_info "Check the box to confirm deletion."])
  else (db, []).

(** "Admin": [Delete Selected Range]. *)
Definition delete_range_page (start_del end_del : Date) (clicked : bool)
    (ss : session) (db : Db) : Db * list notice :=
  if clicked then
    if Dates.gtb start_del end_del
    then (db, [st_error "Start date cannot be after end date."])
    else
      (delete_between (Dates.strftime_ymd start_del) (Dates.strftime_ymd end_del)
                      (user_id ss) db,
       [st_success ("Your expenses from " ++ Dates.isoformat start_del ++ " to "
                    ++ Dates.isoformat end_del ++ " deleted.")%string])
  else (db, []).

End Pages.

(* ===================================================================== *)
(** * A runtime on canonical inputs                                       *)
(* ===================================================================== *)

(** [Canonical] reads decimal numerals and ISO dates only. On those it
    agrees with the libraries (pandas with time stamps of nanoseconds, which
    refuses a date outside their span; the C library is glibc); elsewhere it
    refuses, which is one possible behaviour and not the libraries'. Its
    case mapping lowercases the ASCII letters and the two characters
    outside ASCII whose lowercase holds an ASCII letter, as Python does, and
    leaves every other character as it is, which Python does not. It serves
    the examples. *)
Module Canonical.

(** The Kelvin sign (U+212A) becomes [k], the capital I with a dot above
    (U+0130) becomes [i] and a combining dot (U+0307), the letters [A]..[Z]
    become [a]..[z]. *)
Definition is_byte (n : Z) (c : ascii) : bool := Ascii.eqb c (Text.byte n).

Fixpoint lower_known (s : string) : string :=
  match s with
  | EmptyString => EmptyString
  | String a r =>
      match r with
      | String b r2 =>
          if is_byte 0xC4 a && is_byte 0xB0 b
          then ("i" ++ Text.utf8 0x307 ++ lower_known r2)%string
          else
            match r2 with
            | String c r3 =>
                if is_byte 0xE2 a && is_byte 0x84 b && is_byte 0xAA c
                then String "k" (lower_known r3)
                else String (Text.lower_ascii a) (lower_known r)
            | EmptyString => String (Text.lower_ascii a) (lower_known r)
            end
      | EmptyString => String (Text.lower_ascii a) EmptyString
      end
  end.

Definition digit_val (c : ascii) : option Z :=
  let n := N_of_ascii c in
  if ((48 <=? n) && (n <=? 57))%N then Some (Z.of_N n - 48) else None.

(** The number a run of digits spells, with the count of digits. *)
Fixpoint number (cs : list ascii) (acc : Z) : option Z :=
  match cs with
  | [] => Some acc
  | c :: r =>
      match digit_val c with
      | Some d => number r (10 * acc + d)
      | None => None
      end
  end.

Definition dash : ascii := "-"%char.

(** ["YYYY-MM-DD"], a date of the calendar. *)
Definition parse_iso (s : string) : option Date :=
  match list_ascii_of_string s with
  | [y3; y2; y1; y0; s1; m1; m0; s2; d1; d0] =>
      if Ascii.eqb s1 dash && Ascii.eqb s2 dash then
        match number [y3; y2; y1; y0] 0, number [m1; m0] 0, number [d1; d0] 0 with
        | Some y, Some m, Some d =>
            if Dates.valid (mkDate y m d) then Some (mkDate y m d) else None
        | _, _, _ => None
        end
      else None
  | _ => None
  end.

Fixpoint split_dot (cs : list ascii) : list ascii * option (list ascii) :=
  match cs with
  | [] => ([], None)
  | c :: r =>
      if Ascii.eqb c "."%char then ([], Some r)
      else let p := split_dot r in (c :: fst p, snd p)
  end.

(** Digits with an optional fraction, fifteen digits at most: the
    quotient of two integers that binary64 holds exactly, so one
    correctly rounded division gives the nearest float. *)
Definition unsigned_decimal (cs : list ascii) : option float :=
  let p := split_dot cs in
  let int_part := fst p in
  let frac := match snd p with Some f => f | None => [] end in
  let all := int_part ++ frac in
  match int_part, snd p with
  | [], _ | _, Some [] => None
  | _, _ =>
      if (List.length all <=? 15)%nat then
        match number all 0 with
        | Some m =>
            Some (of_uint63 (Uint63.of_Z m)
                  / of_uint63 (Uint63.of_Z (10 ^ Z.of_nat (List.length frac))))%float
        | None => None
        end
      else None
  end.

Definition decimal (s : string) : option float :=
  match list_ascii_of_string s with
  | c :: r =>
      if Ascii.eqb c dash
      then match unsigned_decimal r with Some x => Some (- x)%float | None => None end
      else unsigned_decimal (c :: r)
  | [] => None
  end.

(** A column of ISO dates inside the span of the time stamps. *)
Fixpoint parse_column (col : list string) : option (list Timestamp) :=
  match col with
  | [] => Some []
  | s :: r =>
      match parse_iso s, parse_column r with
      | Some d, Some ts =>
          if Dates.in_timestamp_span d then Some (Dates.midnight d :: ts) else None
      | _, _ => None
      end
  end.

Definition iso_text (s : string) : option string :=
  match parse_iso s with
  | Some d => Some (Dates.isoformat d)
  | None => None
  end.

Definition runtime : Runtime := {|
  unicode_lower := lower_known;
  strftime_Y := Text.str_of_Z;
  float_of_str := decimal;
  parse_date := parse_iso;
  sqlite_date := iso_text;
  to_datetime := parse_column
|}.

End Canonical.

(* ===================================================================== *)
(** * Predicates the statements use                                       *)
(* ===================================================================== *)

(** What the scan of a table returns: the category of the first pair whose
    keyword occurs, or the default when none does. *)
Inductive scan_result (table : list (string * string)) (desc : string) (out : string) : Prop :=
| scan_hit (pre post : list (string * string)) (kw : string) :
    table = pre ++ (kw, out) :: post ->
    Text.substring_of kw desc ->
    (forall kw' cat', In (kw', cat') pre -> ~ Text.substring_of kw' desc) ->
    scan_result table desc out
| scan_miss :
    (forall kw cat, In (kw, cat) table -> ~ Text.substring_of kw desc) ->
    out = "Misc" ->
    scan_result table desc out.

(** A row the import cannot use: its amount does not convert, its date
    does not parse, or its amount is [<= 0]. *)
Definition row_fails {R : Runtime} (row : csv_row) : Prop :=
  (exists e, py_float (c_amount row) = Raise e) \/
  (exists e, py_parse_date (c_dt row) = Raise e) \/
  (exists a, py_float (c_amount row) = Ok a /\ PyFloat.le0 a = true).

(** A row the import inserts: a positive amount and a date that parses. *)
Definition row_valid {R : Runtime} (row : csv_row) : Prop :=
  exists a d,
    py_float (c_amount row) = Ok a /\ PyFloat.gt0 a = true /\
    py_parse_date (c_dt row) = Ok d.

(** Dates whose fields fit the widths of the ISO text. *)
Definition fits (d : Date) : Prop :=
  0 <= year d < 10000 /\ 0 <= month d < 100 /\ 0 <= day d < 100.

(** The day a row of the frame is dated. *)
Definition view_date (f : expense_view) : Date := ts_date (f_dt f).

(** The date of the row lies in [start_, end_], both ends included. *)
Definition in_range (start_ end_ : Date) (f : expense_view) : bool :=
  Dates.leb start_ (view_date f) && Dates.leb (view_date f) end_.

(** [a] may stand before [b] in a frame ordered by date, most recent
    first. *)
Definition date_desc (a b : expense_view) : Prop :=
  Dates.leb (view_date b) (view_date a) = true.

(** The rows of user [u] are dated with the ISO text of a canonical date,
    which is what the pages write for such a date. *)
Definition stored_canonical (u : Z) (db : Db) : Prop :=
  forall r, In r (expenses db) -> e_user_id r = Some u ->
    exists d, Dates.canonical d = true /\ e_dt r = Dates.isoformat d.

(** The rows the WHERE clause [user_id=:uid] selects. *)
Definition owned_by (uid : option Z) (db : Db) : list expense_row :=
  List.filter (fun r => sql_eq (e_user_id r) uid) (expenses db).

(** The frame row [f] shows the stored row [r]: the selected columns other
    than the date, which the frame holds converted. *)
Definition same_record (r : expense_row) (f : expense_view) : Prop :=
  f_id f = e_id r /\ f_amount f = e_amount r /\
  f_description f = e_description r /\ f_category f = e_category r.

(** [pandas.to_datetime] converts a column cell by cell: the column it
    returns has a time stamp for every text of the column it was given. *)
Definition to_datetime_keeps_length (R : Runtime) : Prop :=
  forall col dts, to_datetime col = Some dts -> List.length dts = List.length col.

(** The order [sort_values] works with: by time stamp, most recent first. *)
Definition ts_desc (a b : expense_view) : Prop :=
  Dates.ts_leb (f_dt b) (f_dt a) = true.

(** The date a stored row spells, when its text is ISO. *)
Definition stored_date (r : expense_row) : Date :=
  match Canonical.parse_iso (e_dt r) with
  | Some d => d
  | None => mkDate 0 0 0
  end.

(** The frame row of a stored row dated in ISO text. *)
Definition stored_view (r : expense_row) : expense_view :=
  view_of (r, Dates.midnight (stored_date r)).

(* ===================================================================== *)
(** * Sample data                                                         *)
(* ===================================================================== *)

(** A session of "alice", the user with id 1. *)
Definition refund_session : session := mkSession true (Some "alice") (Some 1).

(** The database after [register_user "alice" "pw1"] on a fresh file. *)
Definition alice_db : Db :=
  mkDb [mkUser 1 "alice" (hash_password "pw1")] 1 [] 0.

(** Two users, three expenses; rows 1 and 3 are of user 1. *)
Definition january_db : Db :=
  mkDb [mkUser 1 "alice" (hash_password "pw1")] 1
       [ mkExpense 1 "2024-01-10" 12.5%float (Some "lunch") (Some "Food") (Some 1);
         mkExpense 2 "2024-01-20" 300%float (Some "rent") (Some "Rent") (Some 2);
         mkExpense 3 "2024-01-15" 40%float (Some "uber") (Some "Transport") (Some 1) ]
       3.

(** "boo", the Kelvin sign (U+212A) and "s"; "B", the capital I with a dot
    above (U+0130) and "LL": two texts that are not ASCII. *)
Definition kelvin_books : string := ("boo" ++ Text.utf8 0x212A ++ "s")%string.

Definition dotted_bill : string := ("B" ++ Text.utf8 0x130 ++ "LL")%string.

(** A batch of three rows whose second amount is not a number. *)
Definition three_rows : list csv_row :=
  [ mkCsvRow (PStr "2024-03-01") (PStr "10") (Text "coffee") Missing;
    mkCsvRow (PStr "2024-03-02") (PStr "abc") (Text "taxi") Missing;
    mkCsvRow (PStr "2024-03-03") (PStr "20.5") (Text "books") Missing ].

(** The table after "alice" (user 1) adds an expense and leaves the
    description field of the form empty. *)
Definition blank_description_db : Db :=
  mkDb [mkUser 1 "alice" (hash_password "pw1")] 1
       [ mkExpense 1 "2024-01-15" 5%float (Some "") (Some "Misc") (Some 1) ]
       1.

(** What [pd.read_csv] returns for the file that "View & Export" writes
    for that table, [id,dt,amount,description,category] and the line
    [1,2024-01-15,5.0,,Misc]: the description field is empty. *)
Definition reimported_frame : csv_frame :=
  mkFrame ["id"; "dt"; "amount"; "description"; "category"]
          [ mkCsvRow (PStr "2024-01-15") (PFloat 5%float)
                     (read_csv_field (to_csv_field (Some "")))
                     (read_csv_field (to_csv_field (Some "Misc"))) ].


(* ===================================================================== *)
(** * The application                                                     *)
(* ===================================================================== *)

(** [DEFAULT_CATEGORIES.index(x)], when [x] is in the list. *)
Fixpoint index_of (x : string) (l : list string) : option nat :=
  match l with
  | [] => None
  | y :: r =>
      if String.eqb y x then Some O
      else match index_of x r with
           | Some i => Some (S i)
           | None => None
           end
  end.

(** The [index] argument of the category select box of "Add Expense":
    the position of the suggested category, or the last position when the
    suggestion is not a default category. *)
Definition suggested_index {R : Runtime} (description_input : string) : nat :=
  let suggested_category := auto_categorize (Some description_input) in
  match index_of suggested_category DEFAULT_CATEGORIES with
  | Some i => i
  | None => (List.length DEFAULT_CATEGORIES - 1)%nat
  end.

(** What a user does in one run of the script. Before the login the page
    offers the two forms; after it, the logout button and the pages that
    write ("Home", "View & Export" and "Visualizations" only read). *)
Inductive action : Type :=
| Login (username_in password_in : string)
| Register (username_in password_in confirm_in : string)
| Logout
| AddExpense (dt_input : Date) (amount_input : float)
             (description_input category_input : string)
| BulkImport (csv_df : csv_frame)
| ClearAll (confirm : bool)
| DeleteRange (start_del end_del : Date).

(** One run of the script on the session and the database: the branch
    [if not st.session_state['logged_in']] with its [st.stop()], and the
    pages behind it. A widget that the run does not draw cannot be used:
    the state stays. *)
Definition app_step {R : Runtime} (a : action) (st : session * Db)
    : result ((session * Db) * list notice) :=
  let ss := fst st in
  let db := snd st in
  if negb (logged_in ss) then
    match a with
    | Login u p =>
        let r := login_form u p true ss db in
        Ok ((fst r, db), snd r)
    | Register u p c =>
        r <- register_form u p c true db ;;
        Ok ((ss, fst r), snd r)
    | _ => Ok (st, [])
    end
  else
    match a with
    | Logout => Ok ((logout ss, db), [])
    | AddExpense d amount description category =>
        r <- add_expense_page d amount description category true ss db ;;
        Ok ((ss, fst r), snd r)
    | BulkImport csv_df =>
        let r := bulk_import_page csv_df ss db in
        Ok ((ss, fst r), snd r)
    | ClearAll confirm =>
        let r := clear_all_page true confirm ss db in
        Ok ((ss, fst r), snd r)
    | DeleteRange start_del end_del =>
        let r := delete_range_page start_del end_del true ss db in
        Ok ((ss, fst r), snd r)
    | _ => Ok (st, [])
    end.

(** The states the application reaches from a fresh database file and a
    fresh session. *)
Inductive reachable {R : Runtime} : session * Db -> Prop :=
| reach_start : reachable (initial_session, init_db)
| reach_step (a : action) (st st' : session * Db) (shown : list notice) :
    reachable st -> app_step a st = Ok (st', shown) -> reachable st'.

(** A user row as the register form writes it. *)
Definition user_well_formed (u : user_row) : Prop :=
  u_username u <> "" /\
  exists password, password <> "" /\ u_password_hash u = hash_password password.

(** An expense row as the pages write it: a positive amount, a
    description and a category that are not NULL, and an owner among the
    users. *)
Definition row_well_formed (us : list user_row) (r : expense_row) : Prop :=
  PyFloat.gt0 (e_amount r) = true /\
  (exists s, e_description r = Some s) /\
  (exists c, e_category r = Some c) /\
  (exists u, In u us /\ e_user_id r = Some (u_id u)).

(** [uid] is the id of a registered user. *)
Definition known_user (db : Db) (uid : option Z) : Prop :=
  exists u, In u (users db) /\ uid = Some (u_id u).

Record db_ok (db : Db) : Prop := {
  usernames_distinct : NoDup (map u_username (users db));
  user_ids_distinct : NoDup (map u_id (users db));
  users_well_formed : Forall user_well_formed (users db);
  expense_ids_distinct : NoDup (map e_id (expenses db));
  expense_ids_bounded : Forall (fun r => e_id r <= expenses_seq db) (expenses db);
  rows_well_formed : Forall (row_well_formed (users db)) (expenses db)
}.

(** A session that is logged in names a registered user and carries that
    user's id; one that is not carries nothing. *)
Definition session_ok (ss : session) (db : Db) : Prop :=
  if logged_in ss
  then exists u, In u (users db) /\
                 username ss = Some (u_username u) /\ user_id ss = Some (u_id u)
  else username ss = None /\ user_id ss = None.

(** A run of the application on the canonical runtime: "alice" registers,
    logs in, adds an expense and imports a batch of three rows. *)
Definition sample_run : list action :=
  [ Register "alice" "pw1" "pw1";
    Login "alice" "pw1";
    AddExpense (mkDate 2024 1 15) 12.5%float "  lunch " "Food";
    BulkImport (mkFrame ["dt"; "amount"; "description"] three_rows) ].

Definition sample_state : session * Db :=
  (mkSession true (Some "alice") (Some 1),
   mkDb [mkUser 1 "alice" (hash_password "pw1")] 1
        [ mkExpense 1 "2024-01-15" 12.5%float (Some "lunch") (Some "Food") (Some 1);
          mkExpense 2 "2024-03-01" 10%float (Some "coffee") (Some "Food") (Some 1);
          mkExpense 3 "2024-03-03" 20.5%float (Some "books") (Some "Education") (Some 1) ]
        3).

(** A run in which "alice" imports two rows, the second dated in the year
    3000, and the database it leaves. *)
Definition far_future_run : list action :=
  [ Register "alice" "pw1" "pw1";
    Login "alice" "pw1";
    BulkImport (mkFrame ["dt"; "amount"; "description"]
                  [ mkCsvRow (PStr "2024-01-10") (PFloat 12.5%float) (Text "lunch") Missing;
                    mkCsvRow (PStr "3000-01-01") (PFloat 300%float) (Text "rent") Missing ]) ].

Definition far_future_db : Db :=
  mkDb [mkUser 1 "alice" (hash_password "pw1")] 1
       [ mkExpense 1 "2024-01-10" 12.5%float (Some "lunch") (Some "Food") (Some 1);
         mkExpense 2 "3000-01-01" 300%float (Some "rent") (Some "Rent") (Some 1) ]
       2.

(** A run in which "alice" imports a row dated in the year 999, and the
    database it leaves where the C library is glibc. *)
Definition short_year_run : list action :=
  [ Register "alice" "pw1" "pw1";
    Login "alice" "pw1";
    BulkImport (mkFrame ["dt"; "amount"; "description"]
                  [ mkCsvRow (PStr "0999-06-01") (PFloat 40%float) (Text "books") Missing ]) ].

Definition short_year_row : expense_row :=
  mkExpense 1 "999-06-01" 40%float (Some "books") (Some "Education") (Some 1).

Definition short_year_db : Db :=
  mkDb [mkUser 1 "alice" (hash_password "pw1")] 1 [short_year_row] 1.

(** A sequence of runs of the script, as long as none raises. *)
Fixpoint run_actions {R : Runtime} (acts : list action) (st : session * Db)
    : result (session * Db) :=
  match acts with
  | [] => Ok st
  | a :: rest => r <- app_step a st ;; run_actions rest (fst r)
  end.

(** A text that neither starts nor ends with a white space character. *)
Definition trimmed (s : string) : Prop :=
  Text.drop_space s = None /\ Text.drop_space_end s = None.

(** The rows of the table that [uid] does not own. *)
Definition rows_of_others (uid : option Z) (db : Db) : list expense_row :=
  List.filter (fun r => negb (sql_eq (e_user_id r) uid)) (expenses db).

(** What "Add Expense" shows when the row is stored. *)
Definition expense_added : list notice := [st_success "Expense added âœ…"].

(** The second row and the user of [sample_state]. *)
Definition sample_row : expense_row :=
  mkExpense 2 "2024-03-01" 10%float (Some "coffee") (Some "Food") (Some 1).

Definition sample_user : user_row := mkUser 1 "alice" (hash_password "pw1").

(** [january_db] after "bob" registers. *)
Definition january_with_bob : Db :=
  mkDb [sample_user; mkUser 2 "bob" (hash_password "pw2")] 2 (expenses january_db) 3.

(** [january_db] after user 1 clears the data and user 2 adds a row. *)
Definition january_cleared_then_added : Db :=
  mkDb (users january_db) 1
       [ mkExpense 2 "2024-01-20" 300%float (Some "rent") (Some "Rent") (Some 2);
         mkExpense 4 "2024-02-01" 8%float (Some "bus") (Some "Transport") (Some 2) ]
       4.

(** The description "bus" as pasted from a page: a no-break space and a
    space before it, a space and an ideographic space after it. *)
Definition nbsp_bus : string :=
  (Text.utf8 0xA0 ++ " bus " ++ Text.utf8 0x3000)%string.

(** [january_db] after user 1 adds a bus fare through the form. *)
Definition january_after_add : Db :=
  mkDb (users january_db) 1
       (expenses january_db ++
        [mkExpense 4 "2024-02-01" 8%float (Some "bus") (Some "Transport") (Some 1)])
       4.
(* ===================================================================== *)
(** * The definitions on samples                                          *)
(* ===================================================================== *)

(** An ASCII text is lowercased the same way on every runtime. *)
Example lower_mixed :
  forall R : Runtime, Text.lower "Uber ride HOME 42!" = "uber ride home 42!".
Proof. reflexivity. Qed.

(** A text that is not ASCII is lowercased as the Unicode database says.
    When the lowercase of [kelvin_books] is "books", as it is in Python,
    the categorizer finds the keyword. *)
Example lower_kelvin :
  forall R : Runtime,
    Text.lower kelvin_books = unicode_lower kelvin_books
    /\ (unicode_lower kelvin_books = "books" ->
        auto_categorize (Some kelvin_books) = "Education").
Proof.
  intros R. split; [reflexivity |].
  intros H. unfold auto_categorize. cbn [or_empty].
  change (Text.lower kelvin_books) with (unicode_lower kelvin_books).
  rewrite H. reflexivity.
Qed.

(** On the canonical runtime: the Kelvin sign gives the "k" of "books",
    while the dot that the lowercase of the dotted capital I carries stands
    between the letters of "bill". *)
Example lower_canonical :
  Text.lower (R := Canonical.runtime) kelvin_books = "books"
  /\ auto_categorize (R := Canonical.runtime) (Some kelvin_books) = "Education"
  /\ Text.lower (R := Canonical.runtime) dotted_bill = ("bi" ++ Text.utf8 0x307 ++ "ll")%string
  /\ auto_categorize (R := Canonical.runtime) (Some dotted_bill) = "Misc".
Proof. repeat split; vm_compute; reflexivity. Qed.

Example contains_mid : Text.contains "ride" "uber ride home" = true.
Proof. reflexivity. Qed.

Example contains_empty_needle : Text.contains "" "" = true.
Proof. reflexivity. Qed.

Example strip_both : Text.strip "  lunch at noon  " = "lunch at noon".
Proof. reflexivity. Qed.

(** White space outside ASCII goes too: here a no-break space before the
    word, an ideographic space, a unit separator and a no-break space after
    it; the space inside the text stays. *)
Example strip_unicode :
  Text.strip (Text.utf8 0xA0 ++ " taxi ride" ++ Text.utf8 0x3000 ++ Text.utf8 0x1F
              ++ Text.utf8 0xA0)%string
  = "taxi ride"
  /\ Text.utf8 0xA0 = String (Text.byte 0xC2) (String (Text.byte 0xA0) "")
  /\ Text.utf8 0x3000
     = String (Text.byte 0xE3) (String (Text.byte 0x80) (String (Text.byte 0x80) "")).
Proof. repeat split; vm_compute; reflexivity. Qed.

Example str_of_Z_samples :
  Text.str_of_Z 0 = "0" /\ Text.str_of_Z 1234567890 = "1234567890" /\ Text.str_of_Z (-45) = "-45".
Proof. repeat split; reflexivity. Qed.

Example sha256_constants :
  nth 0 Sha256.K 0 = 0x428a2f98 /\ nth 63 Sha256.K 0 = 0xc67178f2 /\
  nth 0 Sha256.H0 0 = 0x6a09e667 /\ nth 7 Sha256.H0 0 = 0x5be0cd19 /\
  List.length Sha256.K = 64%nat /\ List.length Sha256.H0 = 8%nat.
Proof. repeat split; reflexivity. Qed.

(** The test vectors of FIPS 180-4 (empty message, one block, two blocks). *)
Example sha256_empty :
  Sha256.hexdigest "" = "e3b0c44298fc1c149afbf4c8996fb92427ae41e4649b934ca495991b7852b855".
Proof. vm_compute. reflexivity. Qed.

Example sha256_abc :
  Sha256.hexdigest "abc" = "ba7816bf8f01cfea414140de5dae2223b00361a396177a9cb410ff61f20015ad".
Proof. vm_compute. reflexivity. Qed.

Example sha256_two_blocks :
  Sha256.hexdigest "abcdbcdecdefdefgefghfghighijhijkijkljklmklmnlmnomnopnopq"
  = "248d6a61d20638b8e5c026930c3e6039a33ce45964ff2167f6ecedd419db06c1".
Proof. vm_compute. reflexivity. Qed.

Example float_of_small_int : PyFloat.of_Z 20 = Ok 20%float.
Proof. vm_compute. reflexivity. Qed.

Example float_of_huge_int : PyFloat.of_Z (2 ^ 1024) = Raise OverflowError.
Proof. vm_compute. reflexivity. Qed.

Example nan_is_neither : PyFloat.le0 nan = false /\ PyFloat.gt0 nan = false.
Proof. split; reflexivity. Qed.

Example isoformat_sample : Dates.isoformat (mkDate 2024 1 15) = "2024-01-15".
Proof. reflexivity. Qed.

(** [strftime] agrees with the ISO text from the year 1000 on, whatever
    the C library; below, glibc leaves the year as it is. *)
Example strftime_samples :
  (forall R : Runtime, Dates.strftime_ymd (mkDate 2024 1 15) = "2024-01-15")
  /\ Dates.strftime_ymd (R := Canonical.runtime) (mkDate 999 1 1) = "999-01-01"
  /\ Dates.isoformat (mkDate 999 1 1) = "0999-01-01".
Proof. repeat split; reflexivity. Qed.

Example leap_years :
  Dates.valid (mkDate 2024 2 29) = true /\ Dates.valid (mkDate 2023 2 29) = false /\
  Dates.valid (mkDate 1900 2 29) = false /\ Dates.valid (mkDate 2000 2 29) = true.
Proof. repeat split; reflexivity. Qed.

Example decimal_samples :
  Canonical.decimal "10" = Some 10%float /\
  Canonical.decimal "12.50" = Some 12.5%float /\
  Canonical.decimal "0.1" = Some 0x1.999999999999ap-4%float /\
  Canonical.decimal "-3" = Some (-3)%float /\
  Canonical.decimal "abc" = None /\
  Canonical.decimal "" = None.
Proof. repeat split; vm_compute; reflexivity. Qed.

Example parse_iso_samples :
  Canonical.parse_iso "2024-02-29" = Some (mkDate 2024 2 29) /\
  Canonical.parse_iso "2023-02-29" = None /\
  Canonical.parse_iso "15/01/2024" = None.
Proof. repeat split; reflexivity. Qed.

(** Keywords match anywhere in the text, inside a word too, and the table
    order decides between them. *)
Example categorize_samples :
  forall R : Runtime,
    auto_categorize (Some "Business lunch") = "Transport" /\
    auto_categorize (Some "Paid ELECTRICITY bill") = "Bills" /\
    auto_categorize (Some "books from walmart") = "Groceries" /\
    auto_categorize (Some "parent meeting") = "Rent" /\
    auto_categorize (Some "gift") = "Misc".
Proof. intros R. repeat split; reflexivity. Qed.

Example login_then_logout :
  login_form "alice" "pw1" true initial_session alice_db
  = (mkSession true (Some "alice") (Some 1), [st_success "Logged in successfully!"])
  /\ logout (mkSession true (Some "alice") (Some 1)) = initial_session.
Proof. split; vm_compute; reflexivity. Qed.

(* ===================================================================== *)
(** * Facts about text                                                    *)
(* ===================================================================== *)

Lemma prefix_of_app (p s : string) :
  Text.prefix_of p s = true <-> exists post : string, s = (p ++ post)%string.
Proof.
  revert s. induction p as [| a p IH]; intros s; simpl.
  - split; [intros _; exists s; reflexivity | reflexivity].
  - destruct s as [| b s].
    + split; [discriminate | intros [post H]; discriminate H].
    + rewrite andb_true_iff, Ascii.eqb_eq, IH. split.
      * intros [-> [post ->]]. exists post. reflexivity.
      * intros [post H]. injection H as -> ->. split; [reflexivity | exists post; reflexivity].
Qed.

Lemma contains_substring (kw desc : string) :
  Text.contains kw desc = true <-> Text.substring_of kw desc.
Proof.
  unfold Text.substring_of. induction desc as [| c desc IH].
  - simpl. rewrite orb_false_r, prefix_of_app. split.
    + intros [post H]. exists EmptyString, post. exact H.
    + intros [pre [post H]]. destruct pre; [exists post; exact H | discriminate H].
  - cbn [Text.contains]. rewrite orb_true_iff, IH, prefix_of_app. split.
    + intros [[post H] | [pre [post H]]].
      * exists EmptyString, post. exact H.
      * exists (String c pre), post. simpl. rewrite H. reflexivity.
    + intros [pre [post H]]. destruct pre as [| a pre].
      * left. exists post. exact H.
      * right. simpl in H. injection H as _ H. exists pre, post. exact H.
Qed.

Lemma contains_not_substring (kw desc : string) :
  Text.contains kw desc = false <-> ~ Text.substring_of kw desc.
Proof.
  rewrite <- contains_substring. destruct (Text.contains kw desc); split; intros H;
    try reflexivity; try discriminate; try (intros H'; discriminate H').
  exfalso. apply H. reflexivity.
Qed.

(* ===================================================================== *)
(** * The categorizer                                                     *)
(* ===================================================================== *)

Lemma scan_keywords_result (table : list (string * string)) (desc : string) :
  scan_result table desc (scan_keywords table desc).
Proof.
  induction table as [| [kw cat] rest IH]; simpl.
  - apply scan_miss; [intros kw cat [] | reflexivity].
  - destruct (Text.contains kw desc) eqn:Hkw.
    + apply scan_hit with (pre := []) (post := rest) (kw := kw).
      * reflexivity.
      * apply contains_substring. exact Hkw.
      * intros kw' cat' [].
    + apply contains_not_substring in Hkw.
      destruct IH as [pre post kw1 Htab Hin Hpre | Hnone Hout].
      * apply scan_hit with (pre := (kw, cat) :: pre) (post := post) (kw := kw1).
        -- simpl. f_equal. exact Htab.
        -- exact Hin.
        -- intros kw' cat' [Heq | Hin'].
           ++ injection Heq as <- _. exact Hkw.
           ++ eapply Hpre. exact Hin'.
      * apply scan_miss; [| exact Hout].
        intros kw' cat' [Heq | Hin'].
        -- injection Heq as <- _. exact Hkw.
        -- eapply Hnone. exact Hin'.
Qed.


(** C9. A missing description does not make [auto_categorize] raise: it
    is read as the empty string, and the result is "Misc". *)
Theorem auto_categorize_none :
  forall R : Runtime,
    or_empty None = "" /\
    auto_categorize None = auto_categorize (Some "") /\
    auto_categorize None = "Misc".
Proof. intros R. repeat split; reflexivity. Qed.

(* ===================================================================== *)
(** * Facts about floats                                                  *)
(* ===================================================================== *)

Lemma SFcompare_finite_refl (s : bool) (m : positive) (e : Z) :
  SFcompare (S754_finite s m e) (S754_finite s m e) = Some Eq.
Proof.
  simpl. rewrite Z.compare_refl.
  assert (H : PosDef.Pos.compare_cont Eq m m = Eq) by apply Pos.compare_cont_refl.
  rewrite H. destruct s; reflexivity.
Qed.

(** A float that is [<= 0] is not [> 0]. *)
Lemma le0_not_gt0 (a : float) : PyFloat.le0 a = true -> PyFloat.gt0 a = false.
Proof.
  unfold PyFloat.le0, PyFloat.gt0, PyFloat.zero.
  rewrite FloatAxioms.leb_spec, FloatAxioms.ltb_spec.
  change (Prim2SF 0) with (S754_zero false).
  destruct (Prim2SF a) as [s | s | | s m e]; try destruct s; simpl;
    try reflexivity; try discriminate.
Qed.

(** A float that compares with zero is not a NaN. *)
Lemma le0_not_nan (a : float) : PyFloat.le0 a = true -> is_nan a = false.
Proof.
  unfold PyFloat.le0, PyFloat.zero, is_nan.
  rewrite FloatAxioms.leb_spec, FloatAxioms.eqb_spec.
  change (Prim2SF 0) with (S754_zero false).
  destruct (Prim2SF a) as [s | s | | s m e]; try discriminate; intros _; unfold SFeqb.
  - reflexivity.
  - destruct s; reflexivity.
  - rewrite SFcompare_finite_refl. reflexivity.
Qed.

Lemma gt0_not_nan (a : float) : PyFloat.gt0 a = true -> is_nan a = false.
Proof.
  unfold PyFloat.gt0, PyFloat.zero, is_nan.
  rewrite FloatAxioms.ltb_spec, FloatAxioms.eqb_spec.
  change (Prim2SF 0) with (S754_zero false).
  destruct (Prim2SF a) as [s | s | | s m e]; try discriminate; intros _; unfold SFeqb.
  - destruct s; reflexivity.
  - rewrite SFcompare_finite_refl. reflexivity.
Qed.

(* ===================================================================== *)
(** * Adding an expense                                                   *)
(* ===================================================================== *)

Lemma add_expense_inserts (dt : string) (amount : float) (description category : string)
    (uid : option Z) (db : Db) :
  is_nan amount = false ->
  add_expense dt amount description category uid db
  = Ok (mkDb (users db) (users_seq db)
             (expenses db ++
              [mkExpense (next_id (expenses_seq db) (map e_id (expenses db)))
                         dt amount (Some description) (Some category) uid])
             (next_id (expenses_seq db) (map e_id (expenses db)))).
Proof. intros H. unfold add_expense. rewrite H. reflexivity. Qed.

(** C2, as the code has it. The check on the amount is the form's, not
    the repository function's: a submitted "Add Expense" form with an
    amount [<= 0] shows an error and leaves the database as it was, while
    [add_expense] itself, called with an amount [<= 0], inserts the row,
    so that the table grows by one. *)
Theorem add_expense_amount_guard :
  forall (R : Runtime) (dt_input : Date) (amount : float) (description category : string)
         (ss : session) (db : Db),
    PyFloat.le0 amount = true ->
    add_expense_page dt_input amount description category true ss db
    = Ok (db, [st_error "Amount should be greater than 0."])
    /\ exists db',
        add_expense (Dates.strftime_ymd dt_input) amount description category (user_id ss) db
        = Ok db'
        /\ List.length (expenses db') = S (List.length (expenses db)).
Proof.
  intros R dt_input amount description category ss db Hle. split.
  - unfold add_expense_page. rewrite Hle. reflexivity.
  - eexists. split.
    + apply add_expense_inserts. apply le0_not_nan. exact Hle.
    + simpl. rewrite length_app. simpl. lia.
Qed.

Lemma add_expense_amount_guard_witness :
  add_expense_page (R := Canonical.runtime) (mkDate 2024 1 15) (-5)%float "refund" "Misc" true
                   refund_session init_db
  = Ok (init_db, [st_error "Amount should be greater than 0."])
  /\ exists db',
      add_expense (Dates.strftime_ymd (R := Canonical.runtime) (mkDate 2024 1 15)) (-5)%float
                  "refund" "Misc" (user_id refund_session) init_db
      = Ok db'
      /\ List.length (expenses db') = S (List.length (expenses init_db)).
Proof.
  apply (add_expense_amount_guard Canonical.runtime (mkDate 2024 1 15) (-5)%float "refund"
           "Misc" refund_session init_db).
  reflexivity.
Defined.

(** C2 does not hold of [add_expense] itself: with the amount -5, which
    is [<= 0], the call on an empty database returns normally and the
    table holds the new row. *)
Lemma add_expense_nonpositive_persists :
  PyFloat.le0 (-5)%float = true /\
  add_expense "2024-01-15" (-5)%float "refund" "Misc" (Some 1) init_db
  = Ok (mkDb [] 0
             [mkExpense 1 "2024-01-15" (-5)%float (Some "refund") (Some "Misc") (Some 1)]
             1).
Proof. split; reflexivity. Qed.

(* ===================================================================== *)
(** * Registration and authentication                                     *)
(* ===================================================================== *)

Lemma select_user_app_new (name other pw : string) (id : Z) (l : list user_row) :
  find (fun u => String.eqb (u_username u) name) (l ++ [mkUser id other pw])
  = match find (fun u => String.eqb (u_username u) name) l with
    | Some u => Some u
    | None => if String.eqb other name then Some (mkUser id other pw) else None
    end.
Proof.
  induction l as [| u l IH]; simpl.
  - reflexivity.
  - destruct (String.eqb (u_username u) name); [reflexivity | exact IH].
Qed.

(** After any call of [register_user], the name is taken. *)
Lemma register_user_taken (name password : string) (db db1 : Db) (ok : bool) :
  register_user name password db = Ok (db1, ok) ->
  exists u, select_user name db1 = Some u /\
            (ok = true -> u_password_hash u = hash_password password).
Proof.
  unfold register_user, insert_user.
  destruct (select_user name db) as [u |] eqn:Hsel; intros H.
  - injection H as <- <-. exists u. split; [exact Hsel | discriminate].
  - injection H as <- <-. unfold select_user in *. simpl.
    rewrite select_user_app_new, Hsel, String.eqb_refl.
    eexists. split; [reflexivity | intros _; reflexivity].
Qed.

Lemma register_user_conflict (name password : string) (db : Db) (u : user_row) :
  select_user name db = Some u ->
  register_user name password db = Ok (db, false).
Proof. intros H. unfold register_user, insert_user. rewrite H. reflexivity. Qed.

(** C7. Registering a name that is taken returns [False] without raising
    and leaves the database, so the stored digest, as it was: after any
    [register_user u p1], a second [register_user u p2] returns the same
    database with [False], and the password of a first successful
    registration still authenticates. In the scenario of the spec,
    [register("alice","pw1")] succeeds, [register("alice","pw2")] reports
    the conflict, "pw1" authenticates, and a wrong password for "alice"
    gives the same [False], and the same message of the login form, as a
    name nobody registered. *)
Theorem register_duplicate_conflict :
  forall (u p1 p2 : string) (db db1 : Db) (ok : bool),
    register_user u p1 db = Ok (db1, ok) ->
    (register_user u p2 db1 = Ok (db1, false)
     /\ (ok = true -> authenticate_user u p1 db1 = true)
     /\ (forall name, select_user name db1 = None ->
           forall p, authenticate_user name p db1 = false))
    /\ (register_user "alice" "pw1" init_db = Ok (alice_db, true)
        /\ register_user "alice" "pw2" alice_db = Ok (alice_db, false)
        /\ authenticate_user "alice" "pw1" alice_db = true
        /\ authenticate_user "alice" "wrong" alice_db = false
        /\ authenticate_user "mallory" "pw1" alice_db = false
        /\ login_form "alice" "wrong" true initial_session alice_db
           = login_form "mallory" "pw1" true initial_session alice_db).
Proof.
  intros u p1 p2 db db1 ok Hreg. split.
  - destruct (register_user_taken _ _ _ _ _ Hreg) as [row [Hsel Hhash]].
    split; [| split].
    + eapply register_user_conflict. exact Hsel.
    + intros Hok. unfold authenticate_user, verify_password. rewrite Hsel.
      rewrite (Hhash Hok). apply String.eqb_refl.
    + intros name Hnone p. unfold authenticate_user. rewrite Hnone. reflexivity.
  - repeat split; vm_compute; reflexivity.
Qed.

Lemma register_duplicate_conflict_witness :
  (register_user "alice" "pw2" alice_db = Ok (alice_db, false)
   /\ (true = true -> authenticate_user "alice" "pw1" alice_db = true)
   /\ (forall name, select_user name alice_db = None ->
         forall p, authenticate_user name p alice_db = false))
  /\ (register_user "alice" "pw1" init_db = Ok (alice_db, true)
      /\ register_user "alice" "pw2" alice_db = Ok (alice_db, false)
      /\ authenticate_user "alice" "pw1" alice_db = true
      /\ authenticate_user "alice" "wrong" alice_db = false
      /\ authenticate_user "mallory" "pw1" alice_db = false
      /\ login_form "alice" "wrong" true initial_session alice_db
         = login_form "mallory" "pw1" true initial_session alice_db).
Proof.
  apply (register_duplicate_conflict "alice" "pw1" "pw2" init_db alice_db true).
  vm_compute. reflexivity.
Defined.

(** [register_user] returns for every input: the conflict is a result,
    not an exception. *)
Lemma register_user_returns (name password : string) (db : Db) :
  exists db1 ok, register_user name password db = Ok (db1, ok).
Proof.
  unfold register_user, insert_user.
  destruct (select_user name db); eexists; eexists; reflexivity.
Qed.

(* ===================================================================== *)
(** * Deleting a range                                                    *)
(* ===================================================================== *)

(** C8. When the start date is after the end date, "Delete Selected
    Range" shows an error and deletes nothing: the database is the one it
    was given. *)
Theorem delete_range_rejects_reversed :
  forall (R : Runtime) (start_del end_del : Date) (ss : session) (db : Db),
    Dates.gtb start_del end_del = true ->
    delete_range_page start_del end_del true ss db
    = (db, [st_error "Start date cannot be after end date."]).
Proof.
  intros R start_del end_del ss db H. unfold delete_range_page. rewrite H. reflexivity.
Qed.

Lemma delete_range_rejects_reversed_witness :
  delete_range_page (R := Canonical.runtime) (mkDate 2024 1 31) (mkDate 2024 1 1) true
                    refund_session january_db
  = (january_db, [st_error "Start date cannot be after end date."]).
Proof.
  apply (delete_range_rejects_reversed Canonical.runtime (mkDate 2024 1 31) (mkDate 2024 1 1)
           refund_session january_db).
  reflexivity.
Defined.

(* ===================================================================== *)
(** * Bulk import                                                         *)
(* ===================================================================== *)

Section ImportFacts.

Context {R : Runtime}.
Variables (has_category : bool) (uid : option Z).

Lemma import_rows_app (pre post : list csv_row) (st : Db * Z) :
  fold_left (import_step has_category uid) (pre ++ post) st
  = fold_left (import_step has_category uid) post
              (fold_left (import_step has_category uid) pre st).
Proof. apply fold_left_app. Qed.

(** A failing row leaves the database and the counter as they were. *)
Lemma import_step_fails (row : csv_row) (st : Db * Z) :
  row_fails row -> import_step has_category uid st row = st.
Proof.
  unfold import_step, import_row, bind.
  intros [[e He] | [[e He] | [a [Ha Hle]]]].
  - rewrite He. reflexivity.
  - destruct (py_float (c_amount row)); [rewrite He |]; reflexivity.
  - rewrite Ha. destruct (py_parse_date (c_dt row)); [| reflexivity].
    rewrite (le0_not_gt0 _ Hle). reflexivity.
Qed.

(** A valid row is inserted and counted. *)
Lemma import_step_valid (row : csv_row) (st : Db * Z) :
  row_valid row ->
  exists db', import_step has_category uid st row = (db', snd st + 1)
              /\ List.length (expenses db') = S (List.length (expenses (fst st))).
Proof.
  intros [a [d [Ha [Hgt Hd]]]].
  unfold import_step, import_row, bind. rewrite Ha, Hd, Hgt.
  rewrite add_expense_inserts by (apply gt0_not_nan; exact Hgt).
  eexists. split; [reflexivity |].
  simpl. rewrite length_app. simpl. lia.
Qed.

End ImportFacts.

(** C6. A row whose amount does not convert, whose date does not parse,
    or whose amount is [<= 0] is skipped, and the rows before and after it
    are processed as if it were not in the batch: the database and the
    count are those of the batch without the row. For three rows of which
    the second has an amount that is not a number and the others are valid,
    the count is 2, two rows are stored, and the page reports "Imported 2
    records successfully.". *)
Theorem bulk_import_isolates_failures :
  forall (R : Runtime) (has_category : bool) (uid : option Z) (db : Db),
    (forall pre row post,
        row_fails row ->
        import_rows has_category uid (pre ++ row :: post) db
        = import_rows has_category uid (pre ++ post) db)
    /\ (forall r1 r2 r3 text,
          row_valid r1 -> row_valid r3 ->
          c_amount r2 = PStr text -> float_of_str text = None ->
          snd (import_rows has_category uid [r1; r2; r3] db) = 2
          /\ List.length (expenses (fst (import_rows has_category uid [r1; r2; r3] db)))
             = S (S (List.length (expenses db)))
          /\ forall cols ss,
               has_required cols = true ->
               has_column "category" (map Text.lower cols) = has_category ->
               user_id ss = uid ->
               snd (bulk_import_page (mkFrame cols [r1; r2; r3]) ss db)
               = [st_success "Imported 2 records successfully."]).
Proof.
  intros R has_category uid db. split.
  - intros pre row post Hfail. unfold import_rows.
    rewrite !import_rows_app. simpl. rewrite import_step_fails by exact Hfail. reflexivity.
  - intros r1 r2 r3 text H1 H3 Hamt Hnone.
    assert (Hbad : row_fails r2).
    { left. exists ValueError. rewrite Hamt. simpl. rewrite Hnone. reflexivity. }
    assert (Hrun : exists db2,
               import_rows has_category uid [r1; r2; r3] db = (db2, 2)
               /\ List.length (expenses db2) = S (S (List.length (expenses db)))).
    { unfold import_rows. simpl.
      destruct (import_step_valid has_category uid r1 (db, 0) H1) as [db1 [E1 L1]].
      simpl in E1, L1. rewrite E1.
      rewrite (import_step_fails has_category uid r2 (db1, 1) Hbad).
      destruct (import_step_valid has_category uid r3 (db1, 1) H3) as [db2 [E2 L2]].
      simpl in E2, L2. rewrite E2. exists db2. split; [reflexivity | lia]. }
    destruct Hrun as [db2 [Hrun Hlen]].
    split; [rewrite Hrun; reflexivity |].
    split; [rewrite Hrun; exact Hlen |].
    intros cols ss Hreq Hcat Huid. unfold bulk_import_page. simpl columns. simpl rows.
    rewrite Hreq, Hcat, Huid, Hrun. reflexivity.
Qed.

Lemma bulk_import_isolates_failures_witness :
  import_rows (R := Canonical.runtime) false (Some 1) three_rows alice_db
  = import_rows (R := Canonical.runtime) false (Some 1)
      [nth 0 three_rows (mkCsvRow PNone PNone Missing Missing);
       nth 2 three_rows (mkCsvRow PNone PNone Missing Missing)] alice_db
  /\ snd (import_rows (R := Canonical.runtime) false (Some 1) three_rows alice_db) = 2
  /\ snd (bulk_import_page (R := Canonical.runtime)
            (mkFrame ["Dt"; "Amount"; "Description"] three_rows) refund_session alice_db)
     = [st_success "Imported 2 records successfully."].
Proof.
  destruct (bulk_import_isolates_failures Canonical.runtime false (Some 1) alice_db)
    as [Hskip Hthree].
  split.
  - apply (Hskip [mkCsvRow (PStr "2024-03-01") (PStr "10") (Text "coffee") Missing]
                 (mkCsvRow (PStr "2024-03-02") (PStr "abc") (Text "taxi") Missing)
                 [mkCsvRow (PStr "2024-03-03") (PStr "20.5") (Text "books") Missing]).
    left. exists ValueError. reflexivity.
  - destruct (Hthree (mkCsvRow (PStr "2024-03-01") (PStr "10") (Text "coffee") Missing)
                     (mkCsvRow (PStr "2024-03-02") (PStr "abc") (Text "taxi") Missing)
                     (mkCsvRow (PStr "2024-03-03") (PStr "20.5") (Text "books") Missing)
                     "abc") as [Hcount [_ Hpage]].
    + exists 10%float, (mkDate 2024 3 1). repeat split; vm_compute; reflexivity.
    + exists 20.5%float, (mkDate 2024 3 3). repeat split; vm_compute; reflexivity.
    + reflexivity.
    + reflexivity.
    + split; [exact Hcount |].
      apply Hpage; reflexivity.
Defined.

(** The same batch, run: the two valid rows are stored with the
    categories the keyword table gives them. *)
Example three_rows_run :
  import_rows (R := Canonical.runtime) false (Some 1) three_rows alice_db
  = (mkDb (users alice_db) 1
          [ mkExpense 1 "2024-03-01" 10%float (Some "coffee") (Some "Food") (Some 1);
            mkExpense 2 "2024-03-03" 20.5%float (Some "books") (Some "Education") (Some 1) ]
          2,
     2).
Proof. vm_compute. reflexivity. Qed.

(* ===================================================================== *)
(** * Sorting the frame                                                   *)
(* ===================================================================== *)

Lemma insert_desc_perm (x : expense_view) (l : list expense_view) :
  Permutation (x :: l) (insert_desc x l).
Proof.
  induction l as [| y r IH]; simpl.
  - apply Permutation_refl.
  - destruct (Dates.ts_leb (f_dt y) (f_dt x)).
    + apply Permutation_refl.
    + eapply perm_trans; [apply perm_swap | apply perm_skip; exact IH].
Qed.

Lemma sort_values_desc_perm (l : list expense_view) :
  Permutation l (sort_values_desc l).
Proof.
  induction l as [| x l IH]; simpl.
  - apply perm_nil.
  - eapply perm_trans; [apply perm_skip; exact IH | apply insert_desc_perm].
Qed.

Lemma sort_values_desc_In (x : expense_view) (l : list expense_view) :
  In x (sort_values_desc l) <-> In x l.
Proof.
  split; apply Permutation_in;
    [apply Permutation_sym |]; apply sort_values_desc_perm.
Qed.

(* ===================================================================== *)
(** * Ownership                                                           *)
(* ===================================================================== *)

Lemma sql_eq_true (col : option Z) (u : Z) :
  sql_eq col (Some u) = true <-> col = Some u.
Proof.
  destruct col as [c |]; simpl.
  - rewrite Z.eqb_eq. split; [intros -> | intros H; injection H as ->]; reflexivity.
  - split; discriminate.
Qed.

Lemma sql_eq_null (col : option Z) : sql_eq col None = false.
Proof. destruct col; reflexivity. Qed.

Lemma filter_all {A : Type} (p : A -> bool) (l : list A) :
  (forall x, In x l -> p x = true) -> List.filter p l = l.
Proof.
  induction l as [| a l IH]; simpl; intros H.
  - reflexivity.
  - rewrite (H a) by (left; reflexivity). f_equal. apply IH.
    intros x Hx. apply H. right. exact Hx.
Qed.

Lemma filter_none {A : Type} (p : A -> bool) (l : list A) :
  (forall x, In x l -> p x = false) -> List.filter p l = [].
Proof.
  induction l as [| a l IH]; simpl; intros H.
  - reflexivity.
  - rewrite (H a) by (left; reflexivity). apply IH.
    intros x Hx. apply H. right. exact Hx.
Qed.

(** Rows with distinct ids are told apart by their id. *)
Lemma same_id_same_row (l : list expense_row) (a b : expense_row) :
  NoDup (map e_id l) -> In a l -> In b l -> e_id a = e_id b -> a = b.
Proof.
  induction l as [| x l IH]; simpl; intros Hnd Ha Hb Hid.
  - destruct Ha.
  - inversion Hnd as [| i ids Hnotin Hnd' [Hi Hids]]; subst.
    destruct Ha as [-> | Ha], Hb as [-> | Hb].
    + reflexivity.
    + exfalso. apply Hnotin. rewrite Hid. apply in_map. exact Hb.
    + exfalso. apply Hnotin. rewrite <- Hid. apply in_map. exact Ha.
    + apply IH; assumption.
Qed.

Section Ownership.

Context {R : Runtime}.

(** Every row of the frame comes from a stored row that the WHERE clause
    selected. *)
Lemma fetch_expenses_source (start_date end_date : option string) (uid : option Z)
    (db : Db) (frame : list expense_view) (f : expense_view) :
  fetch_expenses start_date end_date uid db = Ok frame ->
  In f frame ->
  exists r, In r (expenses db) /\
            where_clause start_date end_date uid r = true /\
            e_id r = f_id f /\ e_amount r = f_amount f /\
            e_description r = f_description f /\ e_category r = f_category f.
Proof.
  unfold fetch_expenses.
  destruct (List.filter (where_clause start_date end_date uid) (expenses db))
    as [| r0 df] eqn:Hdf.
  - intros H. injection H as <-. intros [].
  - remember (r0 :: df) as sel eqn:Hsel.
    destruct (to_datetime (map e_dt sel)) as [dts |]; [| discriminate].
    intros H. injection H as <-. rewrite sort_values_desc_In, in_map_iff.
    intros [[r t] [<- Hin]]. apply in_combine_l in Hin.
    rewrite <- Hdf in Hin. apply filter_In in Hin. destruct Hin as [Hin Hw].
    exists r. repeat split; assumption.
Qed.

Lemma where_clause_owner (start_date end_date : option string) (u : Z) (r : expense_row) :
  where_clause start_date end_date (Some u) r = true -> e_user_id r = Some u.
Proof.
  unfold where_clause. rewrite andb_true_iff. intros [H _].
  apply sql_eq_true. exact H.
Qed.

Lemma fetch_expenses_no_user (start_date end_date : option string) (db : Db) :
  fetch_expenses start_date end_date None db = Ok [].
Proof.
  unfold fetch_expenses. rewrite filter_none; [reflexivity |].
  intros r _. unfold where_clause. rewrite sql_eq_null. reflexivity.
Qed.

Lemma delete_all_keeps (uid : option Z) (db : Db) (r : expense_row) :
  In r (expenses db) -> e_user_id r <> uid -> In r (expenses (delete_all uid db)).
Proof.
  intros Hin Hne. unfold delete_all. simpl. apply filter_In. split; [exact Hin |].
  destruct uid as [u |]; [| rewrite sql_eq_null; reflexivity].
  destruct (sql_eq (e_user_id r) (Some u)) eqn:E; [| reflexivity].
  apply sql_eq_true in E. contradiction.
Qed.

Lemma delete_between_keeps (s e : string) (uid : option Z) (db : Db) (r : expense_row) :
  In r (expenses db) -> e_user_id r <> uid ->
  In r (expenses (delete_between s e uid db)).
Proof.
  intros Hin Hne. unfold delete_between. simpl. apply filter_In. split; [exact Hin |].
  destruct uid as [u |]; [| rewrite sql_eq_null; reflexivity].
  destruct (sql_eq (e_user_id r) (Some u)) eqn:E; [| reflexivity].
  apply sql_eq_true in E. contradiction.
Qed.

Lemma delete_all_no_user (db : Db) : delete_all None db = db.
Proof.
  unfold delete_all. rewrite filter_all; [destruct db; reflexivity |].
  intros r _. rewrite sql_eq_null. reflexivity.
Qed.

Lemma delete_between_no_user (s e : string) (db : Db) : delete_between s e None db = db.
Proof.
  unfold delete_between. rewrite filter_all; [destruct db; reflexivity |].
  intros r _. rewrite sql_eq_null. reflexivity.
Qed.

End Ownership.

(** C1. For two distinct users [u] and [v] on a table whose ids are
    distinct: every row that [fetch_expenses] returns for [u], with or
    without a range, is a stored row owned by [u], and no row owned by [v]
    has its id; the two delete buttons of the Admin page, used by [u],
    leave every row owned by [v] in the table. Without a user id the query
    returns the empty frame and the delete buttons change nothing. *)
Theorem user_scoping :
  forall (R : Runtime) (db : Db) (u v : Z),
    u <> v ->
    NoDup (map e_id (expenses db)) ->
    (forall start_date end_date frame f,
        fetch_expenses start_date end_date (Some u) db = Ok frame ->
        In f frame ->
        (exists r, In r (expenses db) /\ e_user_id r = Some u /\ e_id r = f_id f)
        /\ (forall r', In r' (expenses db) -> e_user_id r' = Some v -> e_id r' <> f_id f))
    /\ (forall r ss,
          In r (expenses db) -> e_user_id r = Some v -> user_id ss = Some u ->
          (forall clicked confirm,
              In r (expenses (fst (clear_all_page clicked confirm ss db))))
          /\ (forall start_del end_del clicked,
                In r (expenses (fst (delete_range_page start_del end_del clicked ss db)))))
    /\ (forall start_date end_date, fetch_expenses start_date end_date None db = Ok [])
    /\ (forall ss,
          user_id ss = None ->
          (forall clicked confirm, fst (clear_all_page clicked confirm ss db) = db)
          /\ (forall start_del end_del clicked,
                fst (delete_range_page start_del end_del clicked ss db) = db)).
Proof.
  intros R db u v Huv Hnd. split; [| split; [| split]].
  - intros start_date end_date frame f Hfetch Hin.
    destruct (fetch_expenses_source _ _ _ _ _ f Hfetch Hin) as [r [Hr [Hw [Hid _]]]].
    apply where_clause_owner in Hw. split.
    + exists r. repeat split; assumption.
    + intros r' Hr' Hv Hid'.
      assert (r' = r) by (apply (same_id_same_row (expenses db)); congruence).
      subst r'. congruence.
  - intros r ss Hr Hv Hss.
    assert (Hne : e_user_id r <> Some u) by congruence.
    split.
    + intros clicked confirm. unfold clear_all_page. rewrite Hss.
      destruct clicked; [destruct confirm |]; simpl; try exact Hr.
      apply filter_In. split; [exact Hr |].
      destruct (sql_eq (e_user_id r) (Some u)) eqn:E; [| reflexivity].
      apply sql_eq_true in E. contradiction.
    + intros start_del end_del clicked. unfold delete_range_page. rewrite Hss.
      destruct clicked; [destruct (Dates.gtb start_del end_del) |]; simpl fst; try exact Hr.
      apply delete_between_keeps; assumption.
  - intros start_date end_date. apply fetch_expenses_no_user.
  - intros ss Hss. split.
    + intros clicked confirm. unfold clear_all_page. rewrite Hss.
      destruct clicked; [destruct confirm |]; simpl fst; try reflexivity.
      apply delete_all_no_user.
    + intros start_del end_del clicked. unfold delete_range_page. rewrite Hss.
      destruct clicked; [destruct (Dates.gtb start_del end_del) |]; simpl fst;
        try reflexivity.
      apply delete_between_no_user.
Qed.

Lemma january_ids_distinct : NoDup (map e_id (expenses january_db)).
Proof.
  simpl. repeat constructor; simpl; intuition discriminate.
Qed.

Lemma user_scoping_witness :
  (forall start_date end_date frame f,
      fetch_expenses (R := Canonical.runtime) start_date end_date (Some 1) january_db
      = Ok frame ->
      In f frame ->
      (exists r, In r (expenses january_db) /\ e_user_id r = Some 1 /\ e_id r = f_id f)
      /\ (forall r', In r' (expenses january_db) -> e_user_id r' = Some 2 ->
            e_id r' <> f_id f))
  /\ (forall r ss,
        In r (expenses january_db) -> e_user_id r = Some 2 -> user_id ss = Some 1 ->
        (forall clicked confirm,
            In r (expenses (fst (clear_all_page clicked confirm ss january_db))))
        /\ (forall start_del end_del clicked,
              In r (expenses (fst (delete_range_page (R := Canonical.runtime)
                                     start_del end_del clicked ss january_db)))))
  /\ (forall start_date end_date,
        fetch_expenses (R := Canonical.runtime) start_date end_date None january_db = Ok [])
  /\ (forall ss,
        user_id ss = None ->
        (forall clicked confirm, fst (clear_all_page clicked confirm ss january_db) = january_db)
        /\ (forall start_del end_del clicked,
              fst (delete_range_page (R := Canonical.runtime)
                     start_del end_del clicked ss january_db) = january_db)).
Proof.
  apply (user_scoping Canonical.runtime january_db 1 2).
  - discriminate.
  - exact january_ids_distinct.
Defined.

(** On the sample table: user 1 sees rows 3 and 1, most recent first, and
    clearing the data of user 1 leaves the row of user 2. *)
Example january_query :
  fetch_expenses (R := Canonical.runtime) None None (Some 1) january_db
  = Ok [ mkView 3 (Dates.midnight (mkDate 2024 1 15)) 40%float (Some "uber") (Some "Transport");
         mkView 1 (Dates.midnight (mkDate 2024 1 10)) 12.5%float (Some "lunch") (Some "Food") ].
Proof. vm_compute. reflexivity. Qed.

Example january_clear :
  expenses (fst (clear_all_page true true refund_session january_db))
  = [ mkExpense 2 "2024-01-20" 300%float (Some "rent") (Some "Rent") (Some 2) ].
Proof. vm_compute. reflexivity. Qed.

(* ===================================================================== *)
(** * Queries without a range                                             *)
(* ===================================================================== *)

Lemma combine_firsts {A B : Type} (l : list A) (l' : list B) :
  List.length l' = List.length l -> map fst (combine l l') = l.
Proof.
  revert l'. induction l as [| a l IH]; intros [| b l'] H; cbn in *;
    try reflexivity; try discriminate.
  f_equal. apply IH. lia.
Qed.

Lemma combine_each {A B : Type} (l : list A) (l' : list B) (a : A) :
  List.length l' = List.length l -> In a l -> exists b, In (a, b) (combine l l').
Proof.
  revert l'. induction l as [| x l IH]; intros [| b l'] H Hin; cbn in *;
    try contradiction; try discriminate.
  destruct Hin as [-> | Hin].
  - exists b. left. reflexivity.
  - destruct (IH l' ltac:(lia) Hin) as [b' Hb']. exists b'. right. exact Hb'.
Qed.

Section WholeSet.

Context {R : Runtime}.
Variables (uid : option Z) (db : Db).

(** Without both bounds the WHERE clause is the test of the owner. *)
Lemma where_clause_unbounded (start_date end_date : option string) :
  truthy_str start_date = false \/ truthy_str end_date = false ->
  List.filter (where_clause start_date end_date uid) (expenses db) = owned_by uid db.
Proof.
  intros H. unfold owned_by. apply filter_ext. intros r. unfold where_clause.
  destruct H as [H | H]; rewrite H; cbn [andb]; rewrite ?andb_false_r, andb_true_r;
    reflexivity.
Qed.

(** What the query without a range is, in terms of the rows of the user
    and of the answer of [to_datetime] for their dates. *)
Lemma fetch_expenses_unbounded :
  fetch_expenses None None uid db
  = match owned_by uid db with
    | [] => Ok []
    | _ :: _ =>
        match to_datetime (map e_dt (owned_by uid db)) with
        | Some dts => Ok (sort_values_desc (map view_of (combine (owned_by uid db) dts)))
        | None => Raise ValueError
        end
    end.
Proof.
  unfold fetch_expenses. rewrite (where_clause_unbounded None None) by (left; reflexivity).
  reflexivity.
Qed.

Hypothesis keeps_length : to_datetime_keeps_length R.

Lemma fetch_expenses_whole (frame : list expense_view) :
  fetch_expenses None None uid db = Ok frame ->
  Permutation (map f_id frame) (map e_id (owned_by uid db))
  /\ forall r, In r (owned_by uid db) -> exists f, In f frame /\ same_record r f.
Proof.
  rewrite fetch_expenses_unbounded.
  destruct (owned_by uid db) as [| r0 rest] eqn:Hown.
  - intros H. injection H as <-. split; [apply perm_nil | intros r []].
  - remember (r0 :: rest) as sel eqn:Hsel.
    destruct (to_datetime (map e_dt sel)) as [dts |] eqn:Hdts; [| discriminate].
    intros H. injection H as <-.
    assert (Hlen : List.length dts = List.length sel).
    { rewrite (keeps_length _ _ Hdts). apply length_map. }
    split.
    + eapply perm_trans.
      * apply Permutation_map. apply Permutation_sym. apply sort_values_desc_perm.
      * rewrite map_map. cbn [view_of f_id].
        rewrite <- (map_map fst e_id), combine_firsts by exact Hlen.
        apply Permutation_refl.
    + intros r Hr. destruct (combine_each sel dts r Hlen Hr) as [t Ht].
      exists (view_of (r, t)). split.
      * apply sort_values_desc_In. apply in_map. exact Ht.
      * repeat split.
Qed.

End WholeSet.

Lemma canonical_keeps_length : to_datetime_keeps_length Canonical.runtime.
Proof.
  intros col. change (@to_datetime Canonical.runtime) with Canonical.parse_column.
  induction col as [| s col IH]; intros dts; cbn [Canonical.parse_column].
  - intros H. injection H as <-. reflexivity.
  - destruct (Canonical.parse_iso s) as [d |]; [| discriminate].
    destruct (Canonical.parse_column col) as [ts |]; [| discriminate].
    destruct (Dates.in_timestamp_span d); [| discriminate].
    intros H. injection H as <-. cbn [List.length]. f_equal. apply IH. reflexivity.
Qed.

(** C10. The date filter is applied only when both bounds are given and
    not empty. With the start or the end missing or empty,
    [fetch_expenses] returns what the call without a range returns, and
    that is the full record set of the user: a frame it returns holds one
    row for each stored row of the user, under the id of that row and with
    its amount, description and category, and no other row. It returns such
    a frame whenever [to_datetime] reads the dates of these rows, and the
    empty frame when the user has no row; it raises only when
    [to_datetime] does. *)
Theorem fetch_expenses_needs_both_bounds :
  forall (R : Runtime) (start_date end_date : option string) (uid : option Z) (db : Db),
    to_datetime_keeps_length R ->
    truthy_str start_date = false \/ truthy_str end_date = false ->
    fetch_expenses start_date end_date uid db = fetch_expenses None None uid db
    /\ (forall frame,
          fetch_expenses start_date end_date uid db = Ok frame ->
          Permutation (map f_id frame) (map e_id (owned_by uid db))
          /\ forall r, In r (owned_by uid db) -> exists f, In f frame /\ same_record r f)
    /\ (forall dts,
          to_datetime (map e_dt (owned_by uid db)) = Some dts ->
          exists frame, fetch_expenses start_date end_date uid db = Ok frame)
    /\ (owned_by uid db = [] -> fetch_expenses start_date end_date uid db = Ok [])
    /\ (forall e,
          fetch_expenses start_date end_date uid db = Raise e ->
          to_datetime (map e_dt (owned_by uid db)) = None).
Proof.
  intros R start_date end_date uid db Hlen H.
  assert (Heq : fetch_expenses start_date end_date uid db = fetch_expenses None None uid db).
  { unfold fetch_expenses.
    rewrite (where_clause_unbounded uid db start_date end_date H).
    rewrite (where_clause_unbounded uid db None None) by (left; reflexivity).
    reflexivity. }
  split; [exact Heq |]. rewrite Heq. split; [| split; [| split]].
  - intros frame Hf. apply fetch_expenses_whole; assumption.
  - intros dts Hdts. rewrite fetch_expenses_unbounded, Hdts.
    destruct (owned_by uid db); eexists; reflexivity.
  - intros Hnone. rewrite fetch_expenses_unbounded, Hnone. reflexivity.
  - intros e. rewrite fetch_expenses_unbounded.
    destruct (owned_by uid db) as [| r0 rest]; [discriminate |].
    destruct (to_datetime (map e_dt (r0 :: rest))); [discriminate | reflexivity].
Qed.

Lemma fetch_expenses_needs_both_bounds_witness :
  fetch_expenses (R := Canonical.runtime) (Some "2024-01-12") None (Some 1) january_db
  = fetch_expenses (R := Canonical.runtime) None None (Some 1) january_db
  /\ (forall frame,
        fetch_expenses (R := Canonical.runtime) (Some "2024-01-12") None (Some 1) january_db
        = Ok frame ->
        Permutation (map f_id frame) (map e_id (owned_by (Some 1) january_db))
        /\ forall r, In r (owned_by (Some 1) january_db) ->
                     exists f, In f frame /\ same_record r f)
  /\ (forall dts,
        to_datetime (Runtime := Canonical.runtime) (map e_dt (owned_by (Some 1) january_db))
        = Some dts ->
        exists frame,
          fetch_expenses (R := Canonical.runtime) (Some "2024-01-12") None (Some 1) january_db
          = Ok frame)
  /\ (owned_by (Some 1) january_db = [] ->
      fetch_expenses (R := Canonical.runtime) (Some "2024-01-12") None (Some 1) january_db
      = Ok [])
  /\ (forall e,
        fetch_expenses (R := Canonical.runtime) (Some "2024-01-12") None (Some 1) january_db
        = Raise e ->
        to_datetime (Runtime := Canonical.runtime) (map e_dt (owned_by (Some 1) january_db))
        = None).
Proof.
  apply (fetch_expenses_needs_both_bounds Canonical.runtime (Some "2024-01-12") None (Some 1)
           january_db).
  - exact canonical_keeps_length.
  - right. reflexivity.
Defined.

(** With the start alone, the end alone, or an empty bound, the sample
    table gives user 1 both rows, the row dated before the start too. *)
Example january_one_bound :
  fetch_expenses (R := Canonical.runtime) (Some "2024-01-12") None (Some 1) january_db
  = Ok [ mkView 3 (Dates.midnight (mkDate 2024 1 15)) 40%float (Some "uber") (Some "Transport");
         mkView 1 (Dates.midnight (mkDate 2024 1 10)) 12.5%float (Some "lunch") (Some "Food") ]
  /\ fetch_expenses (R := Canonical.runtime) None (Some "2024-01-12") (Some 1) january_db
     = fetch_expenses (R := Canonical.runtime) (Some "2024-01-12") (Some "") (Some 1) january_db.
Proof. split; vm_compute; reflexivity. Qed.

(* ===================================================================== *)
(** * Export and re-import                                                *)
(* ===================================================================== *)

(** C5, at the input where the code departs from it. An expense added
    with an empty description is stored with the description [""] and
    exported with an empty field; pandas reads the empty field back as
    NaN, the import loop takes [str] of it, and the row it inserts has the
    description ["nan"]: the description does not survive the round trip,
    while date, amount and category do. *)
Theorem roundtrip_empty_description :
  add_expense_page (R := Canonical.runtime) (mkDate 2024 1 15) 5%float "" "Misc" true
                   refund_session alice_db
  = Ok (blank_description_db, [st_success "Expense added âœ…"])
  /\ fetch_expenses (R := Canonical.runtime) None None (Some 1) blank_description_db
     = Ok [ mkView 1 (Dates.midnight (mkDate 2024 1 15)) 5%float (Some "") (Some "Misc") ]
  /\ read_csv_field (to_csv_field (Some "")) = Missing
  /\ bulk_import_page (R := Canonical.runtime) reimported_frame refund_session
                      blank_description_db
     = (mkDb (users blank_description_db) 1
             [ mkExpense 1 "2024-01-15" 5%float (Some "") (Some "Misc") (Some 1);
               mkExpense 2 "2024-01-15" 5%float (Some "nan") (Some "Misc") (Some 1) ]
             2,
        [st_success "Imported 1 records successfully."]).
Proof. repeat split; vm_compute; reflexivity. Qed.

(* ===================================================================== *)
(** * ISO text and the order of dates                                     *)
(* ===================================================================== *)

Lemma digit_char_code (d : Z) :
  0 <= d < 10 -> N_of_ascii (Text.digit_char d) = (48 + Z.to_N d)%N.
Proof.
  intros H. unfold Text.digit_char. apply N_ascii_embedding. lia.
Qed.

Lemma digit_char_compare (a b : Z) :
  0 <= a < 10 -> 0 <= b < 10 ->
  Ascii.compare (Text.digit_char a) (Text.digit_char b) = (a ?= b).
Proof.
  intros Ha Hb. unfold Ascii.compare. rewrite !digit_char_code by assumption.
  rewrite <- N2Z.inj_compare, !N2Z.inj_add, !Z2N.id by lia.
  apply Z.add_compare_mono_l.
Qed.

Lemma compare_div_mod (p a b : Z) :
  0 < p -> 0 <= a -> 0 <= b ->
  (a ?= b) = Dates.lex (a / p ?= b / p) (a mod p ?= b mod p).
Proof.
  intros Hp Ha Hb.
  pose proof (Z.div_mod a p ltac:(lia)) as Ea.
  pose proof (Z.div_mod b p ltac:(lia)) as Eb.
  pose proof (Z.mod_pos_bound a p Hp) as Ra.
  pose proof (Z.mod_pos_bound b p Hp) as Rb.
  unfold Dates.lex.
  destruct (Z.compare_spec (a / p) (b / p)) as [E | L | G].
  - rewrite Ea, Eb at 1. rewrite E. rewrite Z.add_compare_mono_l. reflexivity.
  - apply Z.compare_lt_iff. nia.
  - apply Z.compare_gt_iff. nia.
Qed.

Lemma lex_assoc (c1 c2 c3 : comparison) :
  Dates.lex (Dates.lex c1 c2) c3 = Dates.lex c1 (Dates.lex c2 c3).
Proof. destruct c1; reflexivity. Qed.

Lemma pad_compare (w : nat) :
  forall (a b : Z) (s t : string),
    0 <= a < 10 ^ Z.of_nat w -> 0 <= b < 10 ^ Z.of_nat w ->
    String.compare (Dates.pad w a ++ s) (Dates.pad w b ++ t)
    = Dates.lex (a ?= b) (String.compare s t).
Proof.
  induction w as [| w IH]; intros a b s t Ha Hb.
  - simpl in Ha, Hb. assert (a = 0) by lia. assert (b = 0) by lia. subst. reflexivity.
  - rewrite Nat2Z.inj_succ, Z.pow_succ_r in Ha, Hb by lia.
    assert (Hp : 0 < 10 ^ Z.of_nat w) by (apply Z.pow_pos_nonneg; lia).
    cbn [Dates.pad String.append String.compare].
    set (p := 10 ^ Z.of_nat w) in *.
    rewrite digit_char_compare.
    + rewrite IH by (apply Z.mod_pos_bound; exact Hp).
      rewrite (compare_div_mod p a b) by lia.
      destruct (a / p ?= b / p); reflexivity.
    + split; [apply Z.div_pos; lia | apply Z.div_lt_upper_bound; lia].
    + split; [apply Z.div_pos; lia | apply Z.div_lt_upper_bound; lia].
Qed.

Lemma append_empty (s : string) : (s ++ "")%string = s.
Proof. induction s as [| c s IH]; simpl; [| rewrite IH]; reflexivity. Qed.

Lemma append_length (a b : string) :
  String.length (a ++ b)%string = (String.length a + String.length b)%nat.
Proof. induction a as [| c a IH]; cbn; [| rewrite IH]; reflexivity. Qed.

Lemma lex_eq_r (c : comparison) : Dates.lex c Eq = c.
Proof. destruct c; reflexivity. Qed.

Lemma isoformat_compare (a b : Date) :
  fits a -> fits b ->
  String.compare (Dates.isoformat a) (Dates.isoformat b) = Dates.compare a b.
Proof.
  intros [Hya [Hma Hda]] [Hyb [Hmb Hdb]].
  unfold Dates.isoformat, Dates.compare.
  rewrite (pad_compare 4) by (simpl; lia).
  cbn [String.append String.compare].
  replace (Ascii.compare "-"%char "-"%char) with Eq by reflexivity.
  rewrite (pad_compare 2) by (simpl; lia).
  cbn [String.append String.compare].
  replace (Ascii.compare "-"%char "-"%char) with Eq by reflexivity.
  rewrite <- (append_empty (Dates.pad 2 (day a))), <- (append_empty (Dates.pad 2 (day b))).
  rewrite (pad_compare 2) by (simpl; lia).
  simpl String.compare. rewrite lex_eq_r. reflexivity.
Qed.

Lemma isoformat_leb (a b : Date) :
  fits a -> fits b ->
  String.leb (Dates.isoformat a) (Dates.isoformat b) = Dates.leb a b.
Proof.
  intros Ha Hb. unfold String.leb, Dates.leb. rewrite isoformat_compare by assumption.
  reflexivity.
Qed.

Lemma days_in_month_bound (y m : Z) : Dates.days_in_month y m <= 31.
Proof.
  unfold Dates.days_in_month.
  destruct (m =? 2); [destruct (Dates.is_leap y); lia |].
  destruct ((m =? 4) || (m =? 6) || (m =? 9) || (m =? 11)); lia.
Qed.

Lemma valid_fits (d : Date) : Dates.valid d = true -> fits d.
Proof.
  unfold Dates.valid, fits. rewrite !andb_true_iff, !Z.leb_le.
  pose proof (days_in_month_bound (year d) (month d)). lia.
Qed.

Lemma canonical_valid (d : Date) : Dates.canonical d = true -> Dates.valid d = true.
Proof. unfold Dates.canonical. rewrite !andb_true_iff. tauto. Qed.

Lemma isoformat_not_empty (d : Date) : truthy_str (Some (Dates.isoformat d)) = true.
Proof. reflexivity. Qed.

(** From the year 1000 on, [strftime] writes the ISO text on every
    platform. *)
Lemma strftime_ymd_iso {R : Runtime} (d : Date) :
  1000 <= year d -> Dates.strftime_ymd d = Dates.isoformat d.
Proof.
  intros H. unfold Dates.strftime_ymd, Dates.year_text, Dates.isoformat.
  apply Z.leb_le in H. rewrite H. reflexivity.
Qed.

Lemma canonical_year (d : Date) : Dates.canonical d = true -> 1678 <= year d <= 2261.
Proof. unfold Dates.canonical. rewrite !andb_true_iff, !Z.leb_le. tauto. Qed.

Lemma strftime_ymd_canonical {R : Runtime} (d : Date) :
  Dates.canonical d = true -> Dates.strftime_ymd d = Dates.isoformat d.
Proof. intros H. apply strftime_ymd_iso. apply canonical_year in H. lia. Qed.

Lemma four_digit_facts (d : Date) :
  Dates.four_digit d = true -> Dates.valid d = true /\ 1000 <= year d.
Proof. unfold Dates.four_digit. rewrite andb_true_iff, Z.leb_le. tauto. Qed.

Lemma canonical_four_digit (d : Date) :
  Dates.canonical d = true -> Dates.four_digit d = true.
Proof.
  intros H. unfold Dates.four_digit. rewrite (canonical_valid d H).
  apply canonical_year in H. apply Z.leb_le. lia.
Qed.

(** A canonical date is inside the span of the time stamps. *)
Lemma canonical_in_span (d : Date) :
  Dates.canonical d = true -> Dates.in_timestamp_span d = true.
Proof.
  intros H. apply canonical_year in H. destruct d as [y m dd]. cbn [year] in H.
  unfold Dates.in_timestamp_span, Dates.leb, Dates.compare, Dates.lex. cbn [year month day].
  destruct (Z.compare_spec 1677 y); try lia.
  destruct (Z.compare_spec y 2262); try lia; reflexivity.
Qed.

(** The canonical reader inverts the ISO text. *)
Lemma digit_val_char (d : Z) :
  0 <= d < 10 -> Canonical.digit_val (Text.digit_char d) = Some d.
Proof.
  intros H. unfold Canonical.digit_val. rewrite digit_char_code by exact H.
  replace ((48 <=? 48 + Z.to_N d)%N && (48 + Z.to_N d <=? 57)%N) with true.
  - f_equal. lia.
  - symmetry. apply andb_true_iff. split; apply N.leb_le; lia.
Qed.

Lemma number_pad (w : nat) :
  forall n acc,
    0 <= n < 10 ^ Z.of_nat w ->
    Canonical.number (list_ascii_of_string (Dates.pad w n)) acc
    = Some (acc * 10 ^ Z.of_nat w + n).
Proof.
  induction w as [| w IH]; intros n acc Hn.
  - simpl in *. f_equal. lia.
  - rewrite Nat2Z.inj_succ, Z.pow_succ_r in * by lia.
    assert (Hp : 0 < 10 ^ Z.of_nat w) by (apply Z.pow_pos_nonneg; lia).
    cbn [Dates.pad list_ascii_of_string Canonical.number].
    set (p := 10 ^ Z.of_nat w) in *.
    rewrite digit_val_char
      by (split; [apply Z.div_pos; lia | apply Z.div_lt_upper_bound; lia]).
    rewrite IH by (apply Z.mod_pos_bound; exact Hp).
    f_equal. pose proof (Z.div_mod n p ltac:(lia)). nia.
Qed.

Lemma parse_iso_isoformat (d : Date) :
  Dates.valid d = true -> Canonical.parse_iso (Dates.isoformat d) = Some d.
Proof.
  intros Hv. destruct (valid_fits d Hv) as [Hy [Hm Hd]].
  pose proof (number_pad 4 (year d) 0 ltac:(simpl; lia)) as Ny.
  pose proof (number_pad 2 (month d) 0 ltac:(simpl; lia)) as Nm.
  pose proof (number_pad 2 (day d) 0 ltac:(simpl; lia)) as Nd.
  unfold Canonical.parse_iso, Dates.isoformat.
  cbn [Dates.pad String.append list_ascii_of_string] in *.
  replace (Ascii.eqb "-" Canonical.dash) with true by reflexivity.
  cbn [andb]. rewrite Ny, Nm, Nd. cbn [Z.mul Z.add].
  destruct d as [y m dd]. cbn [year month day] in *. rewrite Hv. reflexivity.
Qed.

(* ===================================================================== *)
(** * The order of dates and time stamps                                  *)
(* ===================================================================== *)

Ltac split_compare :=
  repeat match goal with
         | |- context [?x ?= ?y] =>
             destruct (Z.compare_spec x y); try discriminate; try reflexivity; try lia
         end.

Lemma ts_leb_total (a b : Timestamp) :
  Dates.ts_leb a b = false -> Dates.ts_leb b a = true.
Proof.
  destruct a as [[ya ma da] na], b as [[yb mb db] nb].
  unfold Dates.ts_leb, Dates.ts_compare, Dates.compare, Dates.lex; cbn.
  split_compare.
Qed.

Lemma ts_leb_trans (a b c : Timestamp) :
  Dates.ts_leb a b = true -> Dates.ts_leb b c = true -> Dates.ts_leb a c = true.
Proof.
  destruct a as [[ya ma da] na], b as [[yb mb db] nb], c as [[yc mc dc] nc].
  unfold Dates.ts_leb, Dates.ts_compare, Dates.compare, Dates.lex; cbn.
  split_compare.
Qed.

Lemma ts_leb_date (a b : Timestamp) :
  Dates.ts_leb a b = true -> Dates.leb (ts_date a) (ts_date b) = true.
Proof.
  unfold Dates.ts_leb, Dates.ts_compare, Dates.leb, Dates.lex.
  destruct (Dates.compare (ts_date a) (ts_date b)); try reflexivity. discriminate.
Qed.


Lemma insert_desc_sorted (x : expense_view) (l : list expense_view) :
  StronglySorted ts_desc l -> StronglySorted ts_desc (insert_desc x l).
Proof.
  induction l as [| y r IH]; intros Hs; simpl.
  - constructor; [constructor | constructor].
  - apply StronglySorted_inv in Hs. destruct Hs as [Hr Hy].
    destruct (Dates.ts_leb (f_dt y) (f_dt x)) eqn:E.
    + constructor.
      * constructor; assumption.
      * constructor; [exact E |].
        eapply Forall_impl; [| exact Hy].
        intros z Hz. unfold ts_desc in *. eapply ts_leb_trans; eassumption.
    + constructor.
      * apply IH. exact Hr.
      * apply ts_leb_total in E.
        eapply Permutation_Forall; [apply insert_desc_perm |].
        constructor; assumption.
Qed.

Lemma sort_values_desc_sorted (l : list expense_view) :
  StronglySorted ts_desc (sort_values_desc l).
Proof.
  induction l as [| x l IH]; simpl.
  - constructor.
  - apply insert_desc_sorted. exact IH.
Qed.

Lemma StronglySorted_weaken {A : Type} (P Q : A -> A -> Prop) (l : list A) :
  (forall a b, P a b -> Q a b) -> StronglySorted P l -> StronglySorted Q l.
Proof.
  intros H. induction 1 as [| a l Hs IH Hall]; constructor.
  - exact IH.
  - eapply Forall_impl; [| exact Hall]. intros b. apply H.
Qed.

Lemma sort_values_desc_by_date (l : list expense_view) :
  StronglySorted date_desc (sort_values_desc l).
Proof.
  apply StronglySorted_weaken with (P := ts_desc); [| apply sort_values_desc_sorted].
  intros a b. apply ts_leb_date.
Qed.

Lemma Permutation_filter {A : Type} (p : A -> bool) (l l' : list A) :
  Permutation l l' -> Permutation (List.filter p l) (List.filter p l').
Proof.
  induction 1 as [| x l l' _ IH | x y l | l l' l'' _ IH1 _ IH2]; simpl.
  - apply perm_nil.
  - destruct (p x); [apply perm_skip |]; exact IH.
  - destruct (p x), (p y); try apply Permutation_refl. apply perm_swap.
  - eapply perm_trans; eassumption.
Qed.

Lemma combine_map_r {A B : Type} (g : A -> B) (l : list A) :
  combine l (map g l) = map (fun x => (x, g x)) l.
Proof. induction l as [| a l IH]; simpl; [| rewrite IH]; reflexivity. Qed.

Lemma filter_andb {A : Type} (p q : A -> bool) (l : list A) :
  List.filter (fun x => p x && q x) l = List.filter q (List.filter p l).
Proof.
  induction l as [| a l IH]; simpl.
  - reflexivity.
  - destruct (p a); simpl; [destruct (q a) |]; rewrite IH; reflexivity.
Qed.

Section RangeQueries.

Context {R : Runtime}.
Hypothesis laws : RuntimeLaws R.
Variables (db : Db) (u : Z).
Hypothesis canonical_rows : stored_canonical u db.

Lemma stored_date_canonical (r : expense_row) :
  In r (expenses db) -> e_user_id r = Some u ->
  Dates.canonical (stored_date r) = true /\ e_dt r = Dates.isoformat (stored_date r).
Proof.
  intros Hin Hu. destruct (canonical_rows r Hin Hu) as [d [Hc Hd]].
  unfold stored_date. rewrite Hd, parse_iso_isoformat by (apply canonical_valid; exact Hc).
  split; [exact Hc | reflexivity].
Qed.

(** On canonical rows the query is a filter, a conversion and a sort. *)
Lemma fetch_expenses_canonical (start_date end_date : option string) :
  fetch_expenses start_date end_date (Some u) db
  = Ok (sort_values_desc
          (map stored_view
               (List.filter (where_clause start_date end_date (Some u)) (expenses db)))).
Proof.
  unfold fetch_expenses.
  set (sel := List.filter (where_clause start_date end_date (Some u)) (expenses db)).
  assert (Hsel : forall r, In r sel ->
            Dates.canonical (stored_date r) = true /\
            e_dt r = Dates.isoformat (stored_date r)).
  { intros r Hr. apply filter_In in Hr. destruct Hr as [Hin Hw].
    apply stored_date_canonical; [exact Hin | eapply where_clause_owner; exact Hw]. }
  assert (Hconv : to_datetime (map e_dt sel)
                  = Some (map Dates.midnight (map stored_date sel))).
  { replace (map e_dt sel) with (map Dates.isoformat (map stored_date sel)).
    - apply (to_datetime_iso _ laws). apply Forall_forall. intros d Hd.
      apply in_map_iff in Hd. destruct Hd as [r [<- Hr]]. apply Hsel. exact Hr.
    - rewrite map_map. apply map_ext_in. intros r Hr. symmetry. apply Hsel. exact Hr. }
  destruct sel as [| r0 df] eqn:E; [reflexivity |].
  rewrite Hconv. f_equal. f_equal.
  rewrite map_map, combine_map_r, map_map. reflexivity.
Qed.

Variables (start_ end_ : Date).
Hypothesis start_four_digit : Dates.four_digit start_ = true.
Hypothesis end_four_digit : Dates.four_digit end_ = true.

Lemma where_clause_range (r : expense_row) :
  In r (expenses db) ->
  where_clause (Some (Dates.strftime_ymd start_)) (Some (Dates.strftime_ymd end_)) (Some u) r
  = where_clause None None (Some u) r && in_range start_ end_ (stored_view r).
Proof.
  intros Hin.
  destruct (four_digit_facts _ start_four_digit) as [Hvs Hys].
  destruct (four_digit_facts _ end_four_digit) as [Hve Hye].
  rewrite !strftime_ymd_iso by assumption. unfold where_clause.
  rewrite !isoformat_not_empty. cbn [andb or_empty truthy_str]. rewrite andb_true_r.
  destruct (sql_eq (e_user_id r) (Some u)) eqn:Hu; [| reflexivity].
  apply sql_eq_true in Hu. destruct (stored_date_canonical r Hin Hu) as [Hc Hd].
  rewrite Hd at 1. rewrite (sqlite_date_iso _ laws) by exact Hc.
  unfold sql_between, in_range, view_date, stored_view, view_of.
  cbn [f_dt ts_date Dates.midnight fst snd].
  rewrite !isoformat_leb;
    try (apply valid_fits; assumption); try (apply valid_fits, canonical_valid; assumption).
  reflexivity.
Qed.

(** The same for the WHERE clause of the range delete. *)
Lemma owned_between (r : expense_row) :
  In r (expenses db) ->
  sql_eq (e_user_id r) (Some u) &&
  sql_between (sqlite_date (e_dt r)) (Dates.strftime_ymd start_) (Dates.strftime_ymd end_)
  = sql_eq (e_user_id r) (Some u) && in_range start_ end_ (stored_view r).
Proof.
  intros Hin. pose proof (where_clause_range r Hin) as H.
  destruct (four_digit_facts _ start_four_digit) as [Hvs Hys].
  destruct (four_digit_facts _ end_four_digit) as [Hve Hye].
  rewrite !strftime_ymd_iso in * by assumption. unfold where_clause in H.
  rewrite !isoformat_not_empty in H. cbn [andb or_empty truthy_str] in H.
  rewrite andb_true_r in H. exact H.
Qed.

Lemma fetch_expenses_range_split :
  exists everything ranged,
    fetch_expenses None None (Some u) db = Ok everything /\
    fetch_expenses (Some (Dates.strftime_ymd start_)) (Some (Dates.strftime_ymd end_))
                   (Some u) db = Ok ranged /\
    Permutation everything (map stored_view (owned_by (Some u) db)) /\
    Permutation ranged (List.filter (in_range start_ end_) everything) /\
    StronglySorted date_desc ranged.
Proof.
  eexists. eexists. split; [apply fetch_expenses_canonical |].
  split; [apply fetch_expenses_canonical |]. split; [| split].
  - rewrite (where_clause_unbounded (Some u) db None None) by (left; reflexivity).
    apply Permutation_sym. apply sort_values_desc_perm.
  - rewrite (filter_ext_in _ _ _ where_clause_range).
    rewrite (filter_andb (where_clause None None (Some u))
                         (fun r => in_range start_ end_ (stored_view r))).
    rewrite <- filter_map_swap.
    eapply perm_trans.
    + apply Permutation_sym. apply sort_values_desc_perm.
    + apply Permutation_filter. apply sort_values_desc_perm.
  - apply sort_values_desc_by_date.
Qed.

End RangeQueries.

Lemma canonical_runtime_laws : RuntimeLaws Canonical.runtime.
Proof.
  split.
  - intros d Hc.
    change (Canonical.iso_text (Dates.isoformat d) = Some (Dates.isoformat d)).
    unfold Canonical.iso_text.
    rewrite parse_iso_isoformat by (apply canonical_valid; exact Hc). reflexivity.
  - intros ds Hall.
    change (Canonical.parse_column (map Dates.isoformat ds) = Some (map Dates.midnight ds)).
    induction Hall as [| d ds Hd _ IH]; cbn [map Canonical.parse_column].
    + reflexivity.
    + rewrite parse_iso_isoformat by (apply canonical_valid; exact Hd).
      rewrite IH, (canonical_in_span d Hd). reflexivity.
Qed.

(** C3, as the code has it. On a table in which the rows of the user are
    dated with the ISO text of a canonical date (a date of the calendar
    inside the years 1678 to 2261, the span of a pandas time stamp), and for
    every range [[start_, end_]] of dates from the year 1000 on, passed as
    the text [strftime] writes for them: the query without the range
    returns the rows of the user, the query with the range returns exactly
    the rows of the query without it whose date lies in the range, both
    ends included (the two frames hold the same rows, as a permutation
    says), and the frame it returns is ordered by date, most recent
    first. *)
Theorem fetch_expenses_range :
  forall (R : Runtime) (db : Db) (u : Z) (start_ end_ : Date),
    RuntimeLaws R ->
    stored_canonical u db ->
    Dates.four_digit start_ = true ->
    Dates.four_digit end_ = true ->
    exists everything ranged,
      fetch_expenses None None (Some u) db = Ok everything /\
      fetch_expenses (Some (Dates.strftime_ymd start_)) (Some (Dates.strftime_ymd end_))
                     (Some u) db = Ok ranged /\
      Permutation everything (map stored_view (owned_by (Some u) db)) /\
      Permutation ranged (List.filter (in_range start_ end_) everything) /\
      StronglySorted date_desc ranged.
Proof.
  intros R db u start_ end_ Hlaws Hrows Hs He.
  apply fetch_expenses_range_split; assumption.
Qed.

Lemma january_db_canonical : stored_canonical 1 january_db.
Proof.
  intros r Hin Hu. simpl in Hin.
  destruct Hin as [<- | [<- | [<- | []]]].
  - exists (mkDate 2024 1 10). split; reflexivity.
  - discriminate Hu.
  - exists (mkDate 2024 1 15). split; reflexivity.
Qed.

Lemma fetch_expenses_range_witness :
  exists everything ranged,
    fetch_expenses (R := Canonical.runtime) None None (Some 1) january_db = Ok everything /\
    fetch_expenses (R := Canonical.runtime)
                   (Some (Dates.strftime_ymd (R := Canonical.runtime) (mkDate 2024 1 12)))
                   (Some (Dates.strftime_ymd (R := Canonical.runtime) (mkDate 2024 1 31)))
                   (Some 1) january_db = Ok ranged /\
    Permutation everything (map stored_view (owned_by (Some 1) january_db)) /\
    Permutation ranged (List.filter (in_range (mkDate 2024 1 12) (mkDate 2024 1 31)) everything) /\
    StronglySorted date_desc ranged.
Proof.
  apply (fetch_expenses_range Canonical.runtime january_db 1
           (mkDate 2024 1 12) (mkDate 2024 1 31)).
  - exact canonical_runtime_laws.
  - exact january_db_canonical.
  - reflexivity.
  - reflexivity.
Defined.

(** C3 does not hold of every table the program writes: "Bulk Import"
    stores any date dateutil reads.
    - pandas, with time stamps of nanoseconds, reads no date after
      2262-04-11. After "alice" has imported a row dated 2024-01-10 and a
      row dated 3000-01-01, the query without a range raises and so returns
      no record; the query over January 2024 returns the first row, which
      is then not a record of the query without a range; and the query over
      the year 3000 raises too instead of returning the second row.
    - glibc writes the year 999 without a leading zero, and SQLite's
      [date()] gives NULL for such a text. After "alice" has imported a row
      dated 0999-06-01, the row is stored under "999-06-01", it is a row of
      the user, and the query over the year 999 returns the empty frame. *)
Lemma fetch_expenses_out_of_span :
  (run_actions (R := Canonical.runtime) far_future_run (initial_session, init_db)
   = Ok (refund_session, far_future_db)
   /\ fetch_expenses (R := Canonical.runtime) None None (Some 1) far_future_db
      = Raise ValueError
   /\ fetch_expenses (R := Canonical.runtime) (Some "2024-01-01") (Some "2024-01-31") (Some 1)
                     far_future_db
      = Ok [ mkView 1 (Dates.midnight (mkDate 2024 1 10)) 12.5%float (Some "lunch")
                    (Some "Food") ]
   /\ fetch_expenses (R := Canonical.runtime) (Some "3000-01-01") (Some "3000-12-31") (Some 1)
                     far_future_db
      = Raise ValueError)
  /\ (run_actions (R := Canonical.runtime) short_year_run (initial_session, init_db)
      = Ok (refund_session, short_year_db)
      /\ owned_by (Some 1) short_year_db = [short_year_row]
      /\ sqlite_date (Runtime := Canonical.runtime) (e_dt short_year_row) = None
      /\ fetch_expenses (R := Canonical.runtime) (Some "0999-01-01") (Some "0999-12-31") (Some 1)
                        short_year_db
         = Ok []
      /\ fetch_expenses (R := Canonical.runtime) None None (Some 1) short_year_db
         = Raise ValueError).
Proof. repeat split; vm_compute; reflexivity. Qed.

(** The range query on the sample table: of the two rows of user 1, the
    one dated inside the range. The ends of the range are included. *)
Example january_range :
  fetch_expenses (R := Canonical.runtime) (Some "2024-01-12") (Some "2024-01-31") (Some 1)
                 january_db
  = Ok [ mkView 3 (Dates.midnight (mkDate 2024 1 15)) 40%float (Some "uber") (Some "Transport") ]
  /\ fetch_expenses (R := Canonical.runtime) (Some "2024-01-10") (Some "2024-01-15") (Some 1)
                    january_db
     = Ok [ mkView 3 (Dates.midnight (mkDate 2024 1 15)) 40%float (Some "uber") (Some "Transport");
            mkView 1 (Dates.midnight (mkDate 2024 1 10)) 12.5%float (Some "lunch") (Some "Food") ].
Proof. split; vm_compute; reflexivity. Qed.

(* ===================================================================== *)
(** * Further properties of the repository and of the import              *)
(* ===================================================================== *)

(** X1. A file without one of the columns [dt], [amount], [description]
    (read without case) is refused as a whole: the page shows the error and
    the database is the one it was given, whatever the rows hold. *)
Theorem bulk_import_requires_columns :
  forall (R : Runtime) (csv_df : csv_frame) (ss : session) (db : Db),
    has_required (columns csv_df) = false ->
    bulk_import_page csv_df ss db
    = (db, [st_error "CSV must contain dt, amount, description columns"]).
Proof.
  intros R csv_df ss db H. unfold bulk_import_page. rewrite H. reflexivity.
Qed.

Lemma bulk_import_requires_columns_witness :
  bulk_import_page (R := Canonical.runtime) (mkFrame ["date"; "amount"; "description"] three_rows)
                   refund_session alice_db
  = (alice_db, [st_error "CSV must contain dt, amount, description columns"]).
Proof.
  apply (bulk_import_requires_columns Canonical.runtime
           (mkFrame ["date"; "amount"; "description"] three_rows) refund_session alice_db).
  reflexivity.
Defined.

(** X2. "Clear ALL Expenses", confirmed, removes every expense of the
    user of the session and nothing else: the rows left are the rows of
    the table that the user does not own, in their order. *)
Theorem clear_all_removes_own :
  forall (db : Db) (ss : session) (u : Z),
    user_id ss = Some u ->
    expenses (fst (clear_all_page true true ss db))
    = List.filter (fun r => negb (sql_eq (e_user_id r) (Some u))) (expenses db)
    /\ forall r, In r (expenses (fst (clear_all_page true true ss db))) ->
                 e_user_id r <> Some u.
Proof.
  intros db ss u Hu. unfold clear_all_page, delete_all. rewrite Hu. simpl. split.
  - reflexivity.
  - intros r Hin Hown. apply filter_In in Hin. destruct Hin as [_ Hneg].
    apply sql_eq_true in Hown. rewrite Hown in Hneg. discriminate.
Qed.

Lemma clear_all_removes_own_witness :
  expenses (fst (clear_all_page true true refund_session january_db))
  = List.filter (fun r => negb (sql_eq (e_user_id r) (Some 1))) (expenses january_db)
  /\ forall r, In r (expenses (fst (clear_all_page true true refund_session january_db))) ->
               e_user_id r <> Some 1.
Proof.
  apply (clear_all_removes_own january_db refund_session 1). reflexivity.
Defined.

Lemma next_id_above (seq : Z) (ids : list Z) (i : Z) :
  In i ids -> i < next_id seq ids.
Proof.
  unfold next_id. induction ids as [| j ids IH]; simpl; intros H.
  - destruct H.
  - destruct H as [-> | H]; [lia | specialize (IH H); lia].
Qed.

(** X3. [add_expense] gives the new row an id that no stored row has: a
    table with distinct ids keeps distinct ids, and the rows that were
    stored stay as they were, before the new one. *)
Theorem add_expense_fresh_id :
  forall (dt : string) (amount : float) (description category : string)
         (uid : option Z) (db db' : Db),
    NoDup (map e_id (expenses db)) ->
    add_expense dt amount description category uid db = Ok db' ->
    NoDup (map e_id (expenses db'))
    /\ exists row, expenses db' = expenses db ++ [row]
                   /\ e_user_id row = uid /\ e_amount row = amount /\ e_dt row = dt.
Proof.
  intros dt amount description category uid db db' Hnd. unfold add_expense.
  destruct (is_nan amount); [discriminate |].
  intros H. injection H as <-. simpl. split.
  - rewrite map_app. simpl.
    apply NoDup_app; [exact Hnd | repeat constructor; intros [] |].
    intros i Hin [<- | []].
    apply (next_id_above (expenses_seq db)) in Hin. lia.
  - eexists. repeat split; reflexivity.
Qed.

Lemma add_expense_fresh_id_witness :
  NoDup (map e_id (expenses
     (mkDb (users january_db) 1
           (expenses january_db ++
            [mkExpense 4 "2024-02-01" 8%float (Some "bus") (Some "Transport") (Some 2)]) 4)))
  /\ exists row,
       expenses (mkDb (users january_db) 1
                      (expenses january_db ++
                       [mkExpense 4 "2024-02-01" 8%float (Some "bus") (Some "Transport") (Some 2)])
                      4)
       = expenses january_db ++ [row]
       /\ e_user_id row = Some 2 /\ e_amount row = 8%float /\ e_dt row = "2024-02-01".
Proof.
  apply (add_expense_fresh_id "2024-02-01" 8%float "bus" "Transport" (Some 2) january_db).
  - exact january_ids_distinct.
  - reflexivity.
Defined.

(** X4. The import derives the category from the description when the
    frame has no [category] column or the cell is missing or blank: a
    valid row is then stored with the category [auto_categorize] gives
    its description text. *)
Theorem import_derives_category :
  forall (R : Runtime) (has_category : bool) (uid : option Z) (db : Db) (n : Z)
         (row : csv_row) (a : float) (d : Date),
    py_float (c_amount row) = Ok a ->
    PyFloat.gt0 a = true ->
    py_parse_date (c_dt row) = Ok d ->
    has_category = false \/ category_absent (Some (c_category row)) = true ->
    exists db',
      import_row has_category uid (db, n) row = Ok (db', n + 1)
      /\ exists id,
           expenses db'
           = expenses db ++
             [mkExpense id (Dates.strftime_ymd d) a
                        (Some (str_of_cell (c_description row)))
                        (Some (auto_categorize (Some (str_of_cell (c_description row)))))
                        uid].
Proof.
  intros R has_category uid db n row a d Ha Hgt Hd Hcat.
  unfold import_row, bind. rewrite Ha, Hd, Hgt. cbn [fst snd].
  rewrite add_expense_inserts by (apply gt0_not_nan; exact Hgt).
  eexists. split; [reflexivity |]. simpl expenses. eexists. f_equal. f_equal. f_equal.
  destruct Hcat as [-> | Habs]; [reflexivity |].
  destruct has_category; [rewrite Habs |]; reflexivity.
Qed.

Lemma import_derives_category_witness :
  exists db',
    import_row (R := Canonical.runtime) true (Some 1) (alice_db, 0)
               (mkCsvRow (PStr "2024-03-01") (PStr "10") (Text "Uber to work") Missing)
    = Ok (db', 0 + 1)
    /\ exists id,
         expenses db'
         = expenses alice_db ++
           [mkExpense id (Dates.strftime_ymd (R := Canonical.runtime) (mkDate 2024 3 1)) 10%float
                      (Some (str_of_cell (Text "Uber to work")))
                      (Some (auto_categorize (R := Canonical.runtime)
                               (Some (str_of_cell (Text "Uber to work")))))
                      (Some 1)].
Proof.
  apply (import_derives_category Canonical.runtime true (Some 1) alice_db 0
           (mkCsvRow (PStr "2024-03-01") (PStr "10") (Text "Uber to work") Missing)
           10%float (mkDate 2024 3 1)).
  - vm_compute. reflexivity.
  - reflexivity.
  - reflexivity.
  - right. reflexivity.
Defined.

(** X5. "Delete Selected Range" with a start that is not after the end
    removes the expenses of the user of the session that are dated in the
    range, both ends included, and no other row: the rows left are those
    of another owner or dated outside the range, in their order. *)
Theorem delete_range_removes_range :
  forall (R : Runtime) (db : Db) (u : Z) (ss : session) (start_del end_del : Date),
    RuntimeLaws R ->
    stored_canonical u db ->
    Dates.canonical start_del = true ->
    Dates.canonical end_del = true ->
    user_id ss = Some u ->
    Dates.gtb start_del end_del = false ->
    expenses (fst (delete_range_page start_del end_del true ss db))
    = List.filter
        (fun r => negb (sql_eq (e_user_id r) (Some u) &&
                        in_range start_del end_del (stored_view r)))
        (expenses db).
Proof.
  intros R db u ss start_del end_del Hlaws Hrows Hs He Hu Hle.
  unfold delete_range_page, delete_between. rewrite Hle, Hu. cbn [fst expenses].
  apply filter_ext_in. intros r Hin. f_equal.
  exact (owned_between Hlaws db u Hrows start_del end_del
           (canonical_four_digit _ Hs) (canonical_four_digit _ He) r Hin).
Qed.

Lemma delete_range_removes_range_witness :
  expenses (fst (delete_range_page (R := Canonical.runtime)
                   (mkDate 2024 1 12) (mkDate 2024 1 31) true refund_session january_db))
  = List.filter
      (fun r => negb (sql_eq (e_user_id r) (Some 1) &&
                      in_range (mkDate 2024 1 12) (mkDate 2024 1 31) (stored_view r)))
      (expenses january_db).
Proof.
  apply (delete_range_removes_range Canonical.runtime january_db 1 refund_session
           (mkDate 2024 1 12) (mkDate 2024 1 31)).
  - exact canonical_runtime_laws.
  - exact january_db_canonical.
  - reflexivity.
  - reflexivity.
  - reflexivity.
  - reflexivity.
Defined.

(** The range delete on the sample table: row 3 of user 1 goes, row 1
    (dated before the range) and row 2 (of user 2, dated inside) stay. *)
Example january_delete_range :
  map e_id (expenses (fst (delete_range_page (R := Canonical.runtime)
                             (mkDate 2024 1 12) (mkDate 2024 1 31) true
                             refund_session january_db)))
  = [1; 2].
Proof. vm_compute. reflexivity. Qed.

(* ===================================================================== *)
(** * The states the application reaches                                  *)
(* ===================================================================== *)

(** An amount that is neither [<= 0] nor a NaN is [> 0]. *)
Lemma not_le0_gt0 (a : float) :
  PyFloat.le0 a = false -> is_nan a = false -> PyFloat.gt0 a = true.
Proof.
  unfold PyFloat.le0, PyFloat.gt0, PyFloat.zero, is_nan.
  rewrite FloatAxioms.leb_spec, FloatAxioms.ltb_spec, FloatAxioms.eqb_spec.
  change (Prim2SF 0) with (S754_zero false).
  destruct (Prim2SF a) as [s | s | | s m e]; try destruct s; simpl;
    try reflexivity; try discriminate.
Qed.

Lemma next_id_above_seq (seq : Z) (ids : list Z) : seq < next_id seq ids.
Proof.
  unfold next_id. induction ids as [| j ids IH]; simpl; lia.
Qed.

Lemma NoDup_snoc {A : Type} (l : list A) (x : A) :
  NoDup l -> ~ In x l -> NoDup (l ++ [x]).
Proof.
  intros Hl Hx. apply NoDup_app.
  - exact Hl.
  - constructor; [intros [] | constructor].
  - intros a Ha [<- | []]. exact (Hx Ha).
Qed.

Lemma NoDup_map_filter {A B : Type} (keep : A -> bool) (key : A -> B) (rows : list A) :
  NoDup (map key rows) -> NoDup (map key (List.filter keep rows)).
Proof.
  rename keep into p, key into f, rows into l.
  induction l as [| a l IH]; simpl; intros H.
  - constructor.
  - inversion H as [| x xs Hnot Hnd]; subst.
    destruct (p a); simpl; [constructor |]; try (apply IH; exact Hnd).
    intros Hin. apply Hnot. apply in_map_iff in Hin. destruct Hin as [b [Hb Hin]].
    apply in_map_iff. exists b. split; [exact Hb |].
    apply filter_In in Hin. tauto.
Qed.

Lemma Forall_filter {A : Type} (P : A -> Prop) (p : A -> bool) (l : list A) :
  Forall P l -> Forall P (List.filter p l).
Proof.
  intros H. apply Forall_forall. intros x Hx. apply filter_In in Hx.
  rewrite Forall_forall in H. apply H. tauto.
Qed.

Lemma select_user_none (name : string) (db : Db) :
  select_user name db = None -> ~ In name (map u_username (users db)).
Proof.
  unfold select_user. intros Hnone Hin.
  apply in_map_iff in Hin. destruct Hin as [u [Hu Hin]].
  apply (find_none _ _ Hnone) in Hin. rewrite Hu, String.eqb_refl in Hin. discriminate.
Qed.

Lemma select_user_some (name : string) (db : Db) (u : user_row) :
  select_user name db = Some u -> In u (users db) /\ u_username u = name.
Proof.
  unfold select_user. intros H. apply find_some in H.
  destruct H as [Hin Heq]. apply String.eqb_eq in Heq. tauto.
Qed.

Lemma row_well_formed_more (us us' : list user_row) (r : expense_row) :
  (forall u, In u us -> In u us') -> row_well_formed us r -> row_well_formed us' r.
Proof.
  intros Hsub [Ha [Hs [Hc [u [Hu Ho]]]]].
  repeat split; try assumption. exists u. split; [apply Hsub; exact Hu | exact Ho].
Qed.

(** The insert of a row with a positive amount and a known owner keeps a
    well-formed database well formed. *)
Lemma add_expense_ok (dt : string) (amount : float) (description category : string)
    (uid : option Z) (db db' : Db) :
  db_ok db -> known_user db uid -> PyFloat.gt0 amount = true ->
  add_expense dt amount description category uid db = Ok db' ->
  db_ok db' /\ users db' = users db.
Proof.
  intros [H1 H2 H3 H4 H5 H6] Hknown Hgt.
  rewrite add_expense_inserts by (apply gt0_not_nan; exact Hgt).
  intros H. injection H as <-. split; [| reflexivity].
  split; cbn [users expenses expenses_seq users_seq]; try assumption.
  - rewrite map_app. apply NoDup_snoc; [exact H4 |].
    intros Hin. apply (next_id_above (expenses_seq db)) in Hin. cbn in Hin. lia.
  - apply Forall_app. split.
    + eapply Forall_impl; [| exact H5]. intros r Hr. cbn beta in *.
      pose proof (next_id_above_seq (expenses_seq db) (map e_id (expenses db))). lia.
    + constructor; [cbn; lia | constructor].
  - apply Forall_app. split; [exact H6 |].
    constructor; [| constructor].
    destruct Hknown as [u [Hu ->]].
    repeat split; cbn; try exact Hgt; eauto.
Qed.

Section Preservation.

Context {R : Runtime}.

Lemma import_step_ok (has_category : bool) (uid : option Z) (st : Db * Z) (row : csv_row) :
  db_ok (fst st) -> known_user (fst st) uid ->
  db_ok (fst (import_step has_category uid st row))
  /\ users (fst (import_step has_category uid st row)) = users (fst st).
Proof.
  intros Hok Hknown. unfold import_step, import_row, bind.
  destruct (py_float (c_amount row)) as [amt |]; [| tauto].
  destruct (py_parse_date (c_dt row)) as [d |]; [| tauto].
  destruct (PyFloat.gt0 amt) eqn:Hgt; [| tauto].
  match goal with
  | |- context [add_expense ?dt ?a ?de ?ca ?u ?db] =>
      destruct (add_expense dt a de ca u db) as [db' |] eqn:Hadd
  end; [| tauto].
  cbn [fst]. eapply add_expense_ok; eassumption.
Qed.

Lemma import_rows_ok (has_category : bool) (uid : option Z) (rs : list csv_row) (db : Db) :
  db_ok db -> known_user db uid ->
  db_ok (fst (import_rows has_category uid rs db))
  /\ users (fst (import_rows has_category uid rs db)) = users db.
Proof.
  unfold import_rows.
  assert (H : forall (st : Db * Z),
             db_ok (fst st) -> known_user (fst st) uid ->
             db_ok (fst (fold_left (import_step has_category uid) rs st))
             /\ users (fst (fold_left (import_step has_category uid) rs st))
                = users (fst st)).
  { induction rs as [| row rs IH]; intros st Hok Hknown; simpl.
    - tauto.
    - destruct (import_step_ok has_category uid st row Hok Hknown) as [Hok' Hus].
      destruct (IH (import_step has_category uid st row)) as [Hok'' Hus'].
      + exact Hok'.
      + unfold known_user in *. rewrite Hus. exact Hknown.
      + split; [exact Hok'' | congruence]. }
  exact (H (db, 0)).
Qed.

Lemma delete_ok (p : expense_row -> bool) (db : Db) :
  db_ok db ->
  db_ok (mkDb (users db) (users_seq db) (List.filter p (expenses db)) (expenses_seq db)).
Proof.
  intros [H1 H2 H3 H4 H5 H6]. split; cbn; try assumption.
  - apply NoDup_map_filter. exact H4.
  - apply Forall_filter. exact H5.
  - apply Forall_filter. exact H6.
Qed.

End Preservation.

Lemma is_empty_false (s : string) : is_empty s = false -> s <> "".
Proof. destruct s; [discriminate | intros _ H; discriminate H]. Qed.

Lemma register_user_ok (name password : string) (db db' : Db) (ok : bool) :
  db_ok db -> name <> "" -> password <> "" ->
  register_user name password db = Ok (db', ok) ->
  db_ok db' /\ (forall u, In u (users db) -> In u (users db'))
  /\ expenses db' = expenses db.
Proof.
  intros Hok Hname Hpw. unfold register_user, insert_user.
  destruct (select_user name db) as [u |] eqn:Hsel; intros H; injection H as <- <-.
  - tauto.
  - destruct Hok as [H1 H2 H3 H4 H5 H6].
    split; [| split; [intros u Hu; cbn; apply in_or_app; tauto | reflexivity]].
    split; cbn [users expenses expenses_seq users_seq]; try assumption.
    + rewrite map_app. apply NoDup_snoc; [exact H1 |]. apply select_user_none. exact Hsel.
    + rewrite map_app. apply NoDup_snoc; [exact H2 |].
      intros Hin. apply (next_id_above (users_seq db)) in Hin. cbn in Hin. lia.
    + apply Forall_app. split; [exact H3 |]. constructor; [| constructor].
      split; [exact Hname | exists password; tauto].
    + eapply Forall_impl; [| exact H6]. intros r. apply row_well_formed_more.
      intros u Hu. apply in_or_app. tauto.
Qed.

Lemma session_ok_more (ss : session) (db db' : Db) :
  (forall u, In u (users db) -> In u (users db')) ->
  session_ok ss db -> session_ok ss db'.
Proof.
  unfold session_ok. intros Hsub. destruct (logged_in ss); [| tauto].
  intros [u [Hu H]]. exists u. split; [apply Hsub; exact Hu | exact H].
Qed.

Lemma session_known_user (ss : session) (db : Db) :
  logged_in ss = true -> session_ok ss db -> known_user db (user_id ss).
Proof.
  unfold session_ok, known_user. intros ->. intros [u [Hu [_ Hid]]]. eauto.
Qed.

Lemma login_form_ok (name password : string) (ss : session) (db : Db) :
  session_ok ss db -> session_ok (fst (login_form name password true ss db)) db.
Proof.
  intros Hss. unfold login_form, authenticate_user, get_user_id.
  destruct (select_user name db) as [u |] eqn:Hsel; [| exact Hss].
  destruct (verify_password password (u_password_hash u)); [| exact Hss].
  apply select_user_some in Hsel. destruct Hsel as [Hin Hname].
  exists u. cbn. rewrite Hname. tauto.
Qed.

(** Every run of the script keeps the database well formed and the
    session in step with it. *)
Lemma app_step_ok {R : Runtime} (a : action) (st st' : session * Db) (shown : list notice) :
  db_ok (snd st) -> session_ok (fst st) (snd st) ->
  app_step a st = Ok (st', shown) ->
  db_ok (snd st') /\ session_ok (fst st') (snd st').
Proof.
  destruct st as [ss db]. cbn [fst snd]. intros Hdb Hss. unfold app_step. cbn [fst snd].
  destruct (logged_in ss) eqn:Hlog; cbn [negb].
  - destruct a; intros H; try (injection H as <- _; cbn; tauto).
    + unfold add_expense_page, bind in H.
      destruct (PyFloat.le0 amount_input) eqn:Hle.
      * injection H as <- _. cbn. tauto.
      * match type of H with
        | context [add_expense ?dt ?a ?de ?ca ?u ?d0] =>
            destruct (add_expense dt a de ca u d0) as [db' |] eqn:Hadd
        end; [| discriminate].
        injection H as <- _. cbn [fst snd].
        assert (Hnan : is_nan amount_input = false).
        { unfold add_expense in Hadd. destruct (is_nan amount_input); [discriminate | reflexivity]. }
        destruct (add_expense_ok _ _ _ _ _ _ _ Hdb (session_known_user ss db Hlog Hss)
                    (not_le0_gt0 _ Hle Hnan) Hadd) as [Hok Hus].
        split; [exact Hok |]. eapply session_ok_more; [| exact Hss].
        rewrite Hus. tauto.
    + injection H as <- _. cbn [fst snd]. unfold bulk_import_page.
      destruct (has_required (columns csv_df)); cbn [fst]; [| tauto].
      destruct (import_rows_ok (has_column "category" (map Text.lower (columns csv_df)))
                  (user_id ss) (rows csv_df) db Hdb (session_known_user ss db Hlog Hss))
        as [Hok Hus].
      split; [exact Hok |]. eapply session_ok_more; [| exact Hss]. rewrite Hus. tauto.
    + injection H as <- _. cbn [fst snd]. unfold clear_all_page.
      destruct confirm; cbn [fst]; [| tauto].
      split; [apply delete_ok; exact Hdb | exact Hss].
    + injection H as <- _. cbn [fst snd]. unfold delete_range_page.
      destruct (Dates.gtb start_del end_del); cbn [fst]; [tauto |].
      split; [apply delete_ok; exact Hdb | exact Hss].
  - destruct a; intros H; try (injection H as <- _; cbn; tauto).
    + injection H as <- _. cbn [fst snd]. split; [exact Hdb |].
      apply login_form_ok. exact Hss.
    + unfold register_form, bind in H.
      destruct (is_empty username_in) eqn:Hu; cbn [orb] in H;
        [injection H as <- _; cbn; tauto |].
      destruct (is_empty password_in) eqn:Hp; cbn [orb] in H;
        [injection H as <- _; cbn; tauto |].
      destruct (negb (String.eqb password_in confirm_in));
        [injection H as <- _; cbn; tauto |].
      destruct (register_user username_in password_in db) as [[db' ok] |] eqn:Hreg;
        [| discriminate].
      destruct (register_user_ok _ _ _ _ _ Hdb (is_empty_false _ Hu) (is_empty_false _ Hp) Hreg)
        as [Hok [Hsub _]].
      cbn [fst snd] in H.
      assert (E : st' = (ss, db')) by (destruct ok; injection H as <- _; reflexivity).
      subst st'. cbn. split; [exact Hok | eapply session_ok_more; eassumption].
Qed.

Lemma init_db_ok : db_ok init_db.
Proof. split; cbn; constructor. Qed.

Lemma reachable_ok {R : Runtime} (st : session * Db) :
  reachable st -> db_ok (snd st) /\ session_ok (fst st) (snd st).
Proof.
  induction 1 as [| a st st' shown _ IH Hstep].
  - split; [exact init_db_ok | split; reflexivity].
  - destruct IH as [Hdb Hss]. eapply app_step_ok; eassumption.
Qed.

(* ===================================================================== *)
(** * What one import adds                                                *)
(* ===================================================================== *)

Section ImportAppends.

Context {R : Runtime}.
Variables (has_category : bool) (uid : option Z).

(** A row of the batch leaves the state, or adds one row owned by [uid]
    with a positive amount and counts it. *)
Lemma import_step_cases (st : Db * Z) (row : csv_row) :
  import_step has_category uid st row = st \/
  exists new,
    import_step has_category uid st row
    = (mkDb (users (fst st)) (users_seq (fst st)) (expenses (fst st) ++ [new]) (e_id new),
       snd st + 1)
    /\ e_user_id new = uid /\ PyFloat.gt0 (e_amount new) = true
    /\ e_id new = next_id (expenses_seq (fst st)) (map e_id (expenses (fst st))).
Proof.
  unfold import_step, import_row, bind.
  destruct (py_float (c_amount row)) as [amt |]; [| left; reflexivity].
  destruct (py_parse_date (c_dt row)) as [d |]; [| left; reflexivity].
  destruct (PyFloat.gt0 amt) eqn:Hgt; [| left; reflexivity].
  rewrite add_expense_inserts by (apply gt0_not_nan; exact Hgt).
  right. eexists (mkExpense _ _ _ _ _ _). split; [reflexivity |].
  cbn. repeat split. exact Hgt.
Qed.

Lemma import_fold_appends (rs : list csv_row) :
  forall st : Db * Z,
  exists new,
    expenses (fst (fold_left (import_step has_category uid) rs st))
    = expenses (fst st) ++ new
    /\ snd (fold_left (import_step has_category uid) rs st) = snd st + Z.of_nat (List.length new)
    /\ (List.length new <= List.length rs)%nat
    /\ Forall (fun r => e_user_id r = uid /\ PyFloat.gt0 (e_amount r) = true) new
    /\ users (fst (fold_left (import_step has_category uid) rs st)) = users (fst st).
Proof.
  induction rs as [| row rs IH]; intros st; cbn [fold_left].
  - exists []. rewrite app_nil_r. cbn. repeat split; try lia. constructor.
  - destruct (import_step_cases st row) as [-> | [new [-> [Hu [Hgt _]]]]].
    + destruct (IH st) as [more [He [Hn [Hl [Hall Hus]]]]].
      exists more. cbn [List.length]. repeat split; try assumption. lia.
    + match goal with |- context [fold_left _ rs ?s] => destruct (IH s) as [more [He [Hn [Hl [Hall Hus]]]]] end.
      cbn [fst snd expenses users] in He, Hn, Hus.
      exists (new :: more). rewrite He, Hn, Hus, <- app_assoc. cbn [List.length app].
      repeat split; try lia. constructor; [tauto | exact Hall].
Qed.

End ImportAppends.

(* ===================================================================== *)
(** * Invariants of the application                                       *)
(* ===================================================================== *)

Lemma run_actions_reachable {R : Runtime} (acts : list action) :
  forall st st', reachable st -> run_actions acts st = Ok st' -> reachable st'.
Proof.
  induction acts as [| a acts IH]; intros st st' Hst; cbn [run_actions]; unfold bind.
  - intros H. injection H as <-. exact Hst.
  - destruct (app_step a st) as [[st1 shown] |] eqn:Hstep; [| discriminate].
    cbn [fst]. apply IH. eapply reach_step; eassumption.
Qed.

Lemma sample_reachable : reachable (R := Canonical.runtime) sample_state.
Proof.
  apply (run_actions_reachable (R := Canonical.runtime) sample_run
           (initial_session, init_db) sample_state).
  - apply reach_start.
  - vm_compute. reflexivity.
Qed.

Lemma select_user_unique (db : Db) (u : user_row) :
  NoDup (map u_username (users db)) -> In u (users db) ->
  select_user (u_username u) db = Some u.
Proof.
  unfold select_user. induction (users db) as [| x l IH]; cbn; intros Hnd Hin.
  - destruct Hin.
  - inversion Hnd as [| y ys Hnot Hnd']; subst.
    destruct Hin as [-> | Hin].
    + rewrite String.eqb_refl. reflexivity.
    + destruct (String.eqb (u_username x) (u_username u)) eqn:E.
      * apply String.eqb_eq in E. exfalso. apply Hnot. rewrite E. apply in_map. exact Hin.
      * apply IH; assumption.
Qed.

Lemma same_user_id_same_row (l : list user_row) (a b : user_row) :
  NoDup (map u_id l) -> In a l -> In b l -> u_id a = u_id b -> a = b.
Proof.
  induction l as [| x l IH]; cbn; intros Hnd Ha Hb Hid.
  - destruct Ha.
  - inversion Hnd as [| i ids Hnot Hnd']; subst.
    destruct Ha as [-> | Ha], Hb as [-> | Hb].
    + reflexivity.
    + exfalso. apply Hnot. rewrite Hid. apply in_map. exact Hb.
    + exfalso. apply Hnot. rewrite <- Hid. apply in_map. exact Ha.
    + apply IH; assumption.
Qed.

(** X6. In every state the application reaches from a fresh database,
    every stored expense has an amount [> 0] and a description and a
    category that are not NULL: the checks of the form and of the import
    loop, with the NOT NULL column of the table, let nothing else in. *)
Theorem reachable_rows_well_formed :
  forall (R : Runtime) (st : session * Db) (r : expense_row),
    reachable st -> In r (expenses (snd st)) ->
    PyFloat.gt0 (e_amount r) = true
    /\ (exists s, e_description r = Some s)
    /\ (exists c, e_category r = Some c).
Proof.
  intros R st r Hst Hin. destruct (reachable_ok st Hst) as [Hdb _].
  pose proof (rows_well_formed _ Hdb) as Hall. rewrite Forall_forall in Hall.
  destruct (Hall r Hin) as [Ha [Hs [Hc _]]]. tauto.
Qed.

(** X7. In every reachable state every expense belongs to exactly one
    registered user: its [user_id] is the id of a row of [users], and of no
    other row. *)
Theorem reachable_expenses_owned :
  forall (R : Runtime) (st : session * Db) (r : expense_row),
    reachable st -> In r (expenses (snd st)) ->
    exists u,
      In u (users (snd st)) /\ e_user_id r = Some (u_id u)
      /\ forall u', In u' (users (snd st)) -> e_user_id r = Some (u_id u') -> u' = u.
Proof.
  intros R st r Hst Hin. destruct (reachable_ok st Hst) as [Hdb _].
  pose proof (rows_well_formed _ Hdb) as Hall. rewrite Forall_forall in Hall.
  destruct (Hall r Hin) as [_ [_ [_ [u [Hu Ho]]]]].
  exists u. repeat split; try assumption.
  intros u' Hu' Ho'. apply (same_user_id_same_row (users (snd st))); try assumption.
  - apply (user_ids_distinct _ Hdb).
  - congruence.
Qed.

(** X8. In every reachable state a session that is logged in carries the
    name and the id of one registered user, the id [get_user_id] gives for
    that name; a session that is not logged in carries no name and no id. *)
Theorem reachable_session_known :
  forall (R : Runtime) (st : session * Db),
    reachable st ->
    (logged_in (fst st) = true ->
       exists u, In u (users (snd st))
                 /\ username (fst st) = Some (u_username u)
                 /\ user_id (fst st) = Some (u_id u)
                 /\ get_user_id (u_username u) (snd st) = Some (u_id u))
    /\ (logged_in (fst st) = false ->
          username (fst st) = None /\ user_id (fst st) = None).
Proof.
  intros R st Hst. destruct (reachable_ok st Hst) as [Hdb Hss].
  unfold session_ok in Hss. split; intros Hlog; rewrite Hlog in Hss.
  - destruct Hss as [u [Hu [Hn Hi]]]. exists u. repeat split; try assumption.
    unfold get_user_id. rewrite select_user_unique; [reflexivity | | exact Hu].
    apply (usernames_distinct _ Hdb).
  - exact Hss.
Qed.

(** X9. In every reachable state the user names are distinct, the user
    ids are distinct, the expense ids are distinct, and no expense id is
    above the counter of the table. *)
Theorem reachable_keys_distinct :
  forall (R : Runtime) (st : session * Db),
    reachable st ->
    NoDup (map u_username (users (snd st)))
    /\ NoDup (map u_id (users (snd st)))
    /\ NoDup (map e_id (expenses (snd st)))
    /\ Forall (fun r => e_id r <= expenses_seq (snd st)) (expenses (snd st)).
Proof.
  intros R st Hst. destruct (reachable_ok st Hst) as [[H1 H2 H3 H4 H5 H6] _]. tauto.
Qed.

(** X10. In every reachable state every registered user has a name that
    is not empty and can log in: some password that is not empty
    authenticates the name, and [get_user_id] gives the id of the row. *)
Theorem reachable_users_can_login :
  forall (R : Runtime) (st : session * Db) (u : user_row),
    reachable st -> In u (users (snd st)) ->
    u_username u <> ""
    /\ get_user_id (u_username u) (snd st) = Some (u_id u)
    /\ exists password,
         password <> "" /\ authenticate_user (u_username u) password (snd st) = true.
Proof.
  intros R st u Hst Hin. destruct (reachable_ok st Hst) as [Hdb _].
  pose proof (users_well_formed _ Hdb) as Hall. rewrite Forall_forall in Hall.
  destruct (Hall u Hin) as [Hname [password [Hpw Hhash]]].
  pose proof (select_user_unique (snd st) u (usernames_distinct _ Hdb) Hin) as Hsel.
  split; [exact Hname |]. split.
  - unfold get_user_id. rewrite Hsel. reflexivity.
  - exists password. split; [exact Hpw |].
    unfold authenticate_user, verify_password. rewrite Hsel, Hhash. apply String.eqb_refl.
Qed.

Lemma register_user_expenses (name password : string) (db db' : Db) (ok : bool) :
  register_user name password db = Ok (db', ok) ->
  expenses db' = expenses db /\ expenses_seq db' = expenses_seq db.
Proof.
  unfold register_user, insert_user.
  destruct (select_user name db); intros H; injection H as <- <-; split; reflexivity.
Qed.

Lemma app_step_logged_out :
  forall (R : Runtime) (a : action) (st st' : session * Db) (shown : list notice),
    logged_in (fst st) = false ->
    app_step a st = Ok (st', shown) ->
    expenses (snd st') = expenses (snd st)
    /\ expenses_seq (snd st') = expenses_seq (snd st).
Proof.
  intros R a [ss db] st' shown Hlog. cbn [fst snd] in *.
  unfold app_step. cbn [fst snd]. rewrite Hlog. cbn [negb].
  destruct a; intros H; try (injection H as <- _; split; reflexivity).
  unfold register_form, bind in H.
  destruct (is_empty username_in || is_empty password_in);
    [injection H as <- _; split; reflexivity |].
  destruct (negb (String.eqb password_in confirm_in));
    [injection H as <- _; split; reflexivity |].
  destruct (register_user username_in password_in db) as [[db' ok] |] eqn:Hreg;
    [| discriminate].
  apply register_user_expenses in Hreg. cbn [fst snd] in H.
  assert (E : st' = (ss, db')) by (destruct ok; injection H as <- _; reflexivity).
  subst st'. exact Hreg.
Qed.

(** X11. Without a login nothing is written to the expenses: whatever
    is done in a session that is not logged in, the table of expenses and
    its counter stay as they were. *)
Theorem logged_out_cannot_write :
  forall (R : Runtime) (a : action) (st st' : session * Db) (shown : list notice),
    logged_in (fst st) = false ->
    app_step a st = Ok (st', shown) ->
    expenses (snd st') = expenses (snd st)
    /\ expenses_seq (snd st') = expenses_seq (snd st).
Proof.
  intros R a st st' shown Hlog Hstep. eapply app_step_logged_out; eassumption.
Qed.

Lemma filter_others_app (u : Z) (old new : list expense_row) :
  Forall (fun r => e_user_id r = Some u) new ->
  List.filter (fun r => negb (sql_eq (e_user_id r) (Some u))) (old ++ new)
  = List.filter (fun r => negb (sql_eq (e_user_id r) (Some u))) old.
Proof.
  intros H. rewrite filter_app, (filter_none _ new), app_nil_r; [reflexivity |].
  intros r Hr. rewrite Forall_forall in H. rewrite (H r Hr). cbn. rewrite Z.eqb_refl.
  reflexivity.
Qed.

Lemma filter_others_filter (u : Z) (q : expense_row -> bool) (l : list expense_row) :
  List.filter (fun r => negb (sql_eq (e_user_id r) (Some u)))
              (List.filter (fun r => negb (sql_eq (e_user_id r) (Some u) && q r)) l)
  = List.filter (fun r => negb (sql_eq (e_user_id r) (Some u))) l.
Proof.
  induction l as [| r l IH]; cbn [List.filter].
  - reflexivity.
  - destruct (sql_eq (e_user_id r) (Some u)) eqn:E; cbn [andb negb].
    + destruct (q r); cbn [negb List.filter]; rewrite ?E; cbn [negb]; exact IH.
    + cbn [List.filter]. rewrite E. cbn [negb]. f_equal. exact IH.
Qed.

(** X12. Whatever a user does, the rows of the others stay: after any
    run of the script in a session of user [u], the rows that [u] does not
    own are the same rows, in the same order, as before. *)
Theorem others_rows_untouched :
  forall (R : Runtime) (a : action) (st st' : session * Db) (shown : list notice) (u : Z),
    user_id (fst st) = Some u ->
    app_step a st = Ok (st', shown) ->
    rows_of_others (Some u) (snd st') = rows_of_others (Some u) (snd st).
Proof.
  intros R a [ss db] st' shown u Hu Hstep. cbn [fst snd] in *.
  destruct (logged_in ss) eqn:Hlog.
  - unfold app_step in Hstep. cbn [fst snd] in Hstep. rewrite Hlog in Hstep.
    cbn [negb] in Hstep. unfold rows_of_others.
    destruct a; try (injection Hstep as <- _; reflexivity).
    + unfold add_expense_page, bind in Hstep.
      destruct (PyFloat.le0 amount_input); [injection Hstep as <- _; reflexivity |].
      match type of Hstep with
      | context [add_expense ?dt ?am ?de ?ca ?ui ?d0] =>
          destruct (add_expense dt am de ca ui d0) as [db' |] eqn:Hadd
      end; [| discriminate].
      injection Hstep as <- _. cbn [snd fst].
      unfold add_expense in Hadd. destruct (is_nan amount_input); [discriminate |].
      injection Hadd as <-. cbn [expenses]. apply filter_others_app.
      constructor; [exact Hu | constructor].
    + injection Hstep as <- _. cbn [snd fst]. unfold bulk_import_page.
      destruct (has_required (columns csv_df)); cbn [fst]; [| reflexivity].
      unfold import_rows.
      destruct (import_fold_appends (has_column "category" (map Text.lower (columns csv_df)))
                  (user_id ss) (rows csv_df) (db, 0)) as [new [He [_ [_ [Hall _]]]]].
      cbn [fst] in He. rewrite He. apply filter_others_app.
      eapply Forall_impl; [| exact Hall]. intros r [Hr _]. congruence.
    + injection Hstep as <- _. cbn [snd fst]. unfold clear_all_page.
      destruct confirm; cbn [fst]; [| reflexivity].
      unfold delete_all. cbn [expenses]. rewrite Hu.
      rewrite <- (filter_others_filter u (fun _ => true) (expenses db)) at 2.
      f_equal. apply filter_ext. intros r. rewrite andb_true_r. reflexivity.
    + injection Hstep as <- _. cbn [snd fst]. unfold delete_range_page.
      destruct (Dates.gtb start_del end_del); cbn [fst]; [reflexivity |].
      unfold delete_between. cbn [expenses]. rewrite Hu. apply filter_others_filter.
  - destruct (app_step_logged_out R a (ss, db) st' shown Hlog Hstep) as [He _].
    unfold rows_of_others. cbn [snd] in *. rewrite He. reflexivity.
Qed.

(* ===================================================================== *)
(** * Queries after writes                                                *)
(* ===================================================================== *)

(** X13. Whatever the runtime and whatever the arguments, a frame that
    [fetch_expenses] returns is ordered by time stamp, most recent first,
    and holds at most one row for each selected row of the table. *)
Theorem fetch_expenses_sorted :
  forall (R : Runtime) (start_date end_date : option string) (uid : option Z) (db : Db)
         (frame : list expense_view),
    fetch_expenses start_date end_date uid db = Ok frame ->
    StronglySorted ts_desc frame
    /\ (List.length frame
        <= List.length (List.filter (where_clause start_date end_date uid) (expenses db)))%nat.
Proof.
  intros R start_date end_date uid db frame. unfold fetch_expenses.
  destruct (List.filter (where_clause start_date end_date uid) (expenses db)) as [| r0 df].
  - intros H. injection H as <-. split; [constructor | cbn; lia].
  - remember (r0 :: df) as sel eqn:Hsel.
    destruct (to_datetime (map e_dt sel)) as [dts |]; [| discriminate].
    intros H. injection H as <-. split.
    + apply sort_values_desc_sorted.
    + rewrite <- (Permutation_length (sort_values_desc_perm _)).
      rewrite length_map, length_combine. lia.
Qed.

Lemma gt0_not_le0 (a : float) : PyFloat.gt0 a = true -> PyFloat.le0 a = false.
Proof.
  intros H. destruct (PyFloat.le0 a) eqn:E; [| reflexivity].
  apply le0_not_gt0 in E. congruence.
Qed.

Lemma filter_filter_implied {A : Type} (p q : A -> bool) (l : list A) :
  (forall x, p x = true -> q x = true) ->
  List.filter p (List.filter q l) = List.filter p l.
Proof.
  intros H. induction l as [| a l IH]; cbn [List.filter].
  - reflexivity.
  - destruct (q a) eqn:Eq; cbn [List.filter].
    + rewrite IH. reflexivity.
    + destruct (p a) eqn:Ep; [rewrite (H a Ep) in Eq; discriminate | exact IH].
Qed.

(** X14. On a table in which the rows of the user are dated with the ISO
    text of a canonical date, an expense added through the form is in the
    next query of its owner: for a canonical date and an amount [> 0], the
    page stores the row and shows the success message, the rows of the user
    are still dated so, and the frame of the user after it holds the rows
    it held before and the new row, with the description stripped as
    [str.strip] strips it and the date at midnight. *)
Theorem add_then_query :
  forall (R : Runtime) (db : Db) (ss : session) (u : Z) (d : Date) (amount : float)
         (description category : string),
    RuntimeLaws R ->
    stored_canonical u db ->
    user_id ss = Some u ->
    Dates.canonical d = true ->
    PyFloat.gt0 amount = true ->
    exists db' before after,
      add_expense_page d amount description category true ss db = Ok (db', expense_added)
      /\ stored_canonical u db'
      /\ fetch_expenses None None (Some u) db = Ok before
      /\ fetch_expenses None None (Some u) db' = Ok after
      /\ Permutation after
           (mkView (next_id (expenses_seq db) (map e_id (expenses db)))
                   (Dates.midnight d) amount (Some (Text.strip description)) (Some category)
            :: before).
Proof.
  intros R db ss u d amount description category Hlaws Hrows Hu Hd Hgt.
  set (new := mkExpense (next_id (expenses_seq db) (map e_id (expenses db)))
                        (Dates.isoformat d) amount (Some (Text.strip description))
                        (Some category) (Some u)).
  set (db' := mkDb (users db) (users_seq db) (expenses db ++ [new]) (e_id new)).
  assert (Hrows' : stored_canonical u db').
  { intros r Hin Hr. cbn [db' expenses] in Hin. apply in_app_or in Hin.
    destruct Hin as [Hin | [<- | []]]; [apply Hrows; assumption |].
    exists d. split; [exact Hd | reflexivity]. }
  exists db'. eexists. eexists. split; [| split; [exact Hrows' | split; [| split]]].
  - unfold add_expense_page, bind. rewrite (gt0_not_le0 _ Hgt), Hu.
    rewrite (strftime_ymd_canonical d Hd).
    rewrite add_expense_inserts by (apply gt0_not_nan; exact Hgt). reflexivity.
  - apply (fetch_expenses_canonical Hlaws db u Hrows).
  - apply (fetch_expenses_canonical Hlaws db' u Hrows').
  - cbn [db' expenses]. rewrite filter_app. cbn [List.filter].
    assert (Hw : where_clause None None (Some u) new = true).
    { unfold where_clause. cbn. rewrite Z.eqb_refl. reflexivity. }
    rewrite Hw, map_app. cbn [map].
    assert (Hv : stored_view new
                 = mkView (e_id new) (Dates.midnight d) amount
                          (Some (Text.strip description)) (Some category)).
    { unfold stored_view, stored_date, view_of. cbn [new e_dt fst snd e_id e_amount
        e_description e_category].
      rewrite parse_iso_isoformat by (apply canonical_valid; exact Hd). reflexivity. }
    rewrite Hv.
    eapply perm_trans; [apply Permutation_sym, sort_values_desc_perm |].
    eapply perm_trans; [apply Permutation_sym, Permutation_cons_append |].
    apply perm_skip. apply sort_values_desc_perm.
Qed.

(** X15. After "Clear ALL Expenses", confirmed, every query of the user,
    with or without a range, returns the empty frame, and every query of
    another user returns what it returned before. *)
Theorem clear_then_query :
  forall (R : Runtime) (db : Db) (ss : session) (u : Z)
         (start_date end_date : option string),
    user_id ss = Some u ->
    fetch_expenses start_date end_date (Some u) (fst (clear_all_page true true ss db)) = Ok []
    /\ forall v, v <> u ->
         fetch_expenses start_date end_date (Some v) (fst (clear_all_page true true ss db))
         = fetch_expenses start_date end_date (Some v) db.
Proof.
  intros R db ss u start_date end_date Hu.
  unfold clear_all_page, delete_all. rewrite Hu. cbn [fst]. split.
  - unfold fetch_expenses. cbn [expenses]. rewrite filter_none; [reflexivity |].
    intros r Hr. apply filter_In in Hr. destruct Hr as [_ Hr].
    unfold where_clause. destruct (sql_eq (e_user_id r) (Some u)); [discriminate | reflexivity].
  - intros v Hv. unfold fetch_expenses. cbn [expenses].
    rewrite filter_filter_implied; [reflexivity |].
    intros r Hr. apply where_clause_owner in Hr. rewrite Hr. cbn.
    destruct (v =? u) eqn:E; [apply Z.eqb_eq in E; contradiction | reflexivity].
Qed.

(** X16. A bulk import only appends: the table after it is the table
    before it followed by the new rows, there are no more new rows than
    rows in the batch, each new row is owned by the user of the session and
    has an amount [> 0], the users are as before, and the count the page
    reports is the number of rows it stored. *)
Theorem bulk_import_appends :
  forall (R : Runtime) (csv_df : csv_frame) (ss : session) (db : Db),
    exists new,
      expenses (fst (bulk_import_page csv_df ss db)) = expenses db ++ new
      /\ users (fst (bulk_import_page csv_df ss db)) = users db
      /\ (List.length new <= List.length (rows csv_df))%nat
      /\ Forall (fun r => e_user_id r = user_id ss /\ PyFloat.gt0 (e_amount r) = true) new
      /\ (has_required (columns csv_df) = true ->
          snd (bulk_import_page csv_df ss db)
          = [st_success ("Imported " ++ Text.str_of_Z (Z.of_nat (List.length new))
                         ++ " records successfully.")%string]).
Proof.
  intros R csv_df ss db. unfold bulk_import_page.
  destruct (has_required (columns csv_df)).
  - unfold import_rows.
    destruct (import_fold_appends (has_column "category" (map Text.lower (columns csv_df)))
                (user_id ss) (rows csv_df) (db, 0)) as [new [He [Hn [Hl [Hall Hus]]]]].
    exists new. cbn [fst snd] in *. rewrite Hn. repeat split; try assumption.
  - exists []. cbn [fst snd]. rewrite app_nil_r. repeat split.
    + cbn. lia.
    + constructor.
    + discriminate.
Qed.

Lemma select_user_app_other (name other pw : string) (id : Z) (db : Db) :
  other <> name ->
  find (fun u => String.eqb (u_username u) name) (users db ++ [mkUser id other pw])
  = select_user name db.
Proof.
  intros Hne. rewrite select_user_app_new. unfold select_user.
  destruct (find _ (users db)); [reflexivity |].
  destruct (String.eqb other name) eqn:E; [| reflexivity].
  apply String.eqb_eq in E. contradiction.
Qed.

Lemma register_user_adds_one_facts :
  forall (name password : string) (db db' : Db),
    register_user name password db = Ok (db', true) ->
    get_user_id name db = None
    /\ authenticate_user name password db' = true
    /\ (exists id, get_user_id name db' = Some id /\ ~ In id (map u_id (users db)))
    /\ (forall other p,
          other <> name ->
          authenticate_user other p db' = authenticate_user other p db
          /\ get_user_id other db' = get_user_id other db)
    /\ expenses db' = expenses db.
Proof.
  intros name password db db'. unfold register_user, insert_user.
  destruct (select_user name db) as [u |] eqn:Hsel; [discriminate |].
  intros H. injection H as <-.
  split; [unfold get_user_id; rewrite Hsel; reflexivity |].
  split; [| split; [| split]].
  - unfold authenticate_user, select_user, verify_password. cbn [users].
    rewrite select_user_app_new. fold (select_user name db).
    rewrite Hsel, String.eqb_refl. cbn. apply String.eqb_refl.
  - eexists. split.
    + unfold get_user_id, select_user. cbn [users]. rewrite select_user_app_new.
      fold (select_user name db). rewrite Hsel, String.eqb_refl. reflexivity.
    + cbn. intros Hin. apply (next_id_above (users_seq db)) in Hin. lia.
  - intros other p Hne.
    unfold authenticate_user, get_user_id. unfold select_user at 1 3. cbn [users].
    rewrite select_user_app_other by congruence. split; reflexivity.
  - reflexivity.
Qed.

(** X17. A registration that succeeds adds one user and touches nothing
    else: the name was free, the new user authenticates with the password
    and has an id that no user had, every other name authenticates and
    resolves as before, and the expenses are as they were. *)
Theorem register_user_adds_one :
  forall (name password : string) (db db' : Db),
    register_user name password db = Ok (db', true) ->
    get_user_id name db = None
    /\ authenticate_user name password db' = true
    /\ (exists id, get_user_id name db' = Some id /\ ~ In id (map u_id (users db)))
    /\ (forall other p,
          other <> name ->
          authenticate_user other p db' = authenticate_user other p db
          /\ get_user_id other db' = get_user_id other db)
    /\ expenses db' = expenses db.
Proof.
  intros name password db db' H. apply register_user_adds_one_facts. exact H.
Qed.

(* ===================================================================== *)
(** * More on the categorizer                                             *)
(* ===================================================================== *)

Lemma index_of_In (x : string) (l : list string) :
  In x l -> exists i, index_of x l = Some i /\ nth_error l i = Some x.
Proof.
  induction l as [| y l IH]; cbn; intros H.
  - destruct H.
  - destruct (String.eqb y x) eqn:E.
    + apply String.eqb_eq in E. subst. exists O. split; reflexivity.
    + destruct H as [-> | H]; [rewrite String.eqb_refl in E; discriminate |].
      destruct (IH H) as [i [Hi Hn]]. exists (S i). rewrite Hi. split; [reflexivity | exact Hn].
Qed.

Lemma table_categories_default :
  forall kw cat, In (kw, cat) KEYWORD_CATEGORY_MAP ->
    In cat DEFAULT_CATEGORIES /\ cat <> "Misc".
Proof.
  assert (H : forallb (fun p => existsb (String.eqb (snd p)) DEFAULT_CATEGORIES
                                && negb (String.eqb (snd p) "Misc"))
                      KEYWORD_CATEGORY_MAP = true) by reflexivity.
  rewrite forallb_forall in H. intros kw cat Hin.
  specialize (H _ Hin). cbn [snd] in H. apply andb_true_iff in H. destruct H as [H1 H2].
  split.
  - apply existsb_exists in H1. destruct H1 as [c [Hc E]].
    apply String.eqb_eq in E. subst. exact Hc.
  - intros ->. discriminate.
Qed.

Lemma scan_result_cases (table : list (string * string)) (desc out : string) :
  scan_result table desc out ->
  (exists kw, In (kw, out) table /\ Text.substring_of kw desc)
  \/ ((forall kw cat, In (kw, cat) table -> ~ Text.substring_of kw desc) /\ out = "Misc").
Proof.
  intros [pre post kw Htab Hocc _ | Hnone Hout].
  - left. exists kw. split; [| exact Hocc].
    rewrite Htab. apply in_or_app. right. left. reflexivity.
  - right. tauto.
Qed.

Lemma auto_categorize_default {R : Runtime} (description : option string) :
  In (auto_categorize description) DEFAULT_CATEGORIES.
Proof.
  unfold auto_categorize.
  destruct (scan_result_cases _ _ _
              (scan_keywords_result KEYWORD_CATEGORY_MAP (Text.lower (or_empty description))))
    as [[kw [Hin _]] | [_ Hout]].
  - apply (table_categories_default kw). exact Hin.
  - rewrite Hout. cbn. tauto.
Qed.

(** X18. The category [auto_categorize] suggests is always one of the
    default categories, so the select box of "Add Expense" opens on the
    suggestion itself: the index the page computes is the position of the
    suggested category, never the fallback. *)
Theorem suggested_category_default :
  forall (R : Runtime) (description_input : string),
    In (auto_categorize (Some description_input)) DEFAULT_CATEGORIES
    /\ index_of (auto_categorize (Some description_input)) DEFAULT_CATEGORIES
       = Some (suggested_index description_input)
    /\ nth_error DEFAULT_CATEGORIES (suggested_index description_input)
       = Some (auto_categorize (Some description_input)).
Proof.
  intros R description_input.
  pose proof (auto_categorize_default (Some description_input)) as Hin.
  destruct (index_of_In _ _ Hin) as [i [Hi Hn]].
  unfold suggested_index. rewrite Hi. tauto.
Qed.

Lemma lower_ascii_idempotent (c : ascii) :
  Text.lower_ascii (Text.lower_ascii c) = Text.lower_ascii c.
Proof.
  destruct c as [[] [] [] [] [] [] [] []]; reflexivity.
Qed.

Lemma lower_ascii_is_ascii (c : ascii) :
  Text.is_ascii_char (Text.lower_ascii c) = Text.is_ascii_char c.
Proof.
  destruct c as [[] [] [] [] [] [] [] []]; reflexivity.
Qed.

Lemma ascii_lower_idempotent (s : string) :
  Text.ascii_lower (Text.ascii_lower s) = Text.ascii_lower s.
Proof.
  induction s as [| c s IH]; cbn; [reflexivity |].
  rewrite lower_ascii_idempotent, IH. reflexivity.
Qed.

Lemma ascii_lower_is_ascii (s : string) :
  Text.is_ascii (Text.ascii_lower s) = Text.is_ascii s.
Proof.
  induction s as [| c s IH]; cbn; [reflexivity |].
  rewrite lower_ascii_is_ascii, IH. reflexivity.
Qed.

(** On an ASCII text, lowercasing twice is lowercasing once. *)
Lemma lower_idempotent {R : Runtime} (s : string) :
  Text.is_ascii s = true -> Text.lower (Text.lower s) = Text.lower s.
Proof.
  intros H. unfold Text.lower. rewrite H, ascii_lower_is_ascii, H.
  apply ascii_lower_idempotent.
Qed.

(** X19. On every runtime and for every description, the categorizer
    answers "Misc" exactly when no keyword of the table occurs in the
    lowercased text; and it does not see the case of the letters of an
    ASCII text: two ASCII texts that differ in the case of letters only get
    the same category, and so do a text and its lowercased form. *)
Theorem auto_categorize_case_and_default :
  forall (R : Runtime) (description : string),
    (auto_categorize (Some description) = "Misc" <->
     forall kw cat, In (kw, cat) KEYWORD_CATEGORY_MAP ->
                    ~ Text.substring_of kw (Text.lower description))
    /\ (forall other : string,
          Text.is_ascii description = true -> Text.is_ascii other = true ->
          Text.ascii_lower other = Text.ascii_lower description ->
          auto_categorize (Some other) = auto_categorize (Some description))
    /\ (Text.is_ascii description = true ->
        auto_categorize (Some (Text.lower description)) = auto_categorize (Some description)).
Proof.
  intros R description. split; [| split].
  - unfold auto_categorize. cbn [or_empty].
    destruct (scan_result_cases _ _ _
                (scan_keywords_result KEYWORD_CATEGORY_MAP (Text.lower description)))
      as [[kw [Hin Hocc]] | [Hnone Hout]].
    + split.
      * intros Hmisc. exfalso.
        apply (table_categories_default kw _ Hin). exact Hmisc.
      * intros Hnone. exfalso. exact (Hnone kw _ Hin Hocc).
    + split; [intros _; exact Hnone | intros _; exact Hout].
  - intros other Hd Ho Hsame. unfold auto_categorize, Text.lower. cbn [or_empty].
    rewrite Hd, Ho, Hsame. reflexivity.
  - intros Hascii. unfold auto_categorize. cbn [or_empty].
    rewrite lower_idempotent by exact Hascii. reflexivity.
Qed.

(* ===================================================================== *)
(** * Ids and text                                                        *)
(* ===================================================================== *)

(** X20. An id is never given twice, not even after a delete: on a table
    whose ids are not above its counter, the row added after "Clear ALL
    Expenses" gets an id above every id the table held before the delete. *)
Theorem expense_ids_not_reused :
  forall (dt : string) (amount : float) (description category : string)
         (owner uid : option Z) (db db' : Db),
    Forall (fun r => e_id r <= expenses_seq db) (expenses db) ->
    add_expense dt amount description category uid (delete_all owner db) = Ok db' ->
    exists new,
      expenses db' = expenses (delete_all owner db) ++ [new]
      /\ expenses_seq db' = e_id new
      /\ forall r, In r (expenses db) -> e_id r < e_id new.
Proof.
  intros dt amount description category owner uid db db' Hb. unfold add_expense.
  destruct (is_nan amount); [discriminate |].
  intros H. injection H as <-. eexists (mkExpense _ _ _ _ _ _).
  split; [reflexivity |]. split; [reflexivity |].
  intros r Hr. rewrite Forall_forall in Hb. specialize (Hb r Hr). cbn [e_id].
  pose proof (next_id_above_seq (expenses_seq (delete_all owner db))
                (map e_id (expenses (delete_all owner db)))) as Hs.
  cbn [delete_all expenses_seq] in Hs. cbn in *. lia.
Qed.

(** What [drop_prefix] and [drop_suffix] return is the rest of the text. *)
Lemma drop_prefix_rest (p : string) :
  forall s r, Text.drop_prefix p s = Some r -> s = (p ++ r)%string.
Proof.
  induction p as [| a p IH]; intros s r; cbn [Text.drop_prefix].
  - intros H. injection H as <-. reflexivity.
  - destruct s as [| b s]; [discriminate |].
    destruct (Ascii.eqb a b) eqn:E; [| discriminate].
    apply Ascii.eqb_eq in E. subst b. intros H. cbn. f_equal. apply IH. exact H.
Qed.

Lemma drop_suffix_rest (p : string) :
  forall s t, Text.drop_suffix p s = Some t -> s = (t ++ p)%string.
Proof.
  intros s. induction s as [| c s IH]; intros t; cbn [Text.drop_suffix].
  - destruct (String.eqb p "") eqn:E; [| discriminate].
    apply String.eqb_eq in E. subst p. intros H. injection H as <-. reflexivity.
  - destruct (String.eqb p (String c s)) eqn:E.
    + apply String.eqb_eq in E. intros H. injection H as <-. cbn. symmetry. exact E.
    + destruct (Text.drop_suffix p s) as [t' |]; [| discriminate].
      intros H. injection H as <-. cbn. f_equal. apply IH. reflexivity.
Qed.

Lemma drop_prefix_more (p : string) :
  forall s r x, Text.drop_prefix p s = Some r ->
                Text.drop_prefix p (s ++ x) = Some (r ++ x)%string.
Proof.
  induction p as [| a p IH]; intros s r x; cbn [Text.drop_prefix].
  - intros H. injection H as <-. reflexivity.
  - destruct s as [| b s]; [discriminate |]. cbn [String.append].
    destruct (Ascii.eqb a b); [apply IH | discriminate].
Qed.

Lemma first_some_found {A : Type} (l : list (option A)) (a : A) :
  Text.first_some l = Some a -> In (Some a) l.
Proof.
  induction l as [| [b |] l IH]; cbn; intros H.
  - discriminate.
  - left. exact H.
  - right. apply IH. exact H.
Qed.

Lemma first_some_none {A : Type} (l : list (option A)) (a : A) :
  Text.first_some l = None -> ~ In (Some a) l.
Proof.
  induction l as [| [b |] l IH]; cbn; intros H.
  - tauto.
  - discriminate.
  - intros [E | Hin]; [discriminate | exact (IH H Hin)].
Qed.

(** The encoding of a character has one byte at least. *)
Lemma utf8_length (cp : Z) : (1 <= String.length (Text.utf8 cp))%nat.
Proof.
  unfold Text.utf8.
  destruct (cp <? 0x80); [cbn; lia |].
  destruct (cp <? 0x800); [cbn; lia |].
  destruct (cp <? 0x10000); cbn; lia.
Qed.

(** One round takes at least one byte away. *)
Lemma drop_space_shorter (s r : string) :
  Text.drop_space s = Some r -> (String.length r < String.length s)%nat.
Proof.
  unfold Text.drop_space. intros H. apply first_some_found in H.
  apply in_map_iff in H. destruct H as [cp [H _]].
  apply drop_prefix_rest in H. subst s. rewrite append_length.
  pose proof (utf8_length cp). lia.
Qed.

Lemma drop_space_end_shorter (s r : string) :
  Text.drop_space_end s = Some r -> (String.length r < String.length s)%nat.
Proof.
  unfold Text.drop_space_end. intros H. apply first_some_found in H.
  apply in_map_iff in H. destruct H as [cp [H _]].
  apply drop_suffix_rest in H. subst s. rewrite append_length.
  pose proof (utf8_length cp). lia.
Qed.

(** After as many rounds as the text has bytes nothing is left to drop. *)
Lemma drop_while_done (drop : string -> option string) :
  (forall s r, drop s = Some r -> (String.length r < String.length s)%nat) ->
  forall rounds s, (String.length s <= rounds)%nat ->
                   drop (Text.drop_while drop rounds s) = None.
Proof.
  intros Hshort. induction rounds as [| rounds IH]; intros s Hlen; cbn [Text.drop_while].
  - destruct (drop s) as [r |] eqn:E; [| reflexivity].
    apply Hshort in E. lia.
  - destruct (drop s) as [r |] eqn:E; [| exact E].
    apply IH. apply Hshort in E. lia.
Qed.

(** [rstrip] keeps a text from its start. *)
Lemma rstrip_start (rounds : nat) :
  forall s, exists x : string, s = (Text.drop_while Text.drop_space_end rounds s ++ x)%string.
Proof.
  induction rounds as [| rounds IH]; intros s; cbn [Text.drop_while].
  - exists "". symmetry. apply append_empty.
  - destruct (Text.drop_space_end s) as [r |] eqn:E.
    + unfold Text.drop_space_end in E. apply first_some_found in E.
      apply in_map_iff in E. destruct E as [cp [E _]]. apply drop_suffix_rest in E.
      destruct (IH r) as [x Hx]. exists (x ++ Text.utf8 cp)%string.
      rewrite E at 1. rewrite Hx at 1.
      clear. induction (Text.drop_while Text.drop_space_end rounds r) as [| c t IHt]; cbn;
        [reflexivity | f_equal; exact IHt].
    + exists "". symmetry. apply append_empty.
Qed.

(** A text that starts with white space still does when it goes on. *)
Lemma drop_space_more (s x : string) :
  Text.drop_space (s ++ x) = None -> Text.drop_space s = None.
Proof.
  unfold Text.drop_space. intros H.
  destruct (Text.first_some (map (fun cp => Text.drop_prefix (Text.utf8 cp) s) Text.whitespace))
    as [r |] eqn:E; [| reflexivity].
  exfalso. apply first_some_found in E. apply in_map_iff in E. destruct E as [cp [E Hcp]].
  apply (first_some_none _ (r ++ x)%string H).
  apply in_map_iff. exists cp. split; [| exact Hcp].
  apply drop_prefix_more. exact E.
Qed.

(** [strip] leaves no white space character at either end. *)
Lemma strip_trimmed (s : string) : trimmed (Text.strip s).
Proof.
  unfold trimmed, Text.strip. split.
  - destruct (rstrip_start (String.length (Text.lstrip s)) (Text.lstrip s)) as [x Hx].
    apply (drop_space_more _ x). unfold Text.rstrip. rewrite <- Hx.
    unfold Text.lstrip. apply drop_while_done; [exact drop_space_shorter | lia].
  - unfold Text.rstrip. apply drop_while_done; [exact drop_space_end_shorter | lia].
Qed.

(** X21. What a submitted "Add Expense" form does, in full: either the
    amount is [<= 0] and the database stays, or the amount is [> 0] and
    exactly one row is appended, under a new id, owned by the user of the
    session, with the date of the date widget as [strftime] writes it, the
    value the select box returned in that run, and the description stripped
    as [str.strip] strips it: no white space character, ASCII or not, is
    left at either end. The page stores nothing else and it raises only for
    an amount that is a NaN. *)
Theorem add_expense_page_stores :
  forall (R : Runtime) (d : Date) (amount : float) (description category : string)
         (ss : session) (db db' : Db) (shown : list notice),
    add_expense_page d amount description category true ss db = Ok (db', shown) ->
    (PyFloat.le0 amount = true /\ db' = db)
    \/ (PyFloat.gt0 amount = true
        /\ shown = expense_added
        /\ trimmed (Text.strip description)
        /\ exists id,
             ~ In id (map e_id (expenses db))
             /\ expenses db'
                = expenses db ++
                  [mkExpense id (Dates.strftime_ymd d) amount
                             (Some (Text.strip description)) (Some category) (user_id ss)]
             /\ users db' = users db).
Proof.
  intros R d amount description category ss db db' shown. unfold add_expense_page, bind.
  destruct (PyFloat.le0 amount) eqn:Hle.
  - intros H. injection H as <- _. left. split; reflexivity.
  - unfold add_expense. destruct (is_nan amount) eqn:Hnan; [discriminate |].
    intros H. injection H as <- <-. right.
    split; [apply not_le0_gt0; assumption |]. split; [reflexivity |].
    split; [apply strip_trimmed |].
    eexists. split; [| split; reflexivity].
    intros Hin. apply (next_id_above (expenses_seq db)) in Hin. lia.
Qed.

Lemma add_expense_page_stores_witness :
  (PyFloat.le0 8%float = true /\ january_after_add = january_db)
  \/ (PyFloat.gt0 8%float = true
      /\ expense_added = expense_added
      /\ trimmed (Text.strip nbsp_bus)
      /\ exists id,
           ~ In id (map e_id (expenses january_db))
           /\ expenses january_after_add
              = expenses january_db ++
                [mkExpense id (Dates.strftime_ymd (R := Canonical.runtime) (mkDate 2024 2 1))
                           8%float (Some (Text.strip nbsp_bus)) (Some "Transport")
                           (user_id refund_session)]
           /\ users january_after_add = users january_db).
Proof.
  apply (add_expense_page_stores Canonical.runtime (mkDate 2024 2 1) 8%float nbsp_bus
           "Transport" refund_session january_db january_after_add expense_added).
  vm_compute. reflexivity.
Defined.

(* ===================================================================== *)
(** * Forms in sequence                                                   *)
(* ===================================================================== *)

(** X22. Registering and then logging in works end to end: for a free
    name and a password that are not empty, the register form, with the
    password confirmed, stores the user and shows the success message, and
    the login form with the same name and password then opens a session
    that carries the name and the new id. *)
Theorem register_then_login :
  forall (name password : string) (ss : session) (db : Db),
    name <> "" -> password <> "" ->
    get_user_id name db = None ->
    exists db' id,
      register_form name password password true db
      = Ok (db', [st_success "Registration successful! Please login."])
      /\ ~ In id (map u_id (users db))
      /\ login_form name password true ss db'
         = (mkSession true (Some name) (Some id), [st_success "Logged in successfully!"]).
Proof.
  intros name password ss db Hname Hpw Hfree.
  assert (Hsel : select_user name db = None).
  { unfold get_user_id in Hfree. destruct (select_user name db); [discriminate | reflexivity]. }
  destruct (register_user_returns name password db) as [db' [ok Hreg]].
  assert (ok = true).
  { unfold register_user, insert_user in Hreg. rewrite Hsel in Hreg.
    injection Hreg as _ <-. reflexivity. }
  subst ok.
  destruct (register_user_adds_one_facts name password db db' Hreg)
    as [_ [Hauth [[id [Hid Hfresh]] _]]].
  exists db', id. split; [| split; [exact Hfresh |]].
  - unfold register_form, bind.
    destruct name; [contradiction |]. destruct password; [contradiction |].
    cbn [is_empty orb]. rewrite String.eqb_refl. cbn [negb]. rewrite Hreg. reflexivity.
  - unfold login_form. rewrite Hauth, Hid. reflexivity.
Qed.

(** X23. After "Delete Selected Range" the range is empty and the rest is
    kept: the query of the user over the deleted range returns the empty
    frame, and the query without a range returns the rows it returned
    before that are dated outside the range. *)
Theorem delete_range_then_query :
  forall (R : Runtime) (db : Db) (ss : session) (u : Z) (start_del end_del : Date),
    RuntimeLaws R ->
    stored_canonical u db ->
    Dates.canonical start_del = true ->
    Dates.canonical end_del = true ->
    user_id ss = Some u ->
    Dates.gtb start_del end_del = false ->
    exists before after,
      fetch_expenses None None (Some u) db = Ok before
      /\ fetch_expenses None None (Some u)
           (fst (delete_range_page start_del end_del true ss db)) = Ok after
      /\ Permutation after
           (List.filter (fun f => negb (in_range start_del end_del f)) before)
      /\ fetch_expenses (Some (Dates.strftime_ymd start_del))
                        (Some (Dates.strftime_ymd end_del)) (Some u)
           (fst (delete_range_page start_del end_del true ss db)) = Ok [].
Proof.
  intros R db ss u s e Hlaws Hrows Hs He Hu Hle.
  unfold delete_range_page. rewrite Hle, Hu. cbn [fst].
  set (P := fun r => negb (sql_eq (e_user_id r) (Some u) && in_range s e (stored_view r))).
  assert (Hdel : expenses (delete_between (Dates.strftime_ymd s) (Dates.strftime_ymd e)
                             (Some u) db)
                 = List.filter P (expenses db)).
  { unfold delete_between. cbn [expenses]. apply filter_ext_in. intros r Hin. unfold P.
    f_equal. exact (owned_between Hlaws db u Hrows s e
                      (canonical_four_digit _ Hs) (canonical_four_digit _ He) r Hin). }
  assert (Hrows' : stored_canonical u (delete_between (Dates.strftime_ymd s)
                                         (Dates.strftime_ymd e) (Some u) db)).
  { intros r Hin. rewrite Hdel in Hin. apply filter_In in Hin. apply Hrows. tauto. }
  eexists. eexists. split; [apply (fetch_expenses_canonical Hlaws db u Hrows) |].
  split; [apply (fetch_expenses_canonical Hlaws _ u Hrows') |]. split.
  - rewrite Hdel.
    replace (List.filter (where_clause None None (Some u)) (List.filter P (expenses db)))
      with (List.filter (fun r => negb (in_range s e (stored_view r)))
                        (List.filter (where_clause None None (Some u)) (expenses db))).
    + rewrite <- (filter_map_swap (fun f => negb (in_range s e f))).
      eapply perm_trans; [apply Permutation_sym, sort_values_desc_perm |].
      apply Permutation_filter. apply sort_values_desc_perm.
    + rewrite <- !filter_andb. apply filter_ext. intros r. unfold P, where_clause.
      cbn [truthy_str andb]. rewrite andb_true_r.
      destruct (sql_eq (e_user_id r) (Some u)); cbn [andb negb]; [| reflexivity].
      rewrite andb_true_r. reflexivity.
  - rewrite (fetch_expenses_canonical Hlaws _ u Hrows'). rewrite Hdel.
    rewrite filter_none; [reflexivity |].
    intros r Hr. apply filter_In in Hr. destruct Hr as [Hin HP].
    rewrite (where_clause_range Hlaws db u Hrows s e
               (canonical_four_digit _ Hs) (canonical_four_digit _ He) r Hin).
    unfold P in HP. unfold where_clause. cbn [truthy_str andb]. rewrite andb_true_r.
    destruct (sql_eq (e_user_id r) (Some u)); [| reflexivity].
    cbn [andb negb] in *. destruct (in_range s e (stored_view r)); [discriminate | reflexivity].
Qed.

(* ===================================================================== *)
(** * The digest                                                          *)
(* ===================================================================== *)

Lemma round_length (st : list Z) (kw : Z * Z) :
  List.length st = 8%nat -> List.length (Sha256.round st kw) = 8%nat.
Proof.
  intros H. do 8 (destruct st as [| ? st]; [discriminate H |]).
  destruct st; [reflexivity | discriminate H].
Qed.

Lemma rounds_length (kws : list (Z * Z)) :
  forall st, List.length st = 8%nat ->
             List.length (fold_left Sha256.round kws st) = 8%nat.
Proof.
  induction kws as [| kw kws IH]; intros st H; cbn [fold_left].
  - exact H.
  - apply IH. apply round_length. exact H.
Qed.

Lemma compress_length (h block : list Z) :
  List.length h = 8%nat -> List.length (Sha256.compress h block) = 8%nat.
Proof.
  intros H. unfold Sha256.compress.
  rewrite length_map, length_combine, rounds_length, H by exact H. reflexivity.
Qed.

Lemma digest_words_length (msg : list Z) : List.length (Sha256.digest_words msg) = 8%nat.
Proof.
  unfold Sha256.digest_words. cbv zeta.
  generalize (Sha256.blocks
                (List.length (Sha256.words (List.length (Sha256.pad msg)) (Sha256.pad msg)))
                (Sha256.words (List.length (Sha256.pad msg)) (Sha256.pad msg))).
  intros bs. assert (H : List.length Sha256.H0 = 8%nat) by reflexivity.
  revert H. generalize Sha256.H0. induction bs as [| b bs IH]; intros h H; cbn [fold_left].
  - exact H.
  - apply IH. apply compress_length. exact H.
Qed.

Lemma hex_word_length (n : nat) (x : Z) : String.length (Sha256.hex_word n x) = n.
Proof. induction n as [| n IH]; cbn; [| rewrite IH]; reflexivity. Qed.

Lemma concat_hex_length (ws : list Z) :
  String.length (String.concat "" (map (Sha256.hex_word 8) ws)) = (8 * List.length ws)%nat.
Proof.
  induction ws as [| w ws IH]; [reflexivity |].
  cbn [map String.concat]. destruct (map (Sha256.hex_word 8) ws) as [| s l] eqn:E.
  - destruct ws; [| discriminate]. rewrite hex_word_length. reflexivity.
  - rewrite !append_length, hex_word_length. cbn [String.length].
    rewrite IH. cbn [List.length]. lia.
Qed.

(** X24. The digest [hash_password] stores has one length for every
    password: 64 characters, whatever the length of the password; and a
    password is verified against its own digest. *)
Theorem hash_password_length :
  forall password : string,
    String.length (hash_password password) = 64%nat
    /\ verify_password password (hash_password password) = true.
Proof.
  intros password. split.
  - unfold hash_password, Sha256.hexdigest.
    rewrite concat_hex_length, digest_words_length. reflexivity.
  - unfold verify_password. apply String.eqb_refl.
Qed.

(* ===================================================================== *)
(** * The statements above on the sample data                             *)
(* ===================================================================== *)

Lemma reachable_rows_well_formed_witness :
  PyFloat.gt0 (e_amount sample_row) = true
  /\ (exists s, e_description sample_row = Some s)
  /\ (exists c, e_category sample_row = Some c).
Proof.
  apply (reachable_rows_well_formed Canonical.runtime sample_state sample_row).
  - exact sample_reachable.
  - right. left. reflexivity.
Defined.

Lemma reachable_expenses_owned_witness :
  exists u,
    In u (users (snd sample_state)) /\ e_user_id sample_row = Some (u_id u)
    /\ forall u', In u' (users (snd sample_state)) ->
                  e_user_id sample_row = Some (u_id u') -> u' = u.
Proof.
  apply (reachable_expenses_owned Canonical.runtime sample_state sample_row).
  - exact sample_reachable.
  - right. left. reflexivity.
Defined.

Lemma reachable_session_known_witness :
  (logged_in (fst sample_state) = true ->
     exists u, In u (users (snd sample_state))
               /\ username (fst sample_state) = Some (u_username u)
               /\ user_id (fst sample_state) = Some (u_id u)
               /\ get_user_id (u_username u) (snd sample_state) = Some (u_id u))
  /\ (logged_in (fst sample_state) = false ->
        username (fst sample_state) = None /\ user_id (fst sample_state) = None).
Proof.
  apply (reachable_session_known Canonical.runtime sample_state).
  exact sample_reachable.
Defined.

Lemma reachable_keys_distinct_witness :
  NoDup (map u_username (users (snd sample_state)))
  /\ NoDup (map u_id (users (snd sample_state)))
  /\ NoDup (map e_id (expenses (snd sample_state)))
  /\ Forall (fun r => e_id r <= expenses_seq (snd sample_state)) (expenses (snd sample_state)).
Proof.
  apply (reachable_keys_distinct Canonical.runtime sample_state).
  exact sample_reachable.
Defined.

Lemma reachable_users_can_login_witness :
  u_username sample_user <> ""
  /\ get_user_id (u_username sample_user) (snd sample_state) = Some (u_id sample_user)
  /\ exists password,
       password <> ""
       /\ authenticate_user (u_username sample_user) password (snd sample_state) = true.
Proof.
  apply (reachable_users_can_login Canonical.runtime sample_state sample_user).
  - exact sample_reachable.
  - left. reflexivity.
Defined.

Lemma logged_out_cannot_write_witness :
  expenses (snd (initial_session, january_with_bob)) = expenses (snd (initial_session, january_db))
  /\ expenses_seq (snd (initial_session, january_with_bob))
     = expenses_seq (snd (initial_session, january_db)).
Proof.
  apply (logged_out_cannot_write Canonical.runtime (Register "bob" "pw2" "pw2")
           (initial_session, january_db) (initial_session, january_with_bob)
           [st_success "Registration successful! Please login."]).
  - reflexivity.
  - vm_compute. reflexivity.
Defined.

Lemma others_rows_untouched_witness :
  rows_of_others (Some 1)
    (snd (refund_session, fst (clear_all_page true true refund_session january_db)))
  = rows_of_others (Some 1) (snd (refund_session, january_db)).
Proof.
  apply (others_rows_untouched Canonical.runtime (ClearAll true)
           (refund_session, january_db)
           (refund_session, fst (clear_all_page true true refund_session january_db))
           (snd (clear_all_page true true refund_session january_db)) 1).
  - reflexivity.
  - reflexivity.
Defined.

Lemma fetch_expenses_sorted_witness :
  StronglySorted ts_desc
    [ mkView 3 (Dates.midnight (mkDate 2024 1 15)) 40%float (Some "uber") (Some "Transport");
      mkView 1 (Dates.midnight (mkDate 2024 1 10)) 12.5%float (Some "lunch") (Some "Food") ]
  /\ (List.length
        [ mkView 3%Z (Dates.midnight (mkDate 2024 1 15)) 40%float (Some "uber") (Some "Transport");
          mkView 1%Z (Dates.midnight (mkDate 2024 1 10)) 12.5%float (Some "lunch") (Some "Food") ]
      <= List.length (List.filter (where_clause (R := Canonical.runtime) None None (Some 1%Z))
                                  (expenses january_db)))%nat.
Proof.
  apply (fetch_expenses_sorted Canonical.runtime None None (Some 1) january_db).
  vm_compute. reflexivity.
Defined.

Lemma add_then_query_witness :
  exists db' before after,
    add_expense_page (R := Canonical.runtime) (mkDate 2024 2 1) 8%float nbsp_bus "Transport" true
                     refund_session january_db
    = Ok (db', expense_added)
    /\ stored_canonical 1 db'
    /\ fetch_expenses (R := Canonical.runtime) None None (Some 1) january_db = Ok before
    /\ fetch_expenses (R := Canonical.runtime) None None (Some 1) db' = Ok after
    /\ Permutation after
         (mkView (next_id (expenses_seq january_db) (map e_id (expenses january_db)))
                 (Dates.midnight (mkDate 2024 2 1)) 8%float (Some (Text.strip nbsp_bus))
                 (Some "Transport")
          :: before).
Proof.
  apply (add_then_query Canonical.runtime january_db refund_session 1 (mkDate 2024 2 1)
           8%float nbsp_bus "Transport").
  - exact canonical_runtime_laws.
  - exact january_db_canonical.
  - reflexivity.
  - reflexivity.
  - reflexivity.
Defined.

Lemma clear_then_query_witness :
  fetch_expenses (R := Canonical.runtime) (Some "2024-01-01") (Some "2024-12-31") (Some 1)
                 (fst (clear_all_page true true refund_session january_db)) = Ok []
  /\ forall v, v <> 1 ->
       fetch_expenses (R := Canonical.runtime) (Some "2024-01-01") (Some "2024-12-31") (Some v)
                      (fst (clear_all_page true true refund_session january_db))
       = fetch_expenses (R := Canonical.runtime) (Some "2024-01-01") (Some "2024-12-31")
                        (Some v) january_db.
Proof.
  apply (clear_then_query Canonical.runtime january_db refund_session 1
           (Some "2024-01-01") (Some "2024-12-31")).
  reflexivity.
Defined.

Lemma register_user_adds_one_witness :
  get_user_id "alice" init_db = None
  /\ authenticate_user "alice" "pw1" alice_db = true
  /\ (exists id, get_user_id "alice" alice_db = Some id /\ ~ In id (map u_id (users init_db)))
  /\ (forall other p,
        other <> "alice" ->
        authenticate_user other p alice_db = authenticate_user other p init_db
        /\ get_user_id other alice_db = get_user_id other init_db)
  /\ expenses alice_db = expenses init_db.
Proof.
  apply (register_user_adds_one "alice" "pw1" init_db alice_db).
  vm_compute. reflexivity.
Defined.

Lemma expense_ids_not_reused_witness :
  exists new,
    expenses january_cleared_then_added = expenses (delete_all (Some 1) january_db) ++ [new]
    /\ expenses_seq january_cleared_then_added = e_id new
    /\ forall r, In r (expenses january_db) -> e_id r < e_id new.
Proof.
  apply (expense_ids_not_reused "2024-02-01" 8%float "bus" "Transport" (Some 1) (Some 2)
           january_db january_cleared_then_added).
  - repeat constructor; cbn; lia.
  - reflexivity.
Defined.

Lemma register_then_login_witness :
  exists db' id,
    register_form "bob" "pw2" "pw2" true alice_db
    = Ok (db', [st_success "Registration successful! Please login."])
    /\ ~ In id (map u_id (users alice_db))
    /\ login_form "bob" "pw2" true initial_session db'
       = (mkSession true (Some "bob") (Some id), [st_success "Logged in successfully!"]).
Proof.
  apply (register_then_login "bob" "pw2" initial_session alice_db).
  - discriminate.
  - discriminate.
  - reflexivity.
Defined.

Lemma delete_range_then_query_witness :
  exists before after,
    fetch_expenses (R := Canonical.runtime) None None (Some 1) january_db = Ok before
    /\ fetch_expenses (R := Canonical.runtime) None None (Some 1)
         (fst (delete_range_page (R := Canonical.runtime) (mkDate 2024 1 12) (mkDate 2024 1 31)
                                 true refund_session january_db)) = Ok after
    /\ Permutation after
         (List.filter (fun f => negb (in_range (mkDate 2024 1 12) (mkDate 2024 1 31) f)) before)
    /\ fetch_expenses (R := Canonical.runtime)
         (Some (Dates.strftime_ymd (R := Canonical.runtime) (mkDate 2024 1 12)))
         (Some (Dates.strftime_ymd (R := Canonical.runtime) (mkDate 2024 1 31))) (Some 1)
         (fst (delete_range_page (R := Canonical.runtime) (mkDate 2024 1 12) (mkDate 2024 1 31)
                                 true refund_session january_db)) = Ok [].
Proof.
  apply (delete_range_then_query Canonical.runtime january_db refund_session 1
           (mkDate 2024 1 12) (mkDate 2024 1 31)).
  - exact canonical_runtime_laws.
  - exact january_db_canonical.
  - reflexivity.
  - reflexivity.
  - reflexivity.
  - reflexivity.
Defined.
